(** * The club-membership client: remote calls issued by its view handlers

    The client is a set of view components that talk to one hosted backend.
    Every handler below is the handler of the same name in the TypeScript
    sources, written as a state-passing function over a [World] that records
    the remote requests issued, the local-storage accesses and the banners
    shown.  The backend is not part of the repository: it is a parameter
    that answers every request, and all results hold for every backend. *)

From stdpp Require Import gmap strings list pretty.
From Stdlib Require Import ZArith Lia.

Local Open Scope Z_scope.
Local Open Scope string_scope.
Local Open Scope list_scope.

(** ** JavaScript values used by the handlers *)

(** [x === y] on values that are a string or [undefined]. *)
Definition strict_eq (x y : option string) : bool := bool_decide (x = y).

(** Truthiness of a string-or-undefined value: [undefined] and [""] are falsy. *)
Definition truthy_str (x : option string) : bool :=
  match x with
  | Some s => negb (bool_decide (s = ""))
  | None => false
  end.

(** [x || d] on string-or-undefined values. *)
Definition or_else (x : option string) (d : string) : string :=
  match x with
  | Some s => if bool_decide (s = "") then d else s
  | None => d
  end.

(** Truthiness of an optional boolean field ([is_admin?: boolean]). *)
Definition truthy_flag (x : option bool) : bool :=
  match x with
  | Some b => b
  | None => false
  end.

(** The signed-in user as delivered by [useAuth]: [email] is optional. *)
Record User := { user_id : string; email : option string }.

(** [user?.email] *)
Definition opt_email (user : option User) : option string :=
  match user with
  | Some u => email u
  | None => None
  end.

(** ** Rows exchanged with the backend *)

(** [LeaderboardUser]; the list field [borrowed_items] is carried along
    untouched by the object spread and is left out. *)
Record LeaderboardUser := {
  id : string;
  name : string;
  points : Z;
  rank : option Z;
  is_admin : option bool
}.

Record Announcement := {
  a_id : string;
  a_title : string;
  a_content : string;
  a_type : string
}.

Record Equipment := {
  e_id : string;
  e_name : string;
  e_count : Z;
  e_type : string;
  e_description : string
}.

Record Borrowing := {
  b_id : string;
  b_status : string;
  is_hidden : bool
}.

Record Notification := {
  n_id : string;
  n_message : string;
  n_type : string;
  is_read : bool
}.

Record ShopItemType := {
  item_id : string;
  item_name : string;
  points_cost : Z
}.

(** [ShopItem] *)
Record ShopItem := {
  si_name : string;
  si_points_cost : Z
}.

(** An element of the [items] column of [claims_with_user].  [ri_item] is
    [None] when [item.item] is [null] or missing. *)
Record ClaimRowItem := {
  ri_id : string;
  ri_quantity : Z;
  ri_item : option ShopItem
}.

(** A row of [claims_with_user] as the backend delivers it.  [cr_items] is
    [None] when [claim.items] is [null], missing or not an array, and an
    element of the array is [None] when it is [null] or not an object. *)
Record ClaimRow := {
  cr_id : string;
  cr_status : string;
  cr_created_at : string;
  cr_user_email : string;
  cr_items : option (list (option ClaimRowItem))
}.

(** [ClaimItem] and [Claim], the shapes the claims panel keeps. *)
Record ClaimItem := {
  ci_id : string;
  ci_quantity : Z;
  ci_shop_items : ShopItem
}.

Record Claim := {
  c_id : string;
  c_status : string;
  c_created_at : string;
  c_user_email : string;
  c_claim_items : list ClaimItem
}.

(** A parsed value that is not an array, told apart by what
    [localData.length > 0] makes of it: on [null] reading [length] throws;
    a number, a boolean, the empty string and an object without a positive
    [length] compare as not greater than 0; a non-empty string and an
    object with a positive [length] compare as greater. *)
Inductive NonArray : Type :=
| JsNull
| WithoutLength
| WithLength.

(** The result of [JSON.parse] when it does not throw.  The elements of an
    array are taken to be rows of the relation. *)
Inductive Parsed (A : Type) : Type :=
| NotArray (v : NonArray)
| ArrayOf (rows : list A).
Arguments NotArray {A} v.
Arguments ArrayOf {A} rows.

(** A piece of JSON text, seen through what the code does with it: test it
    for truthiness, then hand it to [JSON.parse]. *)
Inductive JsonText (A : Type) : Type :=
| EmptyText
| Malformed
| WellFormed (v : Parsed A).
Arguments EmptyText {A}.
Arguments Malformed {A}.
Arguments WellFormed {A} v.

(** ** Requests to the backend *)

(** One constructor per request shape the handlers build with the backend
    client: [rpc_f] is [supabase.rpc('f', {...})] with its named arguments,
    [from_t_...] is a query on relation [t]. *)
Inductive Call : Type :=
| from_profiles_with_points_select
| rpc_add_points_to_user (user_uuid : string) (points_to_add : Z)
| rpc_create_notification (user_uuid message notification_type : string)
| rpc_fetch_user_points (user_uuid : option string)
| rpc_purchase_shop_item (item_uuid user_uuid : string) (quantity : Z)
| from_cart_items_upsert (user_id item_id : string) (quantity : Z)
| from_cart_items_delete_eq_id (id : string)
| rpc_submit_cart_claim (return_date : option string)
| from_claims_with_user_select
| rpc_update_claim_status_with_notification (claim_uuid new_status : string)
| rpc_mark_notification_read (notification_uuid : string)
| from_notifications_select (user_id : string)
| rpc_toggle_borrowing_visibility (claim_id : string)
| from_admin_borrowings_select
| rpc_get_user_borrowings (user_uuid : string)
| from_announcements_select_all
| from_announcements_select_id
| from_announcements_delete_in (ids : list string)
| from_announcements_upsert (rows : list Announcement)
| from_equipment_stats_select_all
| from_equipment_stats_select_id
| from_equipment_stats_delete_in (ids : list string)
| from_equipment_stats_upsert (rows : list Equipment)
| rpc_create_equipment_stats_table_if_not_exists
| rpc_load_equipment_for_client_v2
| rpc_simple_load_equipment
| rpc_fix_equipment_loading.

(** The type of the [data] field of the answer to each request. *)
Definition Data (c : Call) : Type :=
  match c with
  | from_profiles_with_points_select => list LeaderboardUser
  | rpc_fetch_user_points _ => Z
  | from_claims_with_user_select => list ClaimRow
  | from_notifications_select _ => list Notification
  | rpc_toggle_borrowing_visibility _ => bool
  | from_admin_borrowings_select => list Borrowing
  | rpc_get_user_borrowings _ => list Borrowing
  | from_announcements_select_all => list Announcement
  | from_announcements_select_id => list string
  | from_equipment_stats_select_all => list Equipment
  | from_equipment_stats_select_id => list string
  | rpc_load_equipment_for_client_v2 => list Equipment
  | rpc_simple_load_equipment => JsonText Equipment
  | _ => unit
  end.

Record PostgrestError := { message : string }.

(** [{ data, error }]: [data] may be [null], [error] is [null] on success. *)
Record Response (c : Call) := {
  data : option (Data c);
  error : option PostgrestError
}.
Arguments data {c} r.
Arguments error {c} r.

(** A successful answer carrying [d], and a refusal with a message. *)
Definition ok (c : Call) (d : option (Data c)) : Response c :=
  {| data := d; error := None |}.

Definition refused (c : Call) (msg : string) : Response c :=
  {| data := None; error := Some {| message := msg |} |}.

(** Requests that change the remote store, as opposed to reads. *)
Definition is_write (c : Call) : bool :=
  match c with
  | rpc_add_points_to_user _ _
  | rpc_create_notification _ _ _
  | rpc_purchase_shop_item _ _ _
  | from_cart_items_upsert _ _ _
  | from_cart_items_delete_eq_id _
  | rpc_submit_cart_claim _
  | rpc_update_claim_status_with_notification _ _
  | rpc_mark_notification_read _
  | rpc_toggle_borrowing_visibility _
  | from_announcements_delete_in _
  | from_announcements_upsert _
  | from_equipment_stats_delete_in _
  | from_equipment_stats_upsert _
  | rpc_create_equipment_stats_table_if_not_exists
  | rpc_fix_equipment_loading => true
  | _ => false
  end.

(** The backend answers a request knowing the requests made before it. *)
Definition Backend : Type := list Call -> forall c : Call, Response c.

(** ** The world a handler runs in *)

Record Toast := {
  title : string;
  description : string;
  destructive : bool
}.

(** [localStorage], one cell per key of [STORAGE_KEYS] that holds a list. *)
Record LocalStorage := {
  av_club_announcements : option (JsonText Announcement);
  av_club_equipment : option (JsonText Equipment)
}.

Inductive StorageKey : Type := key_announcements | key_equipment.

Inductive Event : Type :=
| Remote (c : Call)
| GetItem (k : StorageKey)
| SetItem (k : StorageKey).

Record World := {
  trace : list Event;
  toasts : list Toast;
  localStorage : LocalStorage
}.

(** The remote requests of a trace, in the order they were issued. *)
Definition remote_calls (t : list Event) : list Call :=
  omap (fun e => match e with Remote c => Some c | _ => None end) t.

Definition remote_writes (t : list Event) : list Call :=
  filter (fun c => is_write c = true) (remote_calls t).

Definition storage_reads (t : list Event) : list StorageKey :=
  omap (fun e => match e with GetItem k => Some k | _ => None end) t.

(** A computation with effects on the world. *)
Definition M (A : Type) : Type := World -> A * World.

Global Instance M_ret : MRet M := fun A (a : A) w => (a, w).

Definition bindM {A B : Type} (m : M A) (k : A -> M B) : M B :=
  fun w => let (a, w') := m w in k a w'.

Global Instance M_bind : MBind M := fun A B k m => bindM m k.

Notation "'let*' x ':=' m 'in' k" := (bindM m (fun x => k))
  (at level 10, x name, m at level 100, k at level 200).

Definition toast (t : Toast) : M unit :=
  fun w => (tt, {| trace := trace w; toasts := toasts w ++ [t];
                   localStorage := localStorage w |}).

Definition getItem_announcements : M (option (JsonText Announcement)) :=
  fun w => (av_club_announcements (localStorage w),
            {| trace := trace w ++ [GetItem key_announcements];
               toasts := toasts w; localStorage := localStorage w |}).

Definition getItem_equipment : M (option (JsonText Equipment)) :=
  fun w => (av_club_equipment (localStorage w),
            {| trace := trace w ++ [GetItem key_equipment];
               toasts := toasts w; localStorage := localStorage w |}).

(** [localStorage.setItem(key, JSON.stringify(rows))] *)
Definition setItem_announcements (rows : list Announcement) : M unit :=
  fun w => (tt,
            {| trace := trace w ++ [SetItem key_announcements];
               toasts := toasts w;
               localStorage :=
                 {| av_club_announcements := Some (WellFormed (ArrayOf rows));
                    av_club_equipment := av_club_equipment (localStorage w) |} |}).

(** The same call with a value that is not an array: the cell then holds
    the text of that value. *)
Definition setItem_announcements_value (v : NonArray) : M unit :=
  fun w => (tt,
            {| trace := trace w ++ [SetItem key_announcements];
               toasts := toasts w;
               localStorage :=
                 {| av_club_announcements := Some (WellFormed (NotArray v));
                    av_club_equipment := av_club_equipment (localStorage w) |} |}).

Definition setItem_equipment (rows : list Equipment) : M unit :=
  fun w => (tt,
            {| trace := trace w ++ [SetItem key_equipment];
               toasts := toasts w;
               localStorage :=
                 {| av_club_announcements := av_club_announcements (localStorage w);
                    av_club_equipment := Some (WellFormed (ArrayOf rows)) |} |}).

(** Issue a request and wait for its answer. *)
Definition request (backend : Backend) (c : Call) : M (Response c) :=
  fun w => (backend (remote_calls (trace w)) c,
            {| trace := trace w ++ [Remote c]; toasts := toasts w;
               localStorage := localStorage w |}).

(** ** leaderboard.tsx: the leaderboard and its admin controls *)

Module Leaderboard.

Record PointAdjustment := { value : Z; label : string }.

Definition POINT_ADJUSTMENTS : list PointAdjustment :=
  [ {| value := -10; label := "-10" |};
    {| value := -5; label := "-5" |};
    {| value := -1; label := "-1" |};
    {| value := 1; label := "+1" |};
    {| value := 5; label := "+5" |};
    {| value := 10; label := "+10" |} ].

(** Component state. *)
Record State := {
  users : list LeaderboardUser;
  loading : bool;
  loadingPointChange : option string
}.

Definition setUsers (us : list LeaderboardUser) (s : State) : State :=
  {| users := us; loading := loading s;
     loadingPointChange := loadingPointChange s |}.

Definition setLoading (b : bool) (s : State) : State :=
  {| users := users s; loading := b;
     loadingPointChange := loadingPointChange s |}.

Definition setLoadingPointChange (x : option string) (s : State) : State :=
  {| users := users s; loading := loading s; loadingPointChange := x |}.

(** The [filter] callback of [fetchUsers], with the [Set] it updates
    threaded through the traversal. *)
Fixpoint filter_unique (uniqueUsers : gset string)
    (rows : list LeaderboardUser) : list LeaderboardUser :=
  match rows with
  | [] => []
  | user :: rest =>
      if bool_decide (id user ∈ uniqueUsers) || truthy_flag (is_admin user)
      then filter_unique uniqueUsers rest
      else user :: filter_unique ({[ id user ]} ∪ uniqueUsers) rest
  end.

(** [{ ...user, rank: index + 1 }] *)
Definition with_rank (index : nat) (user : LeaderboardUser) : LeaderboardUser :=
  {| id := id user; name := name user; points := points user;
     rank := Some (Z.of_nat index + 1); is_admin := is_admin user |}.

Definition rankedUsers (rows : list LeaderboardUser) : list LeaderboardUser :=
  imap with_rank (filter_unique ∅ rows).

(** A row that the filter does not take for an administrator. *)
Definition non_admin (u : LeaderboardUser) : Prop :=
  truthy_flag (is_admin u) = false.

Definition load_failed : Toast :=
  {| title := "Error"; description := "Failed to load leaderboard";
     destructive := true |}.

Section Handlers.

Variable backend : Backend.
(** [import.meta.env.VITE_ADMIN_EMAIL] *)
Variable VITE_ADMIN_EMAIL : option string.
(** [useAuth().user] *)
Variable user : option User.

Definition ADMIN_EMAIL : option string := VITE_ADMIN_EMAIL.

(** [fetchUsers] after its request has been answered.  A [null] payload
    without an error makes [data.filter] throw, which the [catch]
    reports like a failed read. *)
Definition fetchUsers_resume
    (r : Response from_profiles_with_points_select) (s : State) : M State :=
  match error r, data r with
  | None, Some rows =>
      mret (setLoading false (setUsers (rankedUsers rows) s))
  | _, _ =>
      toast load_failed;;
      mret (setLoading false s)
  end.

Definition fetchUsers (s : State) : M State :=
  let* r := request backend from_profiles_with_points_select in
  fetchUsers_resume r (setLoading true s).

Definition notification_for (pointsToAdd : Z) : string * string :=
  if bool_decide (pointsToAdd > 0)
  then ("You've earned " +:+ pretty pointsToAdd +:+ " points!", "success")
  else (pretty (Z.abs pointsToAdd) +:+ " points have been deducted.", "error").

Definition update_failed : Toast :=
  {| title := "Error"; description := "Failed to update points";
     destructive := true |}.

Definition update_done (pointsToAdd : Z) : Toast :=
  {| title := "Success";
     description := "Points " +:+
       (if bool_decide (pointsToAdd >= 0) then "added to" else "deducted from")
       +:+ " user";
     destructive := false |}.

(** [addPoints].  The refresh is started without being awaited: its
    request goes out where [fetchUsers()] is called, and its answer is
    handled after the rest of the handler has run. *)
Definition addPoints (userId : string) (pointsToAdd : Z) (s : State) : M State :=
  match user with
  | None => mret s
  | Some u =>
      if negb (strict_eq (email u) ADMIN_EMAIL) then mret s
      else
        let s := setLoadingPointChange (Some userId) s in
        let* r := request backend (rpc_add_points_to_user userId pointsToAdd) in
        match error r with
        | Some _ =>
            toast update_failed;;
            mret (setLoadingPointChange None s)
        | None =>
            let '(notificationMessage, notificationType) :=
              notification_for pointsToAdd in
            let* _ := request backend
                  (rpc_create_notification userId notificationMessage
                     notificationType) in
            let* refreshed := request backend from_profiles_with_points_select in
            toast (update_done pointsToAdd);;
            fetchUsers_resume refreshed
              (setLoadingPointChange None (setLoading true s))
        end
  end.

(** The [onClick] of the button rendered for [adjustment] in the row of
    [leaderboardUser] in the admin controls. *)
Definition onClick (leaderboardUser : LeaderboardUser)
    (adjustment : PointAdjustment) : State -> M State :=
  addPoints (id leaderboardUser) (value adjustment).

End Handlers.

(** The icon drawn next to a row. *)
Inductive Icon : Type := GoldMedal | SilverMedal | BronzeMedal | Bird.

(** [getMedalIcon]: [null] for a missing rank and for rank 0. *)
Definition getMedalIcon (rank : option Z) : option Icon :=
  match rank with
  | None => None
  | Some 0 => None
  | Some 1 => Some GoldMedal
  | Some 2 => Some SilverMedal
  | Some 3 => Some BronzeMedal
  | Some _ => Some Bird
  end.

End Leaderboard.

(** ** The stand-alone admin panel (third module of leaderboard.tsx) *)

Module AdminPanel.

Definition ADMIN_EMAIL : option string := Some "ademmsallem782@gmail.com".

Record State := {
  isAdmin : bool;
  isAuthorizedAdmin : bool;
  loading : gmap string bool
}.

Definition setLoading (userId : string) (b : bool) (s : State) : State :=
  {| isAdmin := isAdmin s; isAuthorizedAdmin := isAuthorizedAdmin s;
     loading := <[ userId := b ]> (loading s) |}.

(** The effect run when [user] changes. *)
Definition on_user_change (user : option User) (s : State) : State :=
  match user with
  | Some u =>
      if strict_eq (email u) ADMIN_EMAIL
      then {| isAdmin := isAdmin s; isAuthorizedAdmin := true;
              loading := loading s |}
      else {| isAdmin := false; isAuthorizedAdmin := false;
              loading := loading s |}
  | None => {| isAdmin := false; isAuthorizedAdmin := false;
               loading := loading s |}
  end.

Definition pointButtons : list Z := [-1; 1; -5; 5; -10; 10; 2].

Definition points_updated (pointChange : Z) : Toast :=
  {| title := "Points updated";
     description := pretty (Z.abs pointChange) +:+ " points have been " +:+
       (if bool_decide (pointChange >= 0) then "added to" else "deducted from")
       +:+ " the user.";
     destructive := false |}.

Definition update_failed : Toast :=
  {| title := "Failed to update points";
     description := "An error occurred while updating points. Please try again.";
     destructive := true |}.

(** How a call of the parent's callback ends. *)
Inductive Completion : Type := Returns | Throws.

Section Handlers.

Variable backend : Backend.
(** The [onPointsUpdated] callback handed in by the parent, with what it
    does to the world and whether it returns or throws. *)
Variable onPointsUpdated : M Completion.

Definition handlePointChange (userId : string) (pointChange : Z)
    (s : State) : M State :=
  if negb (isAdmin s) || negb (isAuthorizedAdmin s) then mret s
  else
    let s := setLoading userId true s in
    let* r := request backend (rpc_add_points_to_user userId pointChange) in
    match error r with
    | Some _ =>
        toast update_failed;;
        mret (setLoading userId false s)
    | None =>
        toast (points_updated pointChange);;
        let* completion := onPointsUpdated in
        match completion with
        | Returns => mret (setLoading userId false s)
        | Throws =>
            toast update_failed;;
            mret (setLoading userId false s)
        end
    end.

End Handlers.

End AdminPanel.

(** ** shop-page.tsx: the shop *)

Module ShopPage.

Record State := { userPoints : Z }.

Definition points_failed : Toast :=
  {| title := "Error"; description := "Failed to load points balance";
     destructive := true |}.

Definition sign_in_first : Toast :=
  {| title := "Error"; description := "Please sign in to make purchases";
     destructive := true |}.

Definition insufficient (item : ShopItemType) (userPoints : Z) : Toast :=
  {| title := "Insufficient Points";
     description := "You need " +:+ pretty (points_cost item) +:+
       " points to purchase this item. Current balance: " +:+
       pretty userPoints +:+ " points";
     destructive := true |}.

Definition purchased : Toast :=
  {| title := "Success"; description := "Item purchased successfully!";
     destructive := false |}.

Definition purchase_failed (e : PostgrestError) : Toast :=
  {| title := "Error";
     description := or_else (Some (message e)) "Failed to purchase item";
     destructive := true |}.

Section Handlers.

Variable backend : Backend.
Variable user : option User.

(** [fetchUserPoints]: [setUserPoints(data || 0)] on success. *)
Definition fetchUserPoints (s : State) : M State :=
  let* r := request backend (rpc_fetch_user_points (user_id <$> user)) in
  match error r with
  | Some _ => toast points_failed;; mret s
  | None => mret {| userPoints := default 0 (data r) |}
  end.

Definition handlePurchase (item : ShopItemType) (s : State) : M State :=
  match user with
  | None => toast sign_in_first;; mret s
  | Some u =>
      if bool_decide (userPoints s < points_cost item)
      then toast (insufficient item (userPoints s));; mret s
      else
        let* r := request backend
              (rpc_purchase_shop_item (item_id item) (user_id u) 1) in
        match error r with
        | Some e => toast (purchase_failed e);; mret s
        | None => toast purchased;; fetchUserPoints s
        end
  end.

Definition sign_in_for_cart : Toast :=
  {| title := "Error"; description := "Please sign in to add items to cart";
     destructive := true |}.

Definition added_to_cart : Toast :=
  {| title := "Success"; description := "Item added to cart!";
     destructive := false |}.

Definition add_to_cart_failed (e : PostgrestError) : Toast :=
  {| title := "Error";
     description := or_else (Some (message e)) "Failed to add item to cart";
     destructive := true |}.

(** [addToCart] neither reads nor changes the page state. *)
Definition addToCart (item : ShopItemType) (s : State) : M State :=
  match user with
  | None => toast sign_in_for_cart;; mret s
  | Some u =>
      let* r := request backend
            (from_cart_items_upsert (user_id u) (item_id item) 1) in
      match error r with
      | Some e => toast (add_to_cart_failed e);; mret s
      | None => toast added_to_cart;; mret s
      end
  end.

End Handlers.

End ShopPage.

(** ** The cart *)

Module Cart.

(** [CartItem]: a cart row with the shop item it refers to. *)
Record CartItem := {
  ct_id : string;
  ct_item_id : string;
  ct_quantity : Z;
  ct_shop_items : ShopItem
}.

(** [items.reduce(...)], the total shown at the bottom of the cart. *)
Definition totalPoints (items : list CartItem) : Z :=
  foldl (fun sum item => sum + si_points_cost (ct_shop_items item) * ct_quantity item)
        0 items.

Definition item_removed : Toast :=
  {| title := "Item removed";
     description := "Item has been removed from your cart";
     destructive := false |}.

Definition remove_failed : Toast :=
  {| title := "Error"; description := "Failed to remove item from cart";
     destructive := true |}.

Definition submitted : Toast :=
  {| title := "Success"; description := "Your request has been submitted";
     destructive := false |}.

Definition submit_failed (msg : string) : Toast :=
  {| title := "Error";
     description := or_else (Some msg) "Failed to submit request";
     destructive := true |}.

Section Handlers.

Variable backend : Backend.
Variable user : option User.
(** The dates the picker hands over, and [format(returnDate, "yyyy-MM-dd")]
    on them: the text, or the message of the error it throws. *)
Variable Date : Type.
Variable format_yyyy_MM_dd : Date -> string + string.

Record State := {
  items : list CartItem;
  submitting : bool;
  open : bool;
  returnDate : option Date
}.

Definition removeFromCart (id : string) (s : State) : M State :=
  let* r := request backend (from_cart_items_delete_eq_id id) in
  match error r with
  | Some _ => toast remove_failed;; mret s
  | None =>
      toast item_removed;;
      mret {| items := filter (fun item => ct_id item ≠ id) (items s);
              submitting := submitting s; open := open s;
              returnDate := returnDate s |}
  end.

(** The end of [submitClaim] once the request has been answered. *)
Definition submitClaim_resume (c : Call) (result : Response c) (s : State)
    : M State :=
  match error result with
  | Some e =>
      toast (submit_failed (message e));;
      mret {| items := items s; submitting := false; open := open s;
              returnDate := returnDate s |}
  | None =>
      toast submitted;;
      mret {| items := []; submitting := false; open := false;
              returnDate := None |}
  end.

Definition submitClaim (s : State) : M State :=
  match user, items s with
  | None, _ | _, [] => mret s
  | Some _, _ :: _ =>
      match returnDate s with
      | Some date =>
          match format_yyyy_MM_dd date with
          | inl text =>
              let* result := request backend (rpc_submit_cart_claim (Some text)) in
              submitClaim_resume _ result s
          | inr msg =>
              toast (submit_failed msg);;
              mret {| items := items s; submitting := false; open := open s;
                      returnDate := returnDate s |}
          end
      | None =>
          let* result := request backend (rpc_submit_cart_claim None) in
          submitClaim_resume _ result s
      end
  end.

End Handlers.

Arguments items {Date} s.
Arguments submitting {Date} s.
Arguments open {Date} s.
Arguments returnDate {Date} s.
Arguments removeFromCart backend {Date} id s.
Arguments submitClaim backend user {Date} format_yyyy_MM_dd s.

End Cart.

(** ** The admin claims panel *)

Module AdminClaimsPanel.

Inductive Decision : Type := approved | rejected.

Definition decision_text (d : Decision) : string :=
  match d with
  | approved => "approved"
  | rejected => "rejected"
  end.

Record State := {
  claims : list Claim;
  loading : bool;
  updating : option string
}.

Definition with_message (e : PostgrestError) (fallback : string) : Toast :=
  {| title := "Error"; description := or_else (Some (message e)) fallback;
     destructive := true |}.

Definition status_updated (d : Decision) : Toast :=
  {| title := "Success";
     description := "Claim " +:+ decision_text d +:+ " successfully!";
     destructive := false |}.

(** The callback of [claim.items.map]: reading [item.id] of an element
    that is not an object, or [item.item.name] of a missing [item.item],
    throws. *)
Definition transform_item (item : option ClaimRowItem) : option ClaimItem :=
  match item with
  | Some item =>
      match ri_item item with
      | Some shop_item =>
          Some {| ci_id := ri_id item; ci_quantity := ri_quantity item;
                  ci_shop_items := {| si_name := si_name shop_item;
                                      si_points_cost := si_points_cost shop_item |} |}
      | None => None
      end
  | None => None
  end.

(** The callback of [(data || []).map]: [claim.items.map] throws when
    [claim.items] is not an array, and so does the callback above. *)
Definition transform_claim (claim : ClaimRow) : option Claim :=
  match cr_items claim with
  | Some items =>
      match mapM transform_item items with
      | Some claim_items =>
          Some {| c_id := cr_id claim; c_status := cr_status claim;
                  c_created_at := cr_created_at claim;
                  c_user_email := cr_user_email claim;
                  c_claim_items := claim_items |}
      | None => None
      end
  | None => None
  end.

(** [transformedData], or [None] when building it throws. *)
Definition transformedData (rows : list ClaimRow) : option (list Claim) :=
  mapM transform_claim rows.

Section Handlers.

Variable backend : Backend.
(** The [message] of the [TypeError] the engine throws while the rows are
    transformed; its wording is the engine's. *)
Variable type_error_message : list ClaimRow -> string.

Definition fetchClaims_resume (r : Response from_claims_with_user_select)
    (s : State) : M State :=
  match error r with
  | Some e =>
      toast (with_message e "Failed to load claims");;
      mret {| claims := claims s; loading := false; updating := updating s |}
  | None =>
      let rows := default [] (data r) in
      match transformedData rows with
      | Some transformed =>
          mret {| claims := transformed; loading := false;
                  updating := updating s |}
      | None =>
          toast (with_message {| message := type_error_message rows |}
                   "Failed to load claims");;
          mret {| claims := claims s; loading := false; updating := updating s |}
      end
  end.

Definition fetchClaims (s : State) : M State :=
  let* r := request backend from_claims_with_user_select in
  fetchClaims_resume r s.

(** [handleUpdateStatus]; approving a claim is
    [handleUpdateStatus claimId approved]. *)
Definition handleUpdateStatus (claimId : string) (newStatus : Decision)
    (s : State) : M State :=
  let s := {| claims := claims s; loading := loading s;
              updating := Some claimId |} in
  let* r := request backend
        (rpc_update_claim_status_with_notification claimId
           (decision_text newStatus)) in
  match error r with
  | Some e =>
      toast (with_message e "Failed to update claim status");;
      mret {| claims := claims s; loading := loading s; updating := None |}
  | None =>
      toast (status_updated newStatus);;
      let* refreshed := request backend from_claims_with_user_select in
      fetchClaims_resume refreshed
        {| claims := claims s; loading := loading s; updating := None |}
  end.

End Handlers.

End AdminClaimsPanel.

(** ** The notifications centre and its items *)

Module NotificationsCenter.

Record State := {
  notifications : list Notification;
  loading : bool
}.

Definition mark_read (n : Notification) : Notification :=
  {| n_id := n_id n; n_message := n_message n; n_type := n_type n;
     is_read := true |}.

(** [handleMarkAsRead] of the centre: a local update only. *)
Definition handleMarkAsRead (id : string) (s : State) : State :=
  {| notifications :=
       (fun notification =>
          if bool_decide (n_id notification = id)
          then mark_read notification else notification)
       <$> notifications s;
     loading := loading s |}.

Definition unreadCount (s : State) : nat :=
  length (filter (fun notification => is_read notification = false)
                 (notifications s)).

Definition new_notification (n : Notification) : Toast :=
  {| title := "New Notification"; description := n_message n;
     destructive := false |}.

(** The callback registered on the realtime channel for [INSERT] events
    on the user's notifications; [payload_new] is [payload.new]. *)
Definition on_insert (payload_new : Notification) (s : State) : M State :=
  let s := {| notifications := payload_new :: notifications s;
              loading := loading s |} in
  toast (new_notification payload_new);;
  mret s.

Definition fetch_failed (e : PostgrestError) : Toast :=
  {| title := "Error";
     description := or_else (Some (message e)) "Failed to fetch notifications";
     destructive := true |}.

Definition mark_failed (e : PostgrestError) : Toast :=
  {| title := "Error";
     description :=
       or_else (Some (message e)) "Failed to mark notification as read";
     destructive := true |}.

Section Handlers.

Variable backend : Backend.
Variable user : option User.

Definition fetchNotifications (s : State) : M State :=
  match user with
  | None => mret s
  | Some u =>
      let* r := request backend (from_notifications_select (user_id u)) in
      match error r with
      | Some e =>
          toast (fetch_failed e);;
          mret {| notifications := notifications s; loading := false |}
      | None =>
          mret {| notifications := default [] (data r); loading := false |}
      end
  end.

(** [handleMarkAsRead] of a [NotificationItem], whose [onMarkAsRead]
    is the centre's [handleMarkAsRead].  The item's own spinner flag is
    left out. *)
Definition item_handleMarkAsRead (notification : Notification)
    (s : State) : M State :=
  if is_read notification then mret s
  else
    let* r := request backend (rpc_mark_notification_read (n_id notification)) in
    match error r with
    | Some e => toast (mark_failed e);; mret s
    | None => mret (handleMarkAsRead (n_id notification) s)
    end.

Definition all_marked : Toast :=
  {| title := "Success"; description := "All notifications marked as read";
     destructive := false |}.

(** The [for] loop of [handleMarkAllAsRead]: each call is awaited and its
    answer is dropped. *)
Fixpoint mark_each (unreadIds : list string) : M unit :=
  match unreadIds with
  | [] => mret tt
  | id :: rest =>
      let* _ := request backend (rpc_mark_notification_read id) in
      mark_each rest
  end.

Definition handleMarkAllAsRead (s : State) : M State :=
  match user with
  | None => mret s
  | Some _ =>
      let unreadIds :=
        n_id <$> filter (fun notification => is_read notification = false)
                   (notifications s) in
      match unreadIds with
      | [] => mret s
      | _ :: _ =>
          mark_each unreadIds;;
          toast all_marked;;
          mret {| notifications := mark_read <$> notifications s;
                  loading := loading s |}
      end
  end.

End Handlers.

End NotificationsCenter.

(** ** borrowings-page.tsx and borrowing-card.tsx *)

Module BorrowingsPage.

Definition ADMIN_EMAIL : option string := Some "ademmsallem782@gmail.com".

Record State := {
  borrowings : list Borrowing;
  loading : bool
}.

Definition load_failed (e : PostgrestError) : Toast :=
  {| title := "Error";
     description := or_else (Some (message e)) "Failed to load borrowings";
     destructive := true |}.

Definition isAdmin (user : option User) : bool :=
  strict_eq (opt_email user) ADMIN_EMAIL.

Section Handlers.

Variable backend : Backend.
Variable user : option User.

Definition settle (d : option (list Borrowing)) (e : option PostgrestError)
    (s : State) : M State :=
  match e with
  | Some e =>
      toast (load_failed e);;
      mret {| borrowings := borrowings s; loading := false |}
  | None =>
      mret {| borrowings := default [] d; loading := false |}
  end.

Definition fetchBorrowings (s : State) : M State :=
  match user with
  | None => mret s
  | Some u =>
      if isAdmin user
      then let* result := request backend from_admin_borrowings_select in
           settle (data result) (error result) s
      else let* result := request backend (rpc_get_user_borrowings (user_id u)) in
           settle (data result) (error result) s
  end.

End Handlers.

End BorrowingsPage.

Module BorrowingCard.

Definition now_is (d : option bool) : Toast :=
  {| title := "Success";
     description := "Borrowing is now " +:+
       (if default false d then "hidden" else "visible");
     destructive := false |}.

Definition toggle_failed (e : PostgrestError) : Toast :=
  {| title := "Error";
     description := or_else (Some (message e)) "Failed to update visibility";
     destructive := true |}.

(** What the card shows: the "Hidden" badge is rendered exactly when
    [borrowing.is_hidden] holds.  The card's own [isUpdating] flag, which
    only disables the button during the call, is left out. *)
Definition shows_hidden_badge (borrowing : Borrowing) : bool :=
  is_hidden borrowing.

Definition hidden_text : string := "Borrowing is now hidden".
Definition visible_text : string := "Borrowing is now visible".

Section Handlers.

Variable backend : Backend.
(** The state of the page the card sits on, updated by the callback. *)
Variable PageState : Type.
Variable onVisibilityChange : option (PageState -> M PageState).

Definition toggleVisibility (borrowing : Borrowing) (s : PageState)
    : M PageState :=
  let* r := request backend (rpc_toggle_borrowing_visibility (b_id borrowing)) in
  match error r with
  | Some e => toast (toggle_failed e);; mret s
  | None =>
      toast (now_is (data r));;
      match onVisibilityChange with
      | Some callback => callback s
      | None => mret s
      end
  end.

End Handlers.

(** The card as the borrowings page mounts it:
    [onVisibilityChange={fetchBorrowings}]. *)
Definition on_page (backend : Backend) (user : option User)
    (borrowing : Borrowing) : BorrowingsPage.State -> M BorrowingsPage.State :=
  toggleVisibility backend BorrowingsPage.State
    (Some (BorrowingsPage.fetchBorrowings backend user)) borrowing.

End BorrowingCard.

(** ** storage.ts: club configuration data and its local cache *)

Module Storage.

Definition DEFAULT_ANNOUNCEMENTS : list Announcement :=
  [ {| a_id := "1"; a_title := "New Equipment";
       a_content := "We've added new professional microphones to our inventory!";
       a_type := "news" |};
    {| a_id := "2"; a_title := "Workshop";
       a_content := "Join our sound mixing workshop this Saturday at 2pm.";
       a_type := "event" |};
    {| a_id := "3"; a_title := "Contest";
       a_content := "Submit your short films for our monthly contest by the 25th.";
       a_type := "alert" |} ].

Definition DEFAULT_EQUIPMENT : list Equipment :=
  [ {| e_id := "1"; e_name := "Professional DSLR Cameras"; e_count := 8;
       e_type := "camera";
       e_description := "High-quality DSLR cameras perfect for photography projects and video recordings." |};
    {| e_id := "2"; e_name := "Condenser Microphones"; e_count := 12;
       e_type := "microphone";
       e_description := "Studio-quality condenser microphones ideal for voice recording and podcasts." |};
    {| e_id := "3"; e_name := "Camera Tripods"; e_count := 10;
       e_type := "camera";
       e_description := "Adjustable height tripods with smooth pan and tilt for stable filming." |};
    {| e_id := "4"; e_name := "Wireless Lavalier Mics"; e_count := 6;
       e_type := "microphone";
       e_description := "Clip-on wireless microphones perfect for interviews and presentations." |};
    {| e_id := "5"; e_name := "LED Light Panels"; e_count := 8;
       e_type := "lighting";
       e_description := "Adjustable brightness LED panels with color temperature control for professional lighting." |};
    {| e_id := "6"; e_name := "Audio Mixers"; e_count := 4;
       e_type := "audio";
       e_description := "Multi-channel audio mixers for professional sound recording and live events." |} ].

(** How an [async] function ends. *)
Inductive Settled (A : Type) : Type :=
| Resolved (a : A)
| Rejected.
Arguments Resolved {A} a.
Arguments Rejected {A}.

(** [existingIds.filter(id => !currentIds.includes(id))] *)
Definition idsToDelete (existingIds currentIds : list string) : list string :=
  filter (fun id => id ∉ currentIds) existingIds.

(** [stored ? JSON.parse(stored) : DEFAULT_ANNOUNCEMENTS]; [None] when
    [JSON.parse] throws. *)
Definition parse_announcements (stored : option (JsonText Announcement))
    : option (Parsed Announcement) :=
  match stored with
  | None | Some EmptyText => Some (ArrayOf DEFAULT_ANNOUNCEMENTS)
  | Some Malformed => None
  | Some (WellFormed v) => Some v
  end.

(** The guarded parse shared by the two local reads of
    [getEquipmentAsync]. *)
Definition parse_equipment (stored : option (JsonText Equipment))
    : list Equipment :=
  match stored with
  | Some (WellFormed (ArrayOf parsed)) => parsed
  | _ => DEFAULT_EQUIPMENT
  end.

Section Functions.

Variable backend : Backend.

(** [saveAnnouncements]: rejects exactly when the upsert is refused. *)
Definition saveAnnouncements (announcements : list Announcement)
    : M (Settled unit) :=
  setItem_announcements announcements;;
  let* existing := request backend from_announcements_select_id in
  let existingIds := default [] (data existing) in
  let currentIds := a_id <$> announcements in
  let stale := idsToDelete existingIds currentIds in
  (match stale with
   | [] => mret tt
   | _ :: _ =>
       let* _ := request backend (from_announcements_delete_in stale) in
       mret tt
   end);;
  match announcements with
  | [] => mret (Resolved tt)
  | _ :: _ =>
      let* upserted := request backend (from_announcements_upsert announcements) in
      match error upserted with
      | Some _ => mret Rejected
      | None => mret (Resolved tt)
      end
  end.

Definition tryCreateEquipmentStatsTable : M unit :=
  let* _ := request backend rpc_create_equipment_stats_table_if_not_exists in
  mret tt.

(** [saveEquipment]: never rejects. *)
Definition saveEquipment (equipment : list Equipment) : M unit :=
  setItem_equipment equipment;;
  let* existing := request backend from_equipment_stats_select_id in
  (match error existing with
   | Some _ => tryCreateEquipmentStatsTable
   | None => mret tt
   end);;
  let existingIds := default [] (data existing) in
  let currentIds := e_id <$> equipment in
  let stale := idsToDelete existingIds currentIds in
  (match stale with
   | [] => mret tt
   | _ :: _ =>
       let* _ := request backend (from_equipment_stats_delete_in stale) in
       mret tt
   end);;
  match equipment with
  | [] => mret tt
  | _ :: _ =>
      let* _ := request backend (from_equipment_stats_upsert equipment) in
      mret tt
  end.

(** [saveAnnouncements] handed a value that is not an array, as
    [getAnnouncements] does with such a cached value: the value is cached
    again, the ids are read, and [announcements.map] throws. *)
Definition saveAnnouncements_not_array (v : NonArray) : M (Settled unit) :=
  setItem_announcements_value v;;
  let* _ := request backend from_announcements_select_id in
  mret Rejected.

(** The [catch] branch of [getAnnouncements]. *)
Definition announcements_fallback : M (Settled (Parsed Announcement)) :=
  stored ← getItem_announcements;
  match parse_announcements stored with
  | Some localData => mret (Resolved localData)
  | None => mret Rejected
  end.

(** [getAnnouncements].  Without rows from the backend the cached value
    decides: [localData.length > 0] throws on [null], which lands in the
    [catch]; a value with a positive length is handed to
    [saveAnnouncements], whose rejection lands there too. *)
Definition getAnnouncements : M (Settled (Parsed Announcement)) :=
  let* r := request backend from_announcements_select_all in
  match error r, data r with
  | Some _, _ => announcements_fallback
  | None, Some (x :: rows) => mret (Resolved (ArrayOf (x :: rows)))
  | None, _ =>
      stored ← getItem_announcements;
      match parse_announcements stored with
      | None => announcements_fallback
      | Some localData =>
          match localData with
          | NotArray JsNull => announcements_fallback
          | NotArray WithoutLength | ArrayOf [] => mret (Resolved localData)
          | NotArray WithLength =>
              saveAnnouncements_not_array WithLength;;
              announcements_fallback
          | ArrayOf (x :: rows) =>
              saved ← saveAnnouncements (x :: rows);
              match saved with
              | Rejected => announcements_fallback
              | Resolved _ => mret (Resolved localData)
              end
          end
      end
  end.

Definition getEquipmentAsync : M (list Equipment) :=
  let* r := request backend from_equipment_stats_select_all in
  match error r, data r with
  | Some _, _ =>
      stored ← getItem_equipment;
      mret (parse_equipment stored)
  | None, Some (x :: rows) =>
      setItem_equipment (x :: rows);;
      mret (x :: rows)
  | None, _ =>
      stored ← getItem_equipment;
      let localData := parse_equipment stored in
      match localData with
      | [] => mret localData
      | _ :: _ => saveEquipment localData;; mret localData
      end
  end.

End Functions.

(** [getEquipment], the synchronous read of the cache alone.  A parsed
    value that is not an array yields the empty list here. *)
Definition getEquipment : M (list Equipment) :=
  stored ← getItem_equipment;
  mret (match stored with
        | None | Some EmptyText => DEFAULT_EQUIPMENT
        | Some Malformed => DEFAULT_EQUIPMENT
        | Some (WellFormed (NotArray _)) => []
        | Some (WellFormed (ArrayOf parsed)) => parsed
        end).

End Storage.

(** ** The club-information configuration page *)

Module AnnouncementsConfigPage.

(** [Omit<Equipment, 'id'>] *)
Record NewEquipment := {
  ne_name : string;
  ne_count : Z;
  ne_type : string;
  ne_description : string
}.

Definition blank : NewEquipment :=
  {| ne_name := ""; ne_count := 0; ne_type := "camera"; ne_description := "" |}.

Record State := {
  equipment : list Equipment;
  newEquipment : NewEquipment
}.

Definition added : Toast :=
  {| title := "Equipment Added";
     description := "The equipment has been added successfully.";
     destructive := false |}.

Definition removed : Toast :=
  {| title := "Equipment Removed";
     description := "The equipment has been removed.";
     destructive := false |}.

Section Handlers.

Variable backend : Backend.
(** [Date.now().toString()] at the time of the click. *)
Variable now : string.

(** [{ id: Date.now().toString(), ...newEquipment }] *)
Definition new_row (form : NewEquipment) : Equipment :=
  {| e_id := now; e_name := ne_name form; e_count := ne_count form;
     e_type := ne_type form; e_description := ne_description form |}.

Definition addEquipment (s : State) : M State :=
  if bool_decide (ne_name (newEquipment s) = "")
     || bool_decide (ne_count (newEquipment s) <= 0)
  then mret s
  else
    let updatedEquipment := equipment s ++ [new_row (newEquipment s)] in
    Storage.saveEquipment backend updatedEquipment;;
    toast added;;
    mret {| equipment := updatedEquipment; newEquipment := blank |}.

Definition removeEquipment (id : string) (s : State) : M State :=
  let updatedEquipment := filter (fun e => e_id e ≠ id) (equipment s) in
  Storage.saveEquipment backend updatedEquipment;;
  toast removed;;
  mret {| equipment := updatedEquipment; newEquipment := newEquipment s |}.

End Handlers.

(** The announcements tab of the page keeps its own state: the list as
    [getAnnouncements] delivered it and the saving flag. *)
Record NoticesState := {
  announcements : Parsed Announcement;
  isSaving : bool
}.

Definition notice_removed : Toast :=
  {| title := "Announcement Removed";
     description := "The announcement has been removed.";
     destructive := false |}.

Definition remove_failed : Toast :=
  {| title := "Error";
     description := "Failed to remove announcement. Please try again.";
     destructive := true |}.

Section Notices.

Variable backend : Backend.

(** "Revert optimistic update": read the announcements again; a failed
    reload is only logged. *)
Definition reload (s : NoticesState) : M NoticesState :=
  reloaded ← Storage.getAnnouncements backend;
  match reloaded with
  | Storage.Resolved reloadedAnnouncements =>
      mret {| announcements := reloadedAnnouncements; isSaving := isSaving s |}
  | Storage.Rejected => mret s
  end.

(** [removeAnnouncement].  On a value that is not an array
    [announcements.filter] throws, which lands in the same [catch]. *)
Definition removeAnnouncement (id : string) (s : NoticesState)
    : M NoticesState :=
  let s := {| announcements := announcements s; isSaving := true |} in
  match announcements s with
  | NotArray _ =>
      toast remove_failed;;
      s ← reload s;
      mret {| announcements := announcements s; isSaving := false |}
  | ArrayOf rows =>
      let updatedAnnouncements := filter (fun a => a_id a ≠ id) rows in
      let s := {| announcements := ArrayOf updatedAnnouncements;
                  isSaving := true |} in
      saved ← Storage.saveAnnouncements backend updatedAnnouncements;
      match saved with
      | Storage.Resolved _ =>
          toast notice_removed;;
          mret {| announcements := announcements s; isSaving := false |}
      | Storage.Rejected =>
          toast remove_failed;;
          s ← reload s;
          mret {| announcements := announcements s; isSaving := false |}
      end
  end.

End Notices.

End AnnouncementsConfigPage.

(** ** The equipment page (second module of borrowings-page.tsx) *)

Module EquipmentPage.

Record State := {
  equipment : list Equipment;
  loading : bool
}.

Definition load_failed : Toast :=
  {| title := "Error";
     description := "Failed to load equipment. Please try refreshing the page.";
     destructive := true |}.

Definition setEquipment (rows : list Equipment) (s : State) : State :=
  {| equipment := rows; loading := loading s |}.

(** The [catch] and [finally] blocks. *)
Definition failed (s : State) : M State :=
  toast load_failed;;
  mret {| equipment := equipment s; loading := false |}.

(** A normal exit through [finally]. *)
Definition finished (s : State) : M State :=
  mret {| equipment := equipment s; loading := false |}.

Section Handlers.

Variable backend : Backend.

Definition fetchEquipment (s : State) : M State :=
  let s := {| equipment := equipment s; loading := true |} in
  let* primary := request backend from_equipment_stats_select_all in
  match error primary with
  | Some _ =>
      let* fn := request backend rpc_load_equipment_for_client_v2 in
      match error fn with
      | Some _ =>
          let* simple := request backend rpc_simple_load_equipment in
          match error simple with
          | Some _ =>
              let* fix_ := request backend rpc_fix_equipment_loading in
              match error fix_ with
              | Some _ => failed s
              | None =>
                  let* retry := request backend from_equipment_stats_select_all in
                  match error retry, data retry with
                  | None, Some (x :: rows) =>
                      finished (setEquipment (x :: rows) s)
                  | _, _ => failed s
                  end
              end
          | None =>
              match data simple with
              | Some (WellFormed (ArrayOf (x :: rows))) =>
                  finished (setEquipment (x :: rows) s)
              | _ => failed s
              end
          end
      | None =>
          match data fn with
          | Some fnData => finished (setEquipment fnData s)
          | None => failed s
          end
      end
  | None =>
      match data primary with
      | Some (x :: rows) => finished (setEquipment (x :: rows) s)
      | _ =>
          let* fix_ := request backend rpc_fix_equipment_loading in
          match error fix_ with
          | Some _ => finished s
          | None =>
              let* retry := request backend from_equipment_stats_select_all in
              match error retry, data retry with
              | None, Some (x :: rows) =>
                  finished (setEquipment (x :: rows) s)
              | _, _ => finished s
              end
          end
      end
  end.

End Handlers.

End EquipmentPage.

(** ** The password strength meter and the sign-up rules *)

(** A JavaScript string, as its sequence of UTF-16 code units. *)
Definition JsString : Type := list N.

(** What [.] does not match: LF, CR, U+2028 and U+2029. *)
Definition line_terminator (c : N) : bool :=
  ((c =? 10) || (c =? 13) || (c =? 8232) || (c =? 8233))%N.

(** A character class given by ranges of code units, tested anywhere in
    the string: [/[A-Z]/.test(s)] and the like. *)
Definition in_range (lo hi c : N) : bool := ((lo <=? c) && (c <=? hi))%N.

Definition has_uppercase (s : JsString) : bool := existsb (in_range 65 90) s.
Definition has_lowercase (s : JsString) : bool := existsb (in_range 97 122) s.
Definition has_digit (s : JsString) : bool := existsb (in_range 48 57) s.

(** [@$!%*?&#] *)
Definition special (c : N) : bool :=
  bool_decide (c ∈ [64; 36; 33; 37; 42; 63; 38; 35]%N).

Definition has_special (s : JsString) : bool := existsb special s.

(** [/.{8,}/.test(s)]: at some position eight characters in a row are
    matched by [.]. *)
Definition matches_dots_at (s : JsString) (i : nat) : bool :=
  let window := take 8 (drop i s) in
  (length window =? 8)%nat && forallb (fun c => negb (line_terminator c)) window.

Definition has_eight_in_a_row (s : JsString) : bool :=
  existsb (matches_dots_at s) (seq 0 (S (length s))).

Module PasswordStrength.

Record Requirement := { regex : JsString -> bool; text : string }.

Definition requirements : list Requirement :=
  [ {| regex := has_eight_in_a_row; text := "At least 8 characters" |};
    {| regex := has_uppercase; text := "One uppercase letter" |};
    {| regex := has_lowercase; text := "One lowercase letter" |};
    {| regex := has_digit; text := "One number" |};
    {| regex := has_special; text := "One special character (@$!%*?&#)" |} ].

Section Meter.

Variable password : JsString.

Definition meetsRequirement (requirement : Requirement) : bool :=
  regex requirement password.

Definition metRequirements : nat :=
  length (filter (fun r => meetsRequirement r = true) requirements).

(** [(metRequirements / requirements.length) * 100]; for the six possible
    counts the double-precision result is the integer 0, 20, ..., 100. *)
Definition getStrengthPercentage : Z :=
  match password with
  | [] => 0
  | _ :: _ => Z.of_nat metRequirements * 100 / Z.of_nat (length requirements)
  end.

Definition strengthPercentage : Z := getStrengthPercentage.

Definition getStrengthColor : string :=
  if bool_decide (strengthPercentage = 0) then "bg-gray-200"
  else if bool_decide (strengthPercentage <= 40) then "bg-red-500"
  else if bool_decide (strengthPercentage <= 80) then "bg-yellow-500"
  else "bg-green-500".

(** The word shown next to the bar. *)
Definition strengthLabel : string :=
  if bool_decide (strengthPercentage = 100) then "Strong"
  else if bool_decide (strengthPercentage >= 80) then "Good"
  else if bool_decide (strengthPercentage >= 40) then "Fair"
  else if bool_decide (strengthPercentage > 0) then "Weak"
  else "".

End Meter.

End PasswordStrength.

Module SignUpForm.

(** The [password] field of [signupSchema]: every check of the chain has
    to pass. *)
Definition password_accepted (password : JsString) : bool :=
  (8 <=? length password)%nat
  && has_uppercase password
  && has_lowercase password
  && has_digit password
  && has_special password
  && (length password <=? 50)%nat.

End SignUpForm.

(** ** Who counts as the administrator, component by component *)

Module AdminIdentity.

(** The two environment entries the checks read. *)
Record Env := {
  VITE_ADMIN_EMAIL : option string;
  NEXT_PUBLIC_ADMIN_EMAIL : option string
}.

Definition BUILT_IN : string := "ademmsallem782@gmail.com".

(** leaderboard.tsx, [Leaderboard]:
    [ADMIN_EMAIL = import.meta.env.VITE_ADMIN_EMAIL], panel shown when
    [user?.email === ADMIN_EMAIL]. *)
Definition Leaderboard_isAdmin (env : Env) (user : option User) : bool :=
  strict_eq (opt_email user) (VITE_ADMIN_EMAIL env).

(** shop-page.tsx, [ShopPage]. *)
Definition ShopPage_isAdmin (env : Env) (user : option User) : bool :=
  strict_eq (opt_email user) (VITE_ADMIN_EMAIL env).

(** announcements-page.tsx, [AnnouncementsPage]. *)
Definition AnnouncementsPage_isAdmin (env : Env) (user : option User) : bool :=
  strict_eq (opt_email user) (VITE_ADMIN_EMAIL env).

(** [AnnouncementsConfigPage], reached only with a signed-in user:
    [user.email === ADMIN_EMAIL]. *)
Definition AnnouncementsConfigPage_isAdmin (env : Env) (user : User) : bool :=
  strict_eq (email user) (VITE_ADMIN_EMAIL env).

(** admin-equipment-page.tsx, [AdminConfigPage], same shape. *)
Definition AdminConfigPage_isAdmin (env : Env) (user : User) : bool :=
  strict_eq (email user) (VITE_ADMIN_EMAIL env).

(** protected-route.tsx:
    [ADMIN_EMAIL = import.meta.env.VITE_ADMIN_EMAIL || '...'] *)
Definition ProtectedRoute_ADMIN_EMAIL (env : Env) : string :=
  or_else (VITE_ADMIN_EMAIL env) BUILT_IN.

Definition ProtectedRoute_isAdmin (env : Env) (user : option User) : bool :=
  strict_eq (opt_email user) (Some (ProtectedRoute_ADMIN_EMAIL env)).

(** [UserHeader] repeats the declaration of the route guard. *)
Definition UserHeader_isAdmin (env : Env) (user : option User) : bool :=
  strict_eq (opt_email user) (Some (or_else (VITE_ADMIN_EMAIL env) BUILT_IN)).

(** admin-equipment-page.tsx, [AdminEquipmentPage]:
    [user && user.email === (process.env.NEXT_PUBLIC_ADMIN_EMAIL || 'admin@example.com')] *)
Definition AdminEquipmentPage_isAdmin (env : Env) (user : option User) : bool :=
  match user with
  | Some u =>
      strict_eq (email u)
        (Some (or_else (NEXT_PUBLIC_ADMIN_EMAIL env) "admin@example.com"))
  | None => false
  end.

(** leaderboard.tsx, [AdminPanel]: "Admin email constant". *)
Definition AdminPanel_isAuthorizedAdmin (env : Env) (user : option User) : bool :=
  AdminPanel.isAuthorizedAdmin
    (AdminPanel.on_user_change user
       {| AdminPanel.isAdmin := false; AdminPanel.isAuthorizedAdmin := false;
          AdminPanel.loading := ∅ |}).

(** [SetupSQL] and [SetupNotificationsTable]: the component renders, and
    [runSetup] proceeds, unless [!user || user.email !== ADMIN_EMAIL]. *)
Definition Setup_isAdmin (env : Env) (user : option User) : bool :=
  match user with
  | Some u => strict_eq (email u) (Some BUILT_IN)
  | None => false
  end.

(** user-management.tsx, [fetchUsers]:
    [currentUser?.email === 'ademmsallem782@gmail.com'] *)
Definition UserManagement_isAdmin (env : Env) (currentUser : option User) : bool :=
  strict_eq (opt_email currentUser) (Some "ademmsallem782@gmail.com").

(** borrowings-page.tsx, [BorrowingsPage]. *)
Definition BorrowingsPage_isAdmin (env : Env) (user : option User) : bool :=
  BorrowingsPage.isAdmin user.

(** Comparing the signed-in user's email with the identity the
    environment supplies. *)
Definition matches_environment (env : Env) (user : User) : bool :=
  strict_eq (email user) (VITE_ADMIN_EMAIL env).

End AdminIdentity.

(** ** Observing a run *)

(** The events a computation adds to the trace when run from [w]. *)
Definition issued {A} (m : M A) (w : World) : list Event :=
  drop (length (trace w)) (trace (m w).2).

(** The banners a computation raises when run from [w]. *)
Definition raised {A} (m : M A) (w : World) : list Toast :=
  drop (length (toasts w)) (toasts (m w).2).

Definition is_add_points (c : Call) : bool :=
  match c with
  | rpc_add_points_to_user _ _ => true
  | _ => false
  end.

(** A fresh session: nothing requested, nothing shown, nothing cached. *)
Definition fresh : World :=
  {| trace := []; toasts := [];
     localStorage := {| av_club_announcements := None;
                        av_club_equipment := None |} |}.

(** Every read succeeds with no rows and every procedure returns nothing. *)
Definition quiet : Backend :=
  fun _ c => ok c None.

(** Every request is refused. *)
Definition unreachable : Backend :=
  fun _ c => refused c "Failed to fetch".

(** ** Sample data *)

Module Sample.

Definition chair : User :=
  {| user_id := "u-chair"; email := Some "chair@avclub.example" |}.

Definition member : User :=
  {| user_id := "u-mina"; email := Some "mina@avclub.example" |}.

Definition mina : LeaderboardUser :=
  {| id := "u-mina"; name := "Mina"; points := 40; rank := None;
     is_admin := None |}.

Definition omar : LeaderboardUser :=
  {| id := "u-omar"; name := "Omar"; points := 25; rank := None;
     is_admin := Some false |}.

Definition chair_row : LeaderboardUser :=
  {| id := "u-chair"; name := "Chair"; points := 30; rank := None;
     is_admin := Some true |}.

(** The view answers with a repeated row and with the administrator. *)
Definition board : list LeaderboardUser := [mina; chair_row; omar; mina].

Definition board_backend : Backend :=
  fun _ c =>
    match c return Response c with
    | from_profiles_with_points_select =>
        ok from_profiles_with_points_select (Some board)
    | c => ok c None
    end.

Definition camera : ShopItemType :=
  {| item_id := "item-cam"; item_name := "Camcorder"; points_cost := 5 |}.

(** The form of the configuration page, filled in with a count of 0. *)
Definition boom_pole_form : AnnouncementsConfigPage.State :=
  {| AnnouncementsConfigPage.equipment := [];
     AnnouncementsConfigPage.newEquipment :=
       {| AnnouncementsConfigPage.ne_name := "Boom pole";
          AnnouncementsConfigPage.ne_count := 0;
          AnnouncementsConfigPage.ne_type := "audio";
          AnnouncementsConfigPage.ne_description := "Telescopic boom pole" |} |}.

Definition notice : Announcement :=
  {| a_id := "a-7"; a_title := "Screening";
     a_content := "Short films on Friday."; a_type := "event" |}.

Definition workshop : Announcement :=
  {| a_id := "a-8"; a_title := "Workshop";
     a_content := "Sound mixing on Saturday."; a_type := "event" |}.

Definition mixer : Equipment :=
  {| e_id := "e-4"; e_name := "Audio mixer"; e_count := 2;
     e_type := "audio"; e_description := "Eight-channel mixer" |}.

Definition tripod : Equipment :=
  {| e_id := "e-9"; e_name := "Tripod"; e_count := 3;
     e_type := "camera"; e_description := "Fluid-head tripod" |}.

(** A browser whose cache holds one announcement and one equipment row. *)
Definition cached : World :=
  {| trace := []; toasts := [];
     localStorage :=
       {| av_club_announcements := Some (WellFormed (ArrayOf [notice]));
          av_club_equipment := Some (WellFormed (ArrayOf [mixer])) |} |}.

(** A backend whose relations are empty: every read succeeds with no
    rows and every write is accepted. *)
Definition empty_store : Backend :=
  fun _ c =>
    match c return Response c with
    | from_announcements_select_all => ok from_announcements_select_all (Some [])
    | from_announcements_select_id => ok from_announcements_select_id (Some [])
    | from_equipment_stats_select_all => ok from_equipment_stats_select_all (Some [])
    | from_equipment_stats_select_id => ok from_equipment_stats_select_id (Some [])
    | c => ok c None
    end.

(** A backend holding one announcement and one equipment row. *)
Definition stocked : Backend :=
  fun _ c =>
    match c return Response c with
    | from_announcements_select_all =>
        ok from_announcements_select_all (Some [workshop])
    | from_equipment_stats_select_all =>
        ok from_equipment_stats_select_all (Some [tripod])
    | c => ok c None
    end.

(** The equipment relation cannot be queried directly and the first
    fallback procedure is missing; the second one answers with the JSON
    text of an empty array. *)
Definition only_simple_answers : Backend :=
  fun _ c =>
    match c return Response c with
    | rpc_simple_load_equipment =>
        ok rpc_simple_load_equipment (Some (WellFormed (ArrayOf [])))
    | c => refused c "relation or function does not exist"
    end.

(** The direct query is refused and the first fallback procedure returns
    [null] without an error. *)
Definition v2_answers_null : Backend :=
  fun _ c =>
    match c return Response c with
    | rpc_load_equipment_for_client_v2 => ok rpc_load_equipment_for_client_v2 None
    | c => refused c "permission denied"
    end.

(** The equipment page showing one row from an earlier load. *)
Definition showing_mixer : EquipmentPage.State :=
  {| EquipmentPage.equipment := [mixer]; EquipmentPage.loading := false |}.

Definition loan : Borrowing :=
  {| b_id := "claim-12"; b_status := "approved"; is_hidden := false |}.

Definition loan_hidden : Borrowing :=
  {| b_id := "claim-12"; b_status := "approved"; is_hidden := true |}.

(** The borrowings page of a member, showing one visible borrowing. *)
Definition showing_loan : BorrowingsPage.State :=
  {| BorrowingsPage.borrowings := [loan]; BorrowingsPage.loading := false |}.

(** The toggle is carried out and answers [true]; the connection is lost
    before the list is read again. *)
Definition toggled_then_offline : Backend :=
  fun _ c =>
    match c return Response c with
    | rpc_toggle_borrowing_visibility i =>
        ok (rpc_toggle_borrowing_visibility i) (Some true)
    | c => refused c "Failed to fetch"
    end.

(** The toggle answers [true] and the list read afterwards shows the
    borrowing as hidden. *)
Definition toggled : Backend :=
  fun _ c =>
    match c return Response c with
    | rpc_toggle_borrowing_visibility i =>
        ok (rpc_toggle_borrowing_visibility i) (Some true)
    | rpc_get_user_borrowings u =>
        ok (rpc_get_user_borrowings u) (Some [loan_hidden])
    | c => ok c None
    end.

(** A browser with an empty cache, after the equipment page was loaded
    from the stocked backend. *)
Definition after_stocked_load : World :=
  (Storage.getEquipmentAsync stocked fresh).2.

(** A backend that already holds the mixer and an older row. *)
Definition holds_two : Backend :=
  fun _ c =>
    match c return Response c with
    | from_equipment_stats_select_id =>
        ok from_equipment_stats_select_id (Some ["e-4"; "e-1"])
    | c => ok c None
    end.

(** The announcements tab showing two announcements. *)
Definition two_notices : AnnouncementsConfigPage.NoticesState :=
  {| AnnouncementsConfigPage.announcements := ArrayOf [notice; workshop];
     AnnouncementsConfigPage.isSaving := false |}.

Definition one_notice : AnnouncementsConfigPage.NoticesState :=
  {| AnnouncementsConfigPage.announcements := ArrayOf [notice];
     AnnouncementsConfigPage.isSaving := false |}.

(** The equipment tab showing two rows, with a filled-in form. *)
Definition two_rows_form : AnnouncementsConfigPage.State :=
  {| AnnouncementsConfigPage.equipment := [mixer; tripod];
     AnnouncementsConfigPage.newEquipment :=
       {| AnnouncementsConfigPage.ne_name := "Boom pole";
          AnnouncementsConfigPage.ne_count := 2;
          AnnouncementsConfigPage.ne_type := "audio";
          AnnouncementsConfigPage.ne_description := "Telescopic boom pole" |} |}.

Definition reminder : Notification :=
  {| n_id := "n-1"; n_message := "Return the tripod by Friday";
     n_type := "warning"; is_read := false |}.

Definition approval : Notification :=
  {| n_id := "n-2"; n_message := "Your claim was approved";
     n_type := "success"; is_read := true |}.

Definition bonus : Notification :=
  {| n_id := "n-3"; n_message := "You've earned 5 points!";
     n_type := "success"; is_read := false |}.

(** The bell showing three notifications, two of them unread. *)
Definition inbox : NotificationsCenter.State :=
  {| NotificationsCenter.notifications := [reminder; approval; bonus];
     NotificationsCenter.loading := false |}.

(** A signed-in account that carries no email address. *)
Definition nameless : User := {| user_id := "u-anon"; email := None |}.

(** Adjustments are accepted, but notifications cannot be created and the
    board cannot be read. *)
Definition only_adjusts : Backend :=
  fun _ c =>
    match c return Response c with
    | rpc_add_points_to_user u v => ok (rpc_add_points_to_user u v) None
    | c => refused c "permission denied"
    end.

(** A board showing one member. *)
Definition board_of_one : Leaderboard.State :=
  {| Leaderboard.users := [Leaderboard.with_rank 0 mina];
     Leaderboard.loading := false;
     Leaderboard.loadingPointChange := None |}.

(** The equipment relation can be read but is empty, and the repair
    procedure is refused. *)
Definition empty_and_unrepairable : Backend :=
  fun _ c =>
    match c return Response c with
    | from_equipment_stats_select_all =>
        ok from_equipment_stats_select_all (Some [])
    | c => refused c "function does not exist"
    end.

(** A browser whose announcements cell holds text that is not JSON and
    whose equipment cell holds an empty array. *)
Definition damaged : World :=
  {| trace := []; toasts := [];
     localStorage :=
       {| av_club_announcements := Some Malformed;
          av_club_equipment := Some (WellFormed (ArrayOf [])) |} |}.

(** A browser whose announcements cell holds the text of a JSON string. *)
Definition holds_a_string : World :=
  {| trace := []; toasts := [];
     localStorage :=
       {| av_club_announcements := Some (WellFormed (NotArray WithLength));
          av_club_equipment := None |} |}.

(** Two rows of [claims_with_user]: one with its items, one whose [items]
    column is [null]. *)
Definition claim_with_items : ClaimRow :=
  {| cr_id := "claim-12"; cr_status := "pending";
     cr_created_at := "2024-03-01T10:00:00Z";
     cr_user_email := "mina@avclub.example";
     cr_items := Some [Some {| ri_id := "ci-1"; ri_quantity := 1;
                               ri_item := Some {| si_name := "Camcorder";
                                                  si_points_cost := 5 |} |}] |}.

Definition claim_without_items : ClaimRow :=
  {| cr_id := "claim-13"; cr_status := "pending";
     cr_created_at := "2024-03-02T10:00:00Z";
     cr_user_email := "omar@avclub.example";
     cr_items := None |}.

(** Decisions are accepted and the view answers with both rows. *)
Definition claims_store : Backend :=
  fun _ c =>
    match c return Response c with
    | from_claims_with_user_select =>
        ok from_claims_with_user_select
          (Some [claim_with_items; claim_without_items])
    | c => ok c None
    end.

Definition no_claims : AdminClaimsPanel.State :=
  {| AdminClaimsPanel.claims := []; AdminClaimsPanel.loading := false;
     AdminClaimsPanel.updating := None |}.

(** The wording of one engine for a [map] on a missing [items]. *)
Definition engine_wording (rows : list ClaimRow) : string :=
  "Cannot read properties of null (reading 'map')".

(** A cart holding one camcorder, no return date chosen; dates are given
    as their text. *)
Definition cart_of_one : Cart.State string :=
  {| Cart.items := [ {| Cart.ct_id := "cart-1"; Cart.ct_item_id := "item-cam";
                        Cart.ct_quantity := 1;
                        Cart.ct_shop_items := {| si_name := "Camcorder";
                                                 si_points_cost := 5 |} |} ];
     Cart.submitting := false; Cart.open := true; Cart.returnDate := None |}.

Definition empty_cart : Cart.State string :=
  {| Cart.items := []; Cart.submitting := false; Cart.open := true;
     Cart.returnDate := None |}.

Definition empty_board : Leaderboard.State :=
  {| Leaderboard.users := []; Leaderboard.loading := false;
     Leaderboard.loadingPointChange := None |}.

End Sample.

(** * Properties *)

(** ** Reading runs off the trace *)

Lemma issued_app {A} (m : M A) (w : World) (evs : list Event) :
  trace (m w).2 = trace w ++ evs -> issued m w = evs.
Proof.
  intros H. unfold issued. rewrite H. apply drop_app_length.
Qed.

Lemma remote_calls_app (t1 t2 : list Event) :
  remote_calls (t1 ++ t2) = remote_calls t1 ++ remote_calls t2.
Proof. unfold remote_calls. apply omap_app. Qed.

Lemma remote_calls_snoc (t : list Event) (c : Call) :
  remote_calls (t ++ [Remote c]) = remote_calls t ++ [c].
Proof. by rewrite remote_calls_app. Qed.

(** Unfold the plumbing of the effect monad. *)
Ltac run :=
  unfold issued, raised, mbind, mret, M_bind, M_ret, bindM, request, toast,
    getItem_announcements, getItem_equipment, setItem_announcements,
    setItem_announcements_value, setItem_equipment in *;
  cbn [fst snd trace toasts localStorage] in *.

(** ** The leaderboard ranking *)

Section Ranking.

Import Leaderboard.

Lemma filter_unique_sublist seen rows :
  sublist (filter_unique seen rows) rows.
Proof.
  revert seen. induction rows as [|u rows IH]; intros seen; simpl.
  - constructor.
  - destruct (bool_decide (id u ∈ seen) || truthy_flag (is_admin u)).
    + apply sublist_cons, IH.
    + apply sublist_skip, IH.
Qed.

Lemma filter_unique_fresh seen rows u :
  u ∈ filter_unique seen rows -> id u ∉ seen.
Proof.
  revert seen. induction rows as [|r rows IH]; intros seen; simpl.
  - intros H. inversion H.
  - destruct (bool_decide (id r ∈ seen)) eqn:Hseen; simpl.
    + apply IH.
    + apply bool_decide_eq_false in Hseen.
      destruct (truthy_flag (is_admin r)); [apply IH|].
      intros [->|Hin]%elem_of_cons; [done|].
      apply IH in Hin. set_solver.
Qed.

Lemma filter_unique_NoDup seen rows :
  NoDup (id <$> filter_unique seen rows).
Proof.
  revert seen. induction rows as [|r rows IH]; intros seen; simpl.
  - constructor.
  - destruct (bool_decide (id r ∈ seen) || truthy_flag (is_admin r)); [apply IH|].
    rewrite fmap_cons. constructor; [|apply IH].
    intros (u & Hid & Hu)%list_elem_of_fmap.
    apply filter_unique_fresh in Hu. set_solver.
Qed.

Lemma filter_unique_non_admin seen rows :
  Forall non_admin (filter_unique seen rows).
Proof.
  revert seen. induction rows as [|r rows IH]; intros seen; simpl.
  - constructor.
  - destruct (bool_decide (id r ∈ seen)); simpl; [apply IH|].
    destruct (truthy_flag (is_admin r)) eqn:Hadm; [apply IH|].
    constructor; [exact Hadm|apply IH].
Qed.

Lemma filter_unique_complete seen rows u :
  u ∈ rows -> non_admin u ->
  id u ∈ seen \/ id u ∈ (id <$> filter_unique seen rows).
Proof.
  revert seen. induction rows as [|r rows IH]; intros seen Hin Hu; simpl.
  - inversion Hin.
  - apply elem_of_cons in Hin as [->|Hin].
    + unfold non_admin in Hu. rewrite Hu, orb_false_r.
      destruct (bool_decide (id r ∈ seen)) eqn:Hseen.
      * left. by apply bool_decide_eq_true in Hseen.
      * right. rewrite fmap_cons. apply elem_of_cons. by left.
    + destruct (bool_decide (id r ∈ seen) || truthy_flag (is_admin r)).
      * by apply IH.
      * destruct (IH ({[id r]} ∪ seen) Hin Hu) as [Hs|Hs].
        -- apply elem_of_union in Hs as [Hs|Hs].
           ++ right. rewrite fmap_cons. apply elem_of_cons. left. set_solver.
           ++ by left.
        -- right. rewrite fmap_cons. apply elem_of_cons. by right.
Qed.

Lemma filter_unique_first seen pre u post :
  non_admin u -> id u ∉ seen ->
  (forall v, v ∈ pre -> non_admin v -> id v <> id u) ->
  u ∈ filter_unique seen (pre ++ u :: post).
Proof.
  intros Hu. revert seen. induction pre as [|v pre IH]; intros seen Hseen Hpre.
  - cbn. unfold non_admin in Hu. rewrite Hu, orb_false_r.
    rewrite bool_decide_eq_false_2 by exact Hseen. apply list_elem_of_here.
  - cbn. destruct (truthy_flag (is_admin v)) eqn:Hv.
    + rewrite orb_true_r. apply IH; [exact Hseen|].
      intros v' Hv'. apply Hpre. by apply list_elem_of_further.
    + rewrite orb_false_r. case_bool_decide.
      * apply IH; [exact Hseen|].
        intros v' Hv'. apply Hpre. by apply list_elem_of_further.
      * apply list_elem_of_further. apply IH.
        -- assert (Hne : id v <> id u)
             by (apply Hpre; [apply list_elem_of_here|exact Hv]).
           intros [Hx|Hx]%elem_of_union; [|done].
           apply elem_of_singleton in Hx. congruence.
        -- intros v' Hv'. apply Hpre. by apply list_elem_of_further.
Qed.

Lemma with_rank_ids (f : nat -> nat) l :
  id <$> imap (fun i => with_rank (f i)) l = id <$> l.
Proof.
  revert f. induction l as [|u l IH]; intros f; [done|].
  simpl. f_equal. apply (IH (f ∘ S)).
Qed.

Lemma with_rank_non_admin (f : nat -> nat) l :
  Forall non_admin l -> Forall non_admin (imap (fun i => with_rank (f i)) l).
Proof.
  revert f. induction l as [|u l IH]; intros f Hl; simpl; [constructor|].
  inversion Hl; subst. constructor; [assumption|]. by apply (IH (f ∘ S)).
Qed.

Lemma with_rank_ranks (k : nat) l :
  rank <$> imap (fun i => with_rank (k + i)) l
  = Some <$> seqZ (Z.of_nat k + 1) (Z.of_nat (length l)).
Proof.
  revert k. induction l as [|u l IH]; intros k.
  - done.
  - cbn [imap fmap list_fmap length].
    rewrite Nat2Z.inj_succ, seqZ_cons by lia.
    cbn [fmap list_fmap]. f_equal.
    + simpl. do 2 f_equal. lia.
    + replace (Z.succ (Z.of_nat k + 1)) with (Z.of_nat (S k) + 1) by lia.
      replace (Z.pred (Z.succ (Z.of_nat (length l)))) with (Z.of_nat (length l)) by lia.
      rewrite <- IH. f_equal. apply imap_ext. intros i x _. simpl.
      unfold with_rank. do 2 f_equal. lia.
Qed.

End Ranking.

(** [C10] Whatever rows the [profiles_with_points] read returns,
    [fetchUsers] displays a list in which no user id occurs twice and no
    row flagged [is_admin] remains; the displayed rows are a subsequence of
    the returned rows (so the backend's order is kept), every returned
    non-admin user is still listed, by the first of its non-admin rows, and
    the [rank] of each displayed row is its 1-based position, so the ranks
    read 1, 2, ..., n. *)
Theorem C10_fetchUsers_ranking (backend : Backend)
    (rows : list LeaderboardUser) (s : Leaderboard.State) (w : World) :
  let r := backend (remote_calls (trace w)) from_profiles_with_points_select in
  error r = None ->
  data r = Some rows ->
  let shown := Leaderboard.users (Leaderboard.fetchUsers backend s w).1 in
  NoDup (id <$> shown)
  /\ Forall Leaderboard.non_admin shown
  /\ (exists kept, sublist kept rows /\ shown = imap Leaderboard.with_rank kept)
  /\ (forall u, u ∈ rows -> Leaderboard.non_admin u -> id u ∈ (id <$> shown))
  /\ (forall pre u post,
        rows = pre ++ u :: post -> Leaderboard.non_admin u ->
        (forall v, v ∈ pre -> Leaderboard.non_admin v -> id v <> id u) ->
        exists index, Leaderboard.with_rank index u ∈ shown)
  /\ rank <$> shown = Some <$> seqZ 1 (Z.of_nat (length shown))
  /\ (forall i u, shown !! i = Some u -> rank u = Some (Z.of_nat i + 1)).
Proof.
  intros r Herr Hdata shown.
  assert (Hshown : shown = Leaderboard.rankedUsers rows).
  { subst shown. unfold Leaderboard.fetchUsers, Leaderboard.fetchUsers_resume.
    run. fold r. rewrite Herr.
    change (data r) with (data r : option (list LeaderboardUser)).
    rewrite Hdata. reflexivity. }
  rewrite Hshown. unfold Leaderboard.rankedUsers.
  set (kept := Leaderboard.filter_unique ∅ rows).
  repeat split.
  - rewrite (with_rank_ids (fun i => i)). apply filter_unique_NoDup.
  - apply (with_rank_non_admin (fun i => i)), filter_unique_non_admin.
  - exists kept. split; [apply filter_unique_sublist|reflexivity].
  - intros u Hu Hna. rewrite (with_rank_ids (fun i => i)).
    destruct (filter_unique_complete ∅ rows u Hu Hna) as [H|H]; [set_solver|exact H].
  - intros pre u post -> Hna Hpre.
    assert (Hin : u ∈ Leaderboard.filter_unique ∅ (pre ++ u :: post))
      by (apply filter_unique_first; [exact Hna|set_solver|exact Hpre]).
    apply list_elem_of_lookup in Hin as [index Hindex].
    exists index. by apply elem_of_lookup_imap_2.
  - rewrite length_imap. apply (with_rank_ranks 0).
  - intros i u Hi. apply list_lookup_imap_Some in Hi as (y & _ & ->).
    reflexivity.
Qed.

Lemma C10_fetchUsers_ranking_witness :
  let shown := Leaderboard.users
    (Leaderboard.fetchUsers Sample.board_backend Sample.empty_board fresh).1 in
  NoDup (id <$> shown)
  /\ Forall Leaderboard.non_admin shown
  /\ (exists kept, sublist kept Sample.board
                   /\ shown = imap Leaderboard.with_rank kept)
  /\ (forall u, u ∈ Sample.board -> Leaderboard.non_admin u
                -> id u ∈ (id <$> shown))
  /\ (forall pre u post,
        Sample.board = pre ++ u :: post -> Leaderboard.non_admin u ->
        (forall v, v ∈ pre -> Leaderboard.non_admin v -> id v <> id u) ->
        exists index, Leaderboard.with_rank index u ∈ shown)
  /\ rank <$> shown = Some <$> seqZ 1 (Z.of_nat (length shown))
  /\ (forall i u, shown !! i = Some u -> rank u = Some (Z.of_nat i + 1)).
Proof.
  apply (C10_fetchUsers_ranking Sample.board_backend Sample.board
           Sample.empty_board fresh); reflexivity.
Defined.

(** On the sample board the repeated row and the administrator are gone
    and the two members are ranked 1 and 2. *)
Example fetchUsers_sample :
  Leaderboard.users
    (Leaderboard.fetchUsers Sample.board_backend Sample.empty_board fresh).1
  = [ Leaderboard.with_rank 0 Sample.mina; Leaderboard.with_rank 1 Sample.omar ].
Proof. vm_compute. reflexivity. Qed.

(** Read the events added to a trace written as [trace w ++ ...]. *)
Ltac read_trace :=
  repeat rewrite <- app_assoc;
  rewrite ?drop_app_length, ?drop_all;
  cbn.

(** ** Point adjustments *)

(** The requests [addPoints] sends when the signed-in user is the
    administrator: the adjustment alone when it is refused, and otherwise
    the adjustment, the notification and the refresh of the board. *)
Lemma addPoints_calls (backend : Backend) (env : option string) (admin : User)
    (userId : string) (v : Z) (s : Leaderboard.State) (w : World) :
  strict_eq (email admin) env = true ->
  let run := Leaderboard.addPoints backend env (Some admin) userId v s in
  let refusal := error (backend (remote_calls (trace w))
                          (rpc_add_points_to_user userId v)) in
  remote_calls (issued run w) =
    match refusal with
    | Some _ => [rpc_add_points_to_user userId v]
    | None =>
        [rpc_add_points_to_user userId v;
         rpc_create_notification userId
           (Leaderboard.notification_for v).1 (Leaderboard.notification_for v).2;
         from_profiles_with_points_select]
    end.
Proof.
  intros Hadmin. cbv zeta.
  unfold Leaderboard.addPoints, Leaderboard.ADMIN_EMAIL. rewrite Hadmin. cbn [negb].
  unfold Leaderboard.fetchUsers_resume.
  run.
  destruct (error (backend (remote_calls (trace w)) (rpc_add_points_to_user userId v))).
  - run. read_trace. reflexivity.
  - destruct (Leaderboard.notification_for v) as [msg ty]. run.
    match goal with
    | |- context [error ?r] => destruct (error r); [|destruct (data r)]
    end; run; read_trace; reflexivity.
Qed.

(** [C1] For every button of the leaderboard's admin controls, that is for
    every adjustment [v] among -10, -5, -1, +1, +5, +10 and every listed
    user, a click by the administrator sends [add_points_to_user] first,
    with [points_to_add] equal to [v] itself and [user_uuid] the row's id,
    and sends no other adjustment. *)
Theorem C1_adjustment_sent_verbatim (backend : Backend) (env : option string)
    (admin : User) (leaderboardUser : LeaderboardUser)
    (adjustment : Leaderboard.PointAdjustment)
    (s : Leaderboard.State) (w : World) :
  strict_eq (email admin) env = true ->
  adjustment ∈ Leaderboard.POINT_ADJUSTMENTS ->
  let v := Leaderboard.value adjustment in
  let sent := remote_calls
    (issued (Leaderboard.onClick backend env (Some admin)
               leaderboardUser adjustment s) w) in
  v ∈ [-10; -5; -1; 1; 5; 10]
  /\ (exists rest,
        sent = rpc_add_points_to_user (id leaderboardUser) v :: rest)
  /\ filter (fun c => is_add_points c = true) sent
     = [rpc_add_points_to_user (id leaderboardUser) v].
Proof.
  intros Hadmin Hadj v sent. split.
  - subst v. unfold Leaderboard.POINT_ADJUSTMENTS in Hadj.
    repeat (apply elem_of_cons in Hadj as [->|Hadj]; [set_solver|]).
    inversion Hadj.
  - subst sent. unfold Leaderboard.onClick. fold v.
    rewrite (addPoints_calls backend env admin (id leaderboardUser) v s w Hadmin).
    destruct (error _); split; try (eexists; reflexivity); reflexivity.
Qed.

Lemma C1_adjustment_sent_verbatim_witness :
  let v := -5 in
  let sent := remote_calls
    (issued (Leaderboard.onClick quiet (Some "chair@avclub.example")
               (Some Sample.chair) Sample.omar
               {| Leaderboard.value := -5; Leaderboard.label := "-5" |}
               Sample.empty_board) fresh) in
  v ∈ [-10; -5; -1; 1; 5; 10]
  /\ (exists rest, sent = rpc_add_points_to_user "u-omar" v :: rest)
  /\ filter (fun c => is_add_points c = true) sent
     = [rpc_add_points_to_user "u-omar" v].
Proof.
  apply (C1_adjustment_sent_verbatim quiet (Some "chair@avclub.example")
           Sample.chair Sample.omar
           {| Leaderboard.value := -5; Leaderboard.label := "-5" |}
           Sample.empty_board fresh).
  - reflexivity.
  - apply list_elem_of_further, list_elem_of_here.
Defined.

(** The same click, spelled out: a deduction of five points goes out as
    [-5], followed by the notification and the refresh. *)
Example addPoints_sample :
  remote_calls
    (issued (Leaderboard.addPoints quiet (Some "chair@avclub.example")
               (Some Sample.chair) "u-omar" (-5) Sample.empty_board) fresh)
  = [ rpc_add_points_to_user "u-omar" (-5);
      rpc_create_notification "u-omar" "5 points have been deducted." "error";
      from_profiles_with_points_select ].
Proof. vm_compute. reflexivity. Qed.

(** ** Purchases *)

(** The requests [handlePurchase] sends for a signed-in user. *)
Lemma handlePurchase_calls (backend : Backend) (u : User) (item : ShopItemType)
    (s : ShopPage.State) (w : World) :
  let purchase := rpc_purchase_shop_item (item_id item) (user_id u) 1 in
  remote_calls (issued (ShopPage.handlePurchase backend (Some u) item s) w) =
    if bool_decide (ShopPage.userPoints s < points_cost item) then []
    else match error (backend (remote_calls (trace w)) purchase) with
         | Some _ => [purchase]
         | None => [purchase; rpc_fetch_user_points (Some (user_id u))]
         end.
Proof.
  cbv zeta. unfold ShopPage.handlePurchase, ShopPage.fetchUserPoints.
  destruct (bool_decide (ShopPage.userPoints s < points_cost item)).
  - run. read_trace. reflexivity.
  - run. destruct (error (backend (remote_calls (trace w)) _)).
    + run. read_trace. reflexivity.
    + run. match goal with |- context [error ?r] => destruct (error r) end;
        run; read_trace; reflexivity.
Qed.

Lemma purchase_sent_iff (backend : Backend) (u : User) (item : ShopItemType)
    (s : ShopPage.State) (w : World) :
  rpc_purchase_shop_item (item_id item) (user_id u) 1
  ∈ remote_calls (issued (ShopPage.handlePurchase backend (Some u) item s) w)
  <-> points_cost item <= ShopPage.userPoints s.
Proof.
  rewrite handlePurchase_calls. case_bool_decide as Hcmp.
  - split; [intros H; inversion H|lia].
  - split; [lia|]. intros _. destruct (error _); apply list_elem_of_here.
Qed.

(** [C2] For every purchase attempt of a signed-in user: when the displayed
    balance is below the item's cost nothing is sent to the backend, the
    "Insufficient Points" banner is the only one raised and the page state
    is unchanged; and [purchase_shop_item] is among the requests sent
    exactly when the displayed balance is at least the cost. *)
Theorem C2_purchase_blocked_when_short (backend : Backend) (u : User)
    (item : ShopItemType) (s : ShopPage.State) (w : World) :
  let attempt := ShopPage.handlePurchase backend (Some u) item s in
  let purchase := rpc_purchase_shop_item (item_id item) (user_id u) 1 in
  (ShopPage.userPoints s < points_cost item ->
     remote_calls (issued attempt w) = []
     /\ raised attempt w = [ShopPage.insufficient item (ShopPage.userPoints s)]
     /\ (attempt w).1 = s)
  /\ (purchase ∈ remote_calls (issued attempt w)
        <-> points_cost item <= ShopPage.userPoints s)
  /\ (forall c, c ∈ remote_calls (issued attempt w) ->
        points_cost item <= ShopPage.userPoints s).
Proof.
  intros attempt purchase.
  pose proof (handlePurchase_calls backend u item s w) as Hcalls.
  cbv zeta in Hcalls. fold attempt purchase in Hcalls.
  split; [|split].
  - intros Hshort. split; [|split].
    + rewrite Hcalls, bool_decide_eq_true_2 by exact Hshort. reflexivity.
    + subst attempt. unfold ShopPage.handlePurchase.
      rewrite bool_decide_eq_true_2 by exact Hshort.
      run. read_trace. reflexivity.
    + subst attempt. unfold ShopPage.handlePurchase.
      rewrite bool_decide_eq_true_2 by exact Hshort. reflexivity.
  - apply purchase_sent_iff.
  - intros c. rewrite Hcalls. case_bool_decide as Hcmp.
    + intros H. inversion H.
    + lia.
Qed.

(** A member holding 3 points asks for a 5-point item, then again once the
    balance reads 5. *)
Example handlePurchase_sample :
  remote_calls (issued (ShopPage.handlePurchase quiet (Some Sample.member)
                          Sample.camera {| ShopPage.userPoints := 3 |}) fresh)
  = []
  /\ remote_calls (issued (ShopPage.handlePurchase quiet (Some Sample.member)
                             Sample.camera {| ShopPage.userPoints := 5 |}) fresh)
     = [ rpc_purchase_shop_item "item-cam" "u-mina" 1;
         rpc_fetch_user_points (Some "u-mina") ].
Proof. split; vm_compute; reflexivity. Qed.

(** ** Saving equipment *)

Lemma remote_calls_snoc_local (t : list Event) (e : Event) :
  (forall c, e <> Remote c) -> remote_calls (t ++ [e]) = remote_calls t.
Proof.
  intros H. rewrite remote_calls_app. destruct e; [by destruct (H c)|..];
    cbn; apply app_nil_r.
Qed.

(** The events [saveEquipment] adds: the cache write, the read of the
    existing ids and, depending on its answer, the repair call, the removal
    of stale rows and the upsert of the list. *)
Lemma saveEquipment_trace (backend : Backend) (equipment : list Equipment)
    (w : World) :
  let existing := backend (remote_calls (trace w)) from_equipment_stats_select_id in
  let stale := Storage.idsToDelete (default [] (data existing))
                 (e_id <$> equipment) in
  trace (Storage.saveEquipment backend equipment w).2 =
    trace w ++
    SetItem key_equipment
    :: Remote from_equipment_stats_select_id
    :: match error existing with
       | Some _ => [Remote rpc_create_equipment_stats_table_if_not_exists]
       | None => []
       end
    ++ match stale with
       | [] => []
       | _ :: _ => [Remote (from_equipment_stats_delete_in stale)]
       end
    ++ match equipment with
       | [] => []
       | _ :: _ => [Remote (from_equipment_stats_upsert equipment)]
       end.
Proof.
  cbv zeta. unfold Storage.saveEquipment, Storage.tryCreateEquipmentStatsTable.
  run.
  rewrite (remote_calls_snoc_local (trace w) (SetItem key_equipment)) by done.
  set (existing := backend (remote_calls (trace w)) from_equipment_stats_select_id).
  destruct (error existing);
    destruct (Storage.idsToDelete _ _);
    destruct equipment; run; repeat rewrite <- app_assoc; reflexivity.
Qed.

Lemma saveEquipment_upserts (backend : Backend) (x : Equipment)
    (l : list Equipment) (w : World) :
  exists evs,
    trace (Storage.saveEquipment backend (x :: l) w).2 = trace w ++ evs
    /\ from_equipment_stats_upsert (x :: l) ∈ remote_calls evs
    /\ storage_reads evs = [].
Proof.
  eexists. split; [apply saveEquipment_trace|]. cbv zeta.
  destruct (error _); destruct (Storage.idsToDelete _ _); cbn;
    split; try reflexivity; set_solver.
Qed.

Lemma saveAnnouncements_trace (backend : Backend)
    (announcements : list Announcement) (w : World) :
  let existing := backend (remote_calls (trace w)) from_announcements_select_id in
  let stale := Storage.idsToDelete (default [] (data existing))
                 (a_id <$> announcements) in
  trace (Storage.saveAnnouncements backend announcements w).2 =
    trace w ++
    SetItem key_announcements
    :: Remote from_announcements_select_id
    :: match stale with
       | [] => []
       | _ :: _ => [Remote (from_announcements_delete_in stale)]
       end
    ++ match announcements with
       | [] => []
       | _ :: _ => [Remote (from_announcements_upsert announcements)]
       end.
Proof.
  cbv zeta. unfold Storage.saveAnnouncements.
  run.
  rewrite (remote_calls_snoc_local (trace w) (SetItem key_announcements)) by done.
  set (existing := backend (remote_calls (trace w)) from_announcements_select_id).
  destruct (Storage.idsToDelete _ _); destruct announcements; run;
    try (match goal with |- context [error ?r] => destruct (error r) end);
    run; repeat rewrite <- app_assoc; reflexivity.
Qed.

Lemma saveAnnouncements_upserts (backend : Backend) (x : Announcement)
    (l : list Announcement) (w : World) :
  exists evs,
    trace (Storage.saveAnnouncements backend (x :: l) w).2 = trace w ++ evs
    /\ from_announcements_upsert (x :: l) ∈ remote_calls evs
    /\ storage_reads evs = [].
Proof.
  eexists. split; [apply saveAnnouncements_trace|]. cbv zeta.
  destruct (Storage.idsToDelete _ _); cbn; split; try reflexivity; set_solver.
Qed.

(** Whatever the backend answers, [saveAnnouncements] leaves the list it
    was given in the cache. *)
Lemma saveAnnouncements_caches (backend : Backend)
    (announcements : list Announcement) (w : World) :
  av_club_announcements
    (localStorage (Storage.saveAnnouncements backend announcements w).2)
  = Some (WellFormed (ArrayOf announcements)).
Proof.
  unfold Storage.saveAnnouncements. run.
  destruct (Storage.idsToDelete _ _); destruct announcements; run;
    try (match goal with |- context [error ?r] => destruct (error r) end);
    reflexivity.
Qed.

Lemma addEquipment_blocked (backend : Backend) (now : string)
    (s : AnnouncementsConfigPage.State) (w : World) :
  let form := AnnouncementsConfigPage.newEquipment s in
  AnnouncementsConfigPage.ne_name form = ""
  \/ AnnouncementsConfigPage.ne_count form <= 0 ->
  issued (AnnouncementsConfigPage.addEquipment backend now s) w = []
  /\ (AnnouncementsConfigPage.addEquipment backend now s w).1 = s.
Proof.
  cbv zeta. intros Hguard. unfold AnnouncementsConfigPage.addEquipment.
  replace (bool_decide _ || bool_decide _) with true.
  - run. read_trace. split; reflexivity.
  - symmetry. apply orb_true_iff.
    destruct Hguard as [H|H]; [left|right]; by apply bool_decide_eq_true.
Qed.

Lemma addEquipment_saves (backend : Backend) (now : string)
    (s : AnnouncementsConfigPage.State) (w : World) :
  let form := AnnouncementsConfigPage.newEquipment s in
  AnnouncementsConfigPage.ne_name form <> "" ->
  0 < AnnouncementsConfigPage.ne_count form ->
  from_equipment_stats_upsert
    (AnnouncementsConfigPage.equipment s
       ++ [AnnouncementsConfigPage.new_row now form])
  ∈ remote_calls (issued (AnnouncementsConfigPage.addEquipment backend now s) w).
Proof.
  cbv zeta. intros Hname Hcount.
  set (updated := AnnouncementsConfigPage.equipment s ++ _).
  assert (Hrun : issued (AnnouncementsConfigPage.addEquipment backend now s) w
                 = issued (Storage.saveEquipment backend updated) w).
  { unfold AnnouncementsConfigPage.addEquipment.
    rewrite bool_decide_eq_false_2 by exact Hname.
    rewrite bool_decide_eq_false_2 by lia. cbn [orb].
    fold updated. run.
    destruct (Storage.saveEquipment backend updated w) as [[] w']. reflexivity. }
  rewrite Hrun.
  assert (Hne : exists x l, updated = x :: l).
  { subst updated. destruct (AnnouncementsConfigPage.equipment s); eauto. }
  destruct Hne as (x & l & ->).
  destruct (saveEquipment_upserts backend x l w) as (evs & Htrace & Hin & _).
  by rewrite (issued_app _ _ _ Htrace).
Qed.

(** The cart operations.  [addToCart] upserts the row for a signed-in
    user and [removeFromCart] deletes the row it is given; [submitClaim]
    submits a cart that is not empty, with the return date if one is
    chosen. *)
Lemma addToCart_calls (backend : Backend) (user : option User)
    (item : ShopItemType) (s : ShopPage.State) (w : World) :
  remote_calls (issued (ShopPage.addToCart backend user item s) w)
  = match user with
    | Some u => [from_cart_items_upsert (user_id u) (item_id item) 1]
    | None => []
    end.
Proof.
  unfold ShopPage.addToCart. destruct user as [u|].
  - run. destruct (error _); run; read_trace; reflexivity.
  - run. read_trace. reflexivity.
Qed.

Lemma removeFromCart_calls (backend : Backend) (Date : Type) (id : string)
    (s : Cart.State Date) (w : World) :
  remote_calls (issued (Cart.removeFromCart backend id s) w)
  = [from_cart_items_delete_eq_id id].
Proof.
  unfold Cart.removeFromCart. run.
  destruct (error _); run; read_trace; reflexivity.
Qed.

Lemma submitClaim_calls (backend : Backend) (user : option User) (Date : Type)
    (format_yyyy_MM_dd : Date -> string + string) (s : Cart.State Date)
    (w : World) :
  remote_calls (issued (Cart.submitClaim backend user format_yyyy_MM_dd s) w)
  = match user, Cart.items s with
    | Some _, _ :: _ =>
        match Cart.returnDate s with
        | None => [rpc_submit_cart_claim None]
        | Some date =>
            match format_yyyy_MM_dd date with
            | inl text => [rpc_submit_cart_claim (Some text)]
            | inr _ => []
            end
        end
    | _, _ => []
    end.
Proof.
  unfold Cart.submitClaim, Cart.submitClaim_resume.
  destruct user as [u|]; [destruct (Cart.items s) as [|item rest]|].
  - run. read_trace. reflexivity.
  - destruct (Cart.returnDate s) as [date|];
      [destruct (format_yyyy_MM_dd date) as [text|msg]|]; run;
      try (destruct (error _); run); read_trace; reflexivity.
  - destruct (Cart.items s); run; read_trace; reflexivity.
Qed.

Lemma removeEquipment_saves (backend : Backend) (id : string)
    (s : AnnouncementsConfigPage.State) (w : World) :
  issued (AnnouncementsConfigPage.removeEquipment backend id s) w
  = issued (Storage.saveEquipment backend
              (filter (fun e => e_id e ≠ id) (AnnouncementsConfigPage.equipment s)))
      w.
Proof.
  unfold AnnouncementsConfigPage.removeEquipment. run.
  destruct (Storage.saveEquipment backend _ w) as [[] w']. reflexivity.
Qed.



(** A member with no points at all: the camcorder goes into the cart and
    the cart is submitted; an empty cart is not. *)
Example cart_sample :
  remote_calls (issued (ShopPage.addToCart quiet (Some Sample.member)
                          Sample.camera {| ShopPage.userPoints := 0 |}) fresh)
  = [from_cart_items_upsert "u-mina" "item-cam" 1]
  /\ remote_calls (issued (Cart.submitClaim quiet (Some Sample.member) inl
                             Sample.cart_of_one) fresh)
     = [rpc_submit_cart_claim None]
  /\ issued (Cart.submitClaim quiet (Some Sample.member) inl
               Sample.empty_cart) fresh
     = [].
Proof. repeat split; vm_compute; reflexivity. Qed.

(** ** The local cache of announcements and equipment *)

Lemma getAnnouncements_remote_rows (backend : Backend) (w : World)
    (x : Announcement) (rows : list Announcement) :
  let r := backend (remote_calls (trace w)) from_announcements_select_all in
  error r = None -> data r = Some (x :: rows) ->
  (Storage.getAnnouncements backend w).1 = Storage.Resolved (ArrayOf (x :: rows))
  /\ issued (Storage.getAnnouncements backend) w
     = [Remote from_announcements_select_all]
  /\ localStorage (Storage.getAnnouncements backend w).2 = localStorage w.
Proof.
  intros r Herr Hdata. unfold Storage.getAnnouncements. run. fold r.
  rewrite Herr.
  change (data r) with (data r : option (list Announcement)). rewrite Hdata.
  run. read_trace. repeat split; reflexivity.
Qed.

Lemma getEquipmentAsync_remote_rows (backend : Backend) (w : World)
    (x : Equipment) (rows : list Equipment) :
  let r := backend (remote_calls (trace w)) from_equipment_stats_select_all in
  error r = None -> data r = Some (x :: rows) ->
  (Storage.getEquipmentAsync backend w).1 = x :: rows
  /\ issued (Storage.getEquipmentAsync backend) w
     = [Remote from_equipment_stats_select_all; SetItem key_equipment]
  /\ av_club_equipment (localStorage (Storage.getEquipmentAsync backend w).2)
     = Some (WellFormed (ArrayOf (x :: rows))).
Proof.
  intros r Herr Hdata. unfold Storage.getEquipmentAsync. run. fold r.
  rewrite Herr.
  change (data r) with (data r : option (list Equipment)). rewrite Hdata.
  run. read_trace. repeat split; reflexivity.
Qed.

(** A successful read without rows, over a cache that holds a list (or is
    absent, which stands for the default list): the list is returned, and
    a non-empty one is saved, that is, stale remote rows are deleted and the
    list is upserted. *)
Lemma getAnnouncements_no_rows (backend : Backend) (w : World)
    (cache : list Announcement) :
  let r := backend (remote_calls (trace w)) from_announcements_select_all in
  error r = None -> (data r = None \/ data r = Some []) ->
  Storage.parse_announcements (av_club_announcements (localStorage w))
    = Some (ArrayOf cache) ->
  let events := issued (Storage.getAnnouncements backend) w in
  let existing := backend (remote_calls (trace w) ++ [from_announcements_select_all])
                    from_announcements_select_id in
  let stale := Storage.idsToDelete (default [] (data existing)) (a_id <$> cache) in
  (Storage.getAnnouncements backend w).1 = Storage.Resolved (ArrayOf cache)
  /\ key_announcements ∈ storage_reads events
  /\ remote_calls events
     = from_announcements_select_all
       :: match cache with
          | [] => []
          | _ :: _ =>
              from_announcements_select_id
              :: match stale with
                 | [] => []
                 | _ :: _ => [from_announcements_delete_in stale]
                 end
              ++ [from_announcements_upsert cache]
          end.
Proof.
  intros r Herr Hdata Hcache events existing stale. subst events.
  unfold Storage.getAnnouncements, Storage.announcements_fallback. run. fold r.
  rewrite Herr.
  set (w1 := {| trace := (trace w ++ [Remote from_announcements_select_all])
                          ++ [GetItem key_announcements];
                toasts := toasts w; localStorage := localStorage w |}).
  assert (Hh : remote_calls (trace w1)
               = remote_calls (trace w) ++ [from_announcements_select_all]).
  { subst w1. cbn [trace].
    rewrite (remote_calls_snoc_local _ (GetItem key_announcements)) by done.
    apply remote_calls_snoc. }
  pose proof (saveAnnouncements_trace backend cache w1) as Htrace.
  pose proof (saveAnnouncements_caches backend cache w1) as Hkept.
  cbv zeta in Htrace. rewrite Hh in Htrace. fold existing stale in Htrace.
  destruct (Storage.saveAnnouncements backend cache w1) as [res w2] eqn:Hsave.
  cbn [snd] in Htrace, Hkept. subst w1. cbn [trace] in Htrace.
  change (data r) with (data r : option (list Announcement)).
  destruct Hdata as [Hdata|Hdata];
    change (data r) with (data r : option (list Announcement)) in Hdata;
    rewrite Hdata; run; rewrite Hcache;
    (destruct cache as [|x cache];
     [run; read_trace; repeat split; apply list_elem_of_here|]);
    run; rewrite Hsave; destruct res; run;
    rewrite ?Hkept; cbn [Storage.parse_announcements]; run;
    rewrite ?Htrace;
    repeat rewrite <- app_assoc; rewrite drop_app_length;
    unfold storage_reads; rewrite ?remote_calls_app;
    (split; [reflexivity|split; [set_solver|]]);
    destruct stale; cbn; rewrite ?app_nil_r; reflexivity.
Qed.

(** The same read over a cache that does not hold a list.  A text that
    cannot be parsed makes the function reject; [null] is returned after a
    second look at the cache; a value with a positive length that is not an
    array is handed to [saveAnnouncements], which caches it again, reads
    the remote ids and gives up.  Nothing is written to the backend. *)
Lemma getAnnouncements_no_rows_no_list (backend : Backend) (w : World) :
  let r := backend (remote_calls (trace w)) from_announcements_select_all in
  error r = None -> (data r = None \/ data r = Some []) ->
  let events := issued (Storage.getAnnouncements backend) w in
  let result := (Storage.getAnnouncements backend w).1 in
  match Storage.parse_announcements (av_club_announcements (localStorage w)) with
  | None =>
      result = Storage.Rejected
      /\ events = [Remote from_announcements_select_all;
                   GetItem key_announcements; GetItem key_announcements]
  | Some (NotArray JsNull) =>
      result = Storage.Resolved (NotArray JsNull)
      /\ events = [Remote from_announcements_select_all;
                   GetItem key_announcements; GetItem key_announcements]
  | Some (NotArray WithoutLength) =>
      result = Storage.Resolved (NotArray WithoutLength)
      /\ events = [Remote from_announcements_select_all;
                   GetItem key_announcements]
  | Some (NotArray WithLength) =>
      result = Storage.Resolved (NotArray WithLength)
      /\ events = [Remote from_announcements_select_all;
                   GetItem key_announcements; SetItem key_announcements;
                   Remote from_announcements_select_id;
                   GetItem key_announcements]
  | Some (ArrayOf _) => True
  end.
Proof.
  intros r Herr Hdata events result. subst events result.
  unfold Storage.getAnnouncements, Storage.announcements_fallback,
    Storage.saveAnnouncements_not_array.
  run. fold r. rewrite Herr.
  change (data r) with (data r : option (list Announcement)).
  destruct (Storage.parse_announcements _) as [[[]|]|] eqn:Hparse;
    try exact I;
    destruct Hdata as [Hdata|Hdata];
    change (data r) with (data r : option (list Announcement)) in Hdata;
    rewrite Hdata; run; rewrite ?Hparse; run; rewrite ?Hparse;
    cbn [Storage.parse_announcements]; run;
    read_trace; read_trace; split; reflexivity.
Qed.

(** For the equipment the cache always yields a list, the default one when
    the cell is absent, unparseable or not an array; [saveEquipment] may
    call the repair procedure before it deletes and upserts. *)
Lemma getEquipmentAsync_no_rows (backend : Backend) (w : World) :
  let r := backend (remote_calls (trace w)) from_equipment_stats_select_all in
  error r = None -> (data r = None \/ data r = Some []) ->
  let cache := Storage.parse_equipment (av_club_equipment (localStorage w)) in
  let events := issued (Storage.getEquipmentAsync backend) w in
  let existing := backend (remote_calls (trace w) ++ [from_equipment_stats_select_all])
                    from_equipment_stats_select_id in
  let stale := Storage.idsToDelete (default [] (data existing)) (e_id <$> cache) in
  (Storage.getEquipmentAsync backend w).1 = cache
  /\ storage_reads events = [key_equipment]
  /\ remote_calls events
     = from_equipment_stats_select_all
       :: match cache with
          | [] => []
          | _ :: _ =>
              from_equipment_stats_select_id
              :: match error existing with
                 | Some _ => [rpc_create_equipment_stats_table_if_not_exists]
                 | None => []
                 end
              ++ match stale with
                 | [] => []
                 | _ :: _ => [from_equipment_stats_delete_in stale]
                 end
              ++ [from_equipment_stats_upsert cache]
          end.
Proof.
  intros r Herr Hdata cache events existing stale. subst events.
  unfold Storage.getEquipmentAsync. run. fold r. rewrite Herr.
  change (data r) with (data r : option (list Equipment)).
  destruct Hdata as [Hdata|Hdata];
    change (data r) with (data r : option (list Equipment)) in Hdata;
    rewrite Hdata; run; fold cache; clearbody cache.
  all: set (w1 := {| trace := (trace w ++ [Remote from_equipment_stats_select_all])
                               ++ [GetItem key_equipment];
                     toasts := toasts w; localStorage := localStorage w |}).
  all: assert (Hh : remote_calls (trace w1)
                    = remote_calls (trace w) ++ [from_equipment_stats_select_all])
         by (subst w1; cbn [trace];
             rewrite (remote_calls_snoc_local _ (GetItem key_equipment)) by done;
             apply remote_calls_snoc).
  all: pose proof (saveEquipment_trace backend cache w1) as Htrace.
  all: cbv zeta in Htrace; rewrite Hh in Htrace; fold existing stale in Htrace.
  all: destruct cache as [|x cache];
         [subst w1; run; read_trace; repeat split; reflexivity|].
  all: destruct (Storage.saveEquipment backend (x :: cache) w1) as [res w2] eqn:Hsave.
  all: cbn [snd] in Htrace; subst w1; cbn [trace] in Htrace.
  all: run; rewrite Htrace;
         repeat rewrite <- app_assoc; rewrite drop_app_length;
         unfold storage_reads; rewrite ?remote_calls_app;
         destruct (error existing); destruct stale; cbn; rewrite ?app_nil_r;
         repeat split; reflexivity.
Qed.

Lemma getAnnouncements_read_failed (backend : Backend) (w : World)
    (e : PostgrestError) :
  error (backend (remote_calls (trace w)) from_announcements_select_all) = Some e ->
  issued (Storage.getAnnouncements backend) w
    = [Remote from_announcements_select_all; GetItem key_announcements]
  /\ (Storage.getAnnouncements backend w).1
     = match Storage.parse_announcements
               (av_club_announcements (localStorage w)) with
       | Some localData => Storage.Resolved localData
       | None => Storage.Rejected
       end.
Proof.
  intros Herr. unfold Storage.getAnnouncements, Storage.announcements_fallback.
  run. rewrite Herr. run.
  destruct (Storage.parse_announcements _); run; read_trace;
    split; reflexivity.
Qed.

Lemma getEquipmentAsync_read_failed (backend : Backend) (w : World)
    (e : PostgrestError) :
  error (backend (remote_calls (trace w)) from_equipment_stats_select_all) = Some e ->
  issued (Storage.getEquipmentAsync backend) w
    = [Remote from_equipment_stats_select_all; GetItem key_equipment]
  /\ (Storage.getEquipmentAsync backend w).1
     = Storage.parse_equipment (av_club_equipment (localStorage w)).
Proof.
  intros Herr. unfold Storage.getEquipmentAsync.
  run. rewrite Herr. run. read_trace. split; reflexivity.
Qed.

(** [C4], as amended.  When the remote read answers with at least one row,
    [getAnnouncements] and [getEquipmentAsync] return exactly those rows,
    send nothing but that read and do not read the cache
    ([getEquipmentAsync] refreshes the cached copy with the rows).  When
    the remote read fails, the cache is read, its content is returned and
    nothing is written to the backend.  When the remote read succeeds
    without rows, the cache is read and the cached list (the default list
    for an absent cache) is returned; an empty list is returned with
    nothing further sent, and a non-empty list is upserted into the remote
    relation, no other list being upserted.  A cached value that is not a
    list is never written to the backend. *)
Theorem C4_cache_use (backend : Backend) (w : World) :
  let ra := backend (remote_calls (trace w)) from_announcements_select_all in
  let re := backend (remote_calls (trace w)) from_equipment_stats_select_all in
  let ea := issued (Storage.getAnnouncements backend) w in
  let ee := issued (Storage.getEquipmentAsync backend) w in
  let cached_announcements :=
    Storage.parse_announcements (av_club_announcements (localStorage w)) in
  let cached_equipment :=
    Storage.parse_equipment (av_club_equipment (localStorage w)) in
  let no_rows {A} (d : option (list A)) := d = None \/ d = Some [] in
  (forall x rows, error ra = None -> data ra = Some (x :: rows) ->
     (Storage.getAnnouncements backend w).1 = Storage.Resolved (ArrayOf (x :: rows))
     /\ storage_reads ea = []
     /\ remote_calls ea = [from_announcements_select_all])
  /\ (forall x rows, error re = None -> data re = Some (x :: rows) ->
        (Storage.getEquipmentAsync backend w).1 = x :: rows
        /\ storage_reads ee = []
        /\ remote_calls ee = [from_equipment_stats_select_all]
        /\ av_club_equipment
             (localStorage (Storage.getEquipmentAsync backend w).2)
           = Some (WellFormed (ArrayOf (x :: rows))))
  /\ (forall e, error ra = Some e ->
        storage_reads ea = [key_announcements] /\ remote_writes ea = []
        /\ (Storage.getAnnouncements backend w).1
           = match cached_announcements with
             | Some localData => Storage.Resolved localData
             | None => Storage.Rejected
             end)
  /\ (forall e, error re = Some e ->
        storage_reads ee = [key_equipment] /\ remote_writes ee = []
        /\ (Storage.getEquipmentAsync backend w).1 = cached_equipment)
  /\ (forall cache, error ra = None -> no_rows (data ra) ->
        cached_announcements = Some (ArrayOf cache) ->
        (Storage.getAnnouncements backend w).1 = Storage.Resolved (ArrayOf cache)
        /\ key_announcements ∈ storage_reads ea
        /\ match cache with
           | [] => remote_calls ea = [from_announcements_select_all]
           | _ :: _ =>
               from_announcements_upsert cache ∈ remote_writes ea
               /\ (forall rows, from_announcements_upsert rows ∈ remote_calls ea ->
                     rows = cache)
           end)
  /\ (error re = None -> no_rows (data re) ->
        (Storage.getEquipmentAsync backend w).1 = cached_equipment
        /\ storage_reads ee = [key_equipment]
        /\ match cached_equipment with
           | [] => remote_calls ee = [from_equipment_stats_select_all]
           | _ :: _ =>
               from_equipment_stats_upsert cached_equipment ∈ remote_writes ee
               /\ (forall rows, from_equipment_stats_upsert rows ∈ remote_calls ee ->
                     rows = cached_equipment)
           end)
  /\ (error ra = None -> no_rows (data ra) ->
        match cached_announcements with
        | Some (ArrayOf _) => True
        | Some (NotArray v) =>
            (Storage.getAnnouncements backend w).1 = Storage.Resolved (NotArray v)
            /\ key_announcements ∈ storage_reads ea
            /\ remote_writes ea = []
        | None =>
            (Storage.getAnnouncements backend w).1 = Storage.Rejected
            /\ key_announcements ∈ storage_reads ea
            /\ remote_writes ea = []
        end).
Proof.
  intros ra re ea ee cached_announcements cached_equipment no_rows.
  repeat apply conj.
  - intros x rows Herr Hdata.
    destruct (getAnnouncements_remote_rows backend w x rows Herr Hdata)
      as (Hres & Hev & _).
    subst ea. rewrite Hev. repeat split. exact Hres.
  - intros x rows Herr Hdata.
    destruct (getEquipmentAsync_remote_rows backend w x rows Herr Hdata)
      as (Hres & Hev & Hcell).
    subst ee. rewrite Hev. repeat split; [exact Hres|exact Hcell].
  - intros e Herr.
    destruct (getAnnouncements_read_failed backend w e Herr) as [Hev Hres].
    subst ea. rewrite Hev. repeat split. exact Hres.
  - intros e Herr.
    destruct (getEquipmentAsync_read_failed backend w e Herr) as [Hev Hres].
    subst ee. rewrite Hev. repeat split. exact Hres.
  - intros cache Herr Hdata Hcache.
    destruct (getAnnouncements_no_rows backend w cache Herr Hdata Hcache)
      as (Hres & Hread & Hsent).
    split; [exact Hres|split; [exact Hread|]].
    subst ea. unfold remote_writes. rewrite Hsent.
    destruct cache as [|x cache]; [reflexivity|]. split.
    + apply list_elem_of_filter. split; [reflexivity|].
      do 2 apply list_elem_of_further. apply elem_of_app. right.
      apply list_elem_of_here.
    + intros rows Hin.
      apply elem_of_cons in Hin as [Hin|Hin]; [discriminate|].
      apply elem_of_cons in Hin as [Hin|Hin]; [discriminate|].
      apply elem_of_app in Hin as [Hin|Hin].
      * destruct (Storage.idsToDelete _ _); [inversion Hin|].
        apply list_elem_of_singleton in Hin. discriminate.
      * apply list_elem_of_singleton in Hin. by injection Hin.
  - intros Herr Hdata.
    destruct (getEquipmentAsync_no_rows backend w Herr Hdata)
      as (Hres & Hread & Hsent).
    split; [exact Hres|split; [exact Hread|]].
    subst ee. unfold remote_writes. rewrite Hsent. fold cached_equipment.
    destruct cached_equipment as [|x cache]; [reflexivity|]. split.
    + apply list_elem_of_filter. split; [reflexivity|].
      do 2 apply list_elem_of_further. apply elem_of_app. right.
      apply elem_of_app. right. apply list_elem_of_here.
    + intros rows Hin.
      apply elem_of_cons in Hin as [Hin|Hin]; [discriminate|].
      apply elem_of_cons in Hin as [Hin|Hin]; [discriminate|].
      apply elem_of_app in Hin as [Hin|Hin].
      * destruct (error (backend _ from_equipment_stats_select_id));
          [|inversion Hin].
        apply list_elem_of_singleton in Hin. discriminate.
      * apply elem_of_app in Hin as [Hin|Hin].
        -- match type of Hin with
           | context [match ?l with [] => _ | _ => _ end] => destruct l
           end; [inversion Hin|].
           apply list_elem_of_singleton in Hin. discriminate.
        -- apply list_elem_of_singleton in Hin. by injection Hin.
  - intros Herr Hdata.
    pose proof (getAnnouncements_no_rows_no_list backend w Herr Hdata) as Hrun.
    cbv zeta in Hrun. fold cached_announcements ea in Hrun.
    destruct cached_announcements as [[[]|]|]; try exact I;
      destruct Hrun as [Hres Hev]; rewrite Hev;
      (split; [exact Hres|split; [|reflexivity]]);
      apply list_elem_of_here.
Qed.

(** [C4], as stated, fails when the remote read succeeds without rows: the
    cached lists are read, returned in place of the (empty) remote data and
    upserted into the remote relations. *)
Lemma C4_counterexample :
  error (Sample.empty_store [] from_announcements_select_all) = None
  /\ data (Sample.empty_store [] from_announcements_select_all) = Some []
  /\ (Storage.getAnnouncements Sample.empty_store Sample.cached).1
     = Storage.Resolved (ArrayOf [Sample.notice])
  /\ issued (Storage.getAnnouncements Sample.empty_store) Sample.cached
     = [ Remote from_announcements_select_all;
         GetItem key_announcements;
         SetItem key_announcements;
         Remote from_announcements_select_id;
         Remote (from_announcements_upsert [Sample.notice]) ]
  /\ (Storage.getEquipmentAsync Sample.empty_store Sample.cached).1
     = [Sample.mixer]
  /\ issued (Storage.getEquipmentAsync Sample.empty_store) Sample.cached
     = [ Remote from_equipment_stats_select_all;
         GetItem key_equipment;
         SetItem key_equipment;
         Remote from_equipment_stats_select_id;
         Remote (from_equipment_stats_upsert [Sample.mixer]) ].
Proof. repeat split; vm_compute; reflexivity. Qed.

(** With rows on the backend the cache plays no part. *)
Example getAnnouncements_stocked :
  (Storage.getAnnouncements Sample.stocked Sample.cached).1
  = Storage.Resolved (ArrayOf [Sample.workshop])
  /\ issued (Storage.getAnnouncements Sample.stocked) Sample.cached
     = [Remote from_announcements_select_all]
  /\ (Storage.getEquipmentAsync Sample.stocked Sample.cached).1 = [Sample.tripod]
  /\ issued (Storage.getEquipmentAsync Sample.stocked) Sample.cached
     = [Remote from_equipment_stats_select_all; SetItem key_equipment].
Proof. repeat split; vm_compute; reflexivity. Qed.

(** A cache that holds the text of a JSON string, over an empty relation:
    the string is cached again, the remote ids are read, the save gives up
    and the string is returned after a second look at the cache. *)
Example getAnnouncements_on_a_cached_string :
  (Storage.getAnnouncements Sample.empty_store Sample.holds_a_string).1
  = Storage.Resolved (NotArray WithLength)
  /\ issued (Storage.getAnnouncements Sample.empty_store) Sample.holds_a_string
     = [ Remote from_announcements_select_all;
         GetItem key_announcements;
         SetItem key_announcements;
         Remote from_announcements_select_id;
         GetItem key_announcements ].
Proof. split; vm_compute; reflexivity. Qed.

(** ** One operation, how many requests *)

Lemma handleUpdateStatus_calls (backend : Backend)
    (type_error_message : list ClaimRow -> string) (claimId : string)
    (newStatus : AdminClaimsPanel.Decision) (s : AdminClaimsPanel.State)
    (w : World) :
  let update := rpc_update_claim_status_with_notification claimId
                  (AdminClaimsPanel.decision_text newStatus) in
  remote_calls
    (issued (AdminClaimsPanel.handleUpdateStatus backend type_error_message
               claimId newStatus s) w)
  = match error (backend (remote_calls (trace w)) update) with
    | Some _ => [update]
    | None => [update; from_claims_with_user_select]
    end.
Proof.
  cbv zeta.
  unfold AdminClaimsPanel.handleUpdateStatus, AdminClaimsPanel.fetchClaims_resume.
  run. destruct (error (backend (remote_calls (trace w)) _)).
  - run. read_trace. reflexivity.
  - run. match goal with |- context [error ?r] => destruct (error r) end;
      run; [|destruct (AdminClaimsPanel.transformedData _); run];
      read_trace; reflexivity.
Qed.

Lemma item_handleMarkAsRead_calls (backend : Backend)
    (notification : Notification) (s : NotificationsCenter.State) (w : World) :
  remote_calls
    (issued (NotificationsCenter.item_handleMarkAsRead backend notification s) w)
  = if is_read notification then []
    else [rpc_mark_notification_read (n_id notification)].
Proof.
  unfold NotificationsCenter.item_handleMarkAsRead.
  destruct (is_read notification).
  - run. read_trace. reflexivity.
  - run. destruct (error _); run; read_trace; reflexivity.
Qed.

(** The requests [addPoints] sends for any signed-in user: none unless the
    user's email is [ADMIN_EMAIL]. *)
Lemma addPoints_calls_any (backend : Backend) (env : option string)
    (user : option User) (userId : string) (v : Z) (s : Leaderboard.State)
    (w : World) :
  let allowed := match user with
                 | Some u => strict_eq (email u) env
                 | None => false
                 end in
  remote_calls (issued (Leaderboard.addPoints backend env user userId v s) w)
  = if allowed
    then match error (backend (remote_calls (trace w))
                        (rpc_add_points_to_user userId v)) with
         | Some _ => [rpc_add_points_to_user userId v]
         | None =>
             [rpc_add_points_to_user userId v;
              rpc_create_notification userId
                (Leaderboard.notification_for v).1
                (Leaderboard.notification_for v).2;
              from_profiles_with_points_select]
         end
    else [].
Proof.
  cbv zeta. destruct user as [u|].
  - destruct (strict_eq (email u) env) eqn:Hadmin.
    + exact (addPoints_calls backend env u userId v s w Hadmin).
    + unfold Leaderboard.addPoints, Leaderboard.ADMIN_EMAIL. rewrite Hadmin.
      run. read_trace. reflexivity.
  - unfold Leaderboard.addPoints. run. read_trace. reflexivity.
Qed.

(** [C5], as amended.  A purchase that passes the local checks, a decision
    on a claim and a tick on an unread notification each send exactly one
    write; the first two are followed by one refreshing read when the
    write is accepted, and by nothing otherwise.  A purchase stopped by the
    local checks and a tick on a notification already read send nothing.
    A point adjustment from the leaderboard, made by the administrator,
    sends [add_points_to_user] and, when that is accepted, a separate
    [create_notification] followed by a read of the board; made by anyone
    else it sends nothing. *)
Theorem C5_requests_per_operation (backend : Backend) (w : World) :
  (forall user item s,
     let op := ShopPage.handlePurchase backend user item s in
     match user with
     | None => remote_calls (issued op w) = []
     | Some u =>
         let purchase := rpc_purchase_shop_item (item_id item) (user_id u) 1 in
         if bool_decide (ShopPage.userPoints s < points_cost item)
         then remote_calls (issued op w) = []
         else remote_writes (issued op w) = [purchase]
              /\ remote_calls (issued op w)
                 = match error (backend (remote_calls (trace w)) purchase) with
                   | Some _ => [purchase]
                   | None => [purchase; rpc_fetch_user_points (Some (user_id u))]
                   end
     end)
  /\ (forall type_error_message claimId newStatus s,
        let op := AdminClaimsPanel.handleUpdateStatus backend type_error_message
                    claimId newStatus s in
        let update := rpc_update_claim_status_with_notification claimId
                        match newStatus with
                        | AdminClaimsPanel.approved => "approved"
                        | AdminClaimsPanel.rejected => "rejected"
                        end in
        remote_writes (issued op w) = [update]
        /\ remote_calls (issued op w)
           = match error (backend (remote_calls (trace w)) update) with
             | Some _ => [update]
             | None => [update; from_claims_with_user_select]
             end)
  /\ (forall notification s,
        let op := NotificationsCenter.item_handleMarkAsRead backend
                    notification s in
        remote_calls (issued op w)
        = if is_read notification then []
          else [rpc_mark_notification_read (n_id notification)])
  /\ (forall env user userId v s,
        let op := Leaderboard.addPoints backend env user userId v s in
        let adjust := rpc_add_points_to_user userId v in
        let notify := rpc_create_notification userId
                        (Leaderboard.notification_for v).1
                        (Leaderboard.notification_for v).2 in
        let is_administrator := match user with
                                | Some u => bool_decide (email u = env)
                                | None => false
                                end in
        if is_administrator
        then match error (backend (remote_calls (trace w)) adjust) with
             | Some _ =>
                 remote_calls (issued op w) = [adjust]
             | None =>
                 remote_calls (issued op w)
                 = [adjust; notify; from_profiles_with_points_select]
                 /\ remote_writes (issued op w) = [adjust; notify]
             end
        else remote_calls (issued op w) = []).
Proof.
  repeat apply conj.
  - intros [u|] item s op; subst op.
    + cbv zeta. unfold remote_writes. rewrite handlePurchase_calls.
      destruct (bool_decide _); [reflexivity|].
      destruct (error _); split; reflexivity.
    + unfold ShopPage.handlePurchase. run. read_trace. reflexivity.
  - intros type_error_message claimId newStatus s op update. subst op.
    unfold remote_writes. rewrite handleUpdateStatus_calls.
    replace (rpc_update_claim_status_with_notification claimId
               (AdminClaimsPanel.decision_text newStatus)) with update
      by (by destruct newStatus).
    destruct (error _); split; reflexivity.
  - intros notification s op. subst op. apply item_handleMarkAsRead_calls.
  - intros env user userId v s op adjust notify is_administrator. subst op.
    unfold remote_writes. rewrite addPoints_calls_any.
    fold adjust notify.
    replace (match user with
             | Some u => strict_eq (email u) env
             | None => false
             end) with is_administrator by reflexivity.
    destruct is_administrator; [|reflexivity].
    destruct (error _); [reflexivity|split; reflexivity].
Qed.

(** [C5], as stated, fails for point adjustments: an accepted adjustment of
    +5 is followed by a [create_notification] call from the client. *)
Lemma C5_counterexample :
  remote_writes
    (issued (Leaderboard.addPoints quiet (Some "chair@avclub.example")
               (Some Sample.chair) "u-omar" 5 Sample.empty_board) fresh)
  = [ rpc_add_points_to_user "u-omar" 5;
      rpc_create_notification "u-omar" "You've earned 5 points!" "success" ].
Proof. vm_compute. reflexivity. Qed.

(** ** The equipment fallback chain *)

(** [C6], as amended.  When the direct read of [equipment_stats] is
    refused, the client calls [load_equipment_for_client_v2], then
    [simple_load_equipment], then [fix_equipment_loading] followed by one
    retry of the direct read, in that order; a later step is reached only
    when every earlier one returned an error, and the first step answered
    without an error ends the chain (the repair being followed by its
    retry).  That step supplies the displayed rows when its payload is
    usable: a non-null result of the first procedure, the JSON text of a
    non-empty array from the second, a non-empty result of the retry.
    Otherwise the displayed list is left as it was and the failure banner is
    raised.  Nothing is sent beyond these five requests. *)
Theorem C6_fallback_chain (backend : Backend) (s : EquipmentPage.State)
    (w : World) (e : PostgrestError) :
  let primary := from_equipment_stats_select_all in
  let h := remote_calls (trace w) in
  error (backend h primary) = Some e ->
  let fn := backend (h ++ [primary]) rpc_load_equipment_for_client_v2 in
  let simple :=
    backend (h ++ [primary; rpc_load_equipment_for_client_v2])
      rpc_simple_load_equipment in
  let fix_ :=
    backend (h ++ [primary; rpc_load_equipment_for_client_v2;
                   rpc_simple_load_equipment])
      rpc_fix_equipment_loading in
  let retry :=
    backend (h ++ [primary; rpc_load_equipment_for_client_v2;
                   rpc_simple_load_equipment; rpc_fix_equipment_loading])
      primary in
  let sent := remote_calls (issued (EquipmentPage.fetchEquipment backend s) w) in
  let shown := EquipmentPage.equipment (EquipmentPage.fetchEquipment backend s w).1 in
  let banners := raised (EquipmentPage.fetchEquipment backend s) w in
  let supplied (rows : list Equipment) := shown = rows /\ banners = [] in
  let gave_up :=
    shown = EquipmentPage.equipment s /\ banners = [EquipmentPage.load_failed] in
  match error fn with
  | None =>
      sent = [primary; rpc_load_equipment_for_client_v2]
      /\ match data fn with
         | Some fnData => supplied fnData
         | None => gave_up
         end
  | Some _ =>
      match error simple with
      | None =>
          sent = [primary; rpc_load_equipment_for_client_v2;
                  rpc_simple_load_equipment]
          /\ match data simple with
             | Some (WellFormed (ArrayOf (x :: rows))) => supplied (x :: rows)
             | _ => gave_up
             end
      | Some _ =>
          match error fix_ with
          | Some _ =>
              sent = [primary; rpc_load_equipment_for_client_v2;
                      rpc_simple_load_equipment; rpc_fix_equipment_loading]
              /\ gave_up
          | None =>
              sent = [primary; rpc_load_equipment_for_client_v2;
                      rpc_simple_load_equipment; rpc_fix_equipment_loading;
                      primary]
              /\ match error retry, data retry with
                 | None, Some (x :: rows) => supplied (x :: rows)
                 | _, _ => gave_up
                 end
          end
      end
  end.
Proof.
  intros primary h Hprimary. cbv zeta.
  unfold EquipmentPage.fetchEquipment, EquipmentPage.failed, EquipmentPage.finished.
  run. fold h. fold primary. rewrite Hprimary.
  repeat
    (cbn beta iota; cbn [trace toasts fst snd];
     rewrite ?remote_calls_snoc; fold h;
     repeat rewrite <- (app_assoc h); cbn [app];
     match goal with
     | |- context [match error ?r with _ => _ end] => destruct (error r)
     end).
  all: cbn beta iota; cbn [trace toasts fst snd].
  all: repeat match goal with
       | |- context [match data ?r with _ => _ end] => destruct (data r)
       | |- context [match ?d with EmptyText => _ | _ => _ end] => destruct d
       | |- context [match ?d with NotArray _ => _ | _ => _ end] => destruct d
       | |- context [match ?d with [] => _ | _ => _ end] => destruct d
       end.
  all: cbn beta iota; cbn [trace toasts fst snd]; read_trace.
  all: repeat split; reflexivity.
Qed.

Lemma C6_fallback_chain_witness :
  remote_calls (issued (EquipmentPage.fetchEquipment unreachable
                          Sample.showing_mixer) fresh)
  = [ from_equipment_stats_select_all; rpc_load_equipment_for_client_v2;
      rpc_simple_load_equipment; rpc_fix_equipment_loading ]
  /\ EquipmentPage.equipment
       (EquipmentPage.fetchEquipment unreachable Sample.showing_mixer fresh).1
     = [Sample.mixer]
  /\ raised (EquipmentPage.fetchEquipment unreachable Sample.showing_mixer) fresh
     = [EquipmentPage.load_failed].
Proof.
  apply (C6_fallback_chain unreachable Sample.showing_mixer fresh
           {| message := "Failed to fetch" |}).
  reflexivity.
Defined.

(** [C6], as stated, fails: the second fallback answers without an error,
    which ends the chain, but its payload (an empty array) is not taken as
    the displayed data: the page keeps the row it showed and raises the
    failure banner.  Likewise when the first fallback answers [null]. *)
Lemma C6_counterexample :
  error (Sample.only_simple_answers
           [from_equipment_stats_select_all; rpc_load_equipment_for_client_v2]
           rpc_simple_load_equipment) = None
  /\ remote_calls (issued (EquipmentPage.fetchEquipment Sample.only_simple_answers
                             Sample.showing_mixer) fresh)
     = [ from_equipment_stats_select_all; rpc_load_equipment_for_client_v2;
         rpc_simple_load_equipment ]
  /\ EquipmentPage.equipment
       (EquipmentPage.fetchEquipment Sample.only_simple_answers
          Sample.showing_mixer fresh).1
     = [Sample.mixer]
  /\ raised (EquipmentPage.fetchEquipment Sample.only_simple_answers
               Sample.showing_mixer) fresh
     = [EquipmentPage.load_failed]
  /\ error (Sample.v2_answers_null [from_equipment_stats_select_all]
              rpc_load_equipment_for_client_v2) = None
  /\ remote_calls (issued (EquipmentPage.fetchEquipment Sample.v2_answers_null
                             Sample.showing_mixer) fresh)
     = [ from_equipment_stats_select_all; rpc_load_equipment_for_client_v2 ]
  /\ EquipmentPage.equipment
       (EquipmentPage.fetchEquipment Sample.v2_answers_null
          Sample.showing_mixer fresh).1
     = [Sample.mixer]
  /\ raised (EquipmentPage.fetchEquipment Sample.v2_answers_null
               Sample.showing_mixer) fresh
     = [EquipmentPage.load_failed].
Proof. repeat split; vm_compute; reflexivity. Qed.

(** ** Toggling the visibility of a borrowing *)

Lemma now_is_hidden_iff (r : bool) :
  (description (BorrowingCard.now_is (Some r)) = BorrowingCard.hidden_text
     <-> r = true)
  /\ (description (BorrowingCard.now_is (Some r)) = BorrowingCard.visible_text
        <-> r = false).
Proof. destruct r; cbn; split; split; intros H; try done; by inversion H. Qed.

(** [C7], as amended.  For every completed [toggle_borrowing_visibility]
    call returning [r], the success banner reads "hidden" exactly when [r]
    is true and "visible" exactly when [r] is false, and the page then
    reads the borrowings list again (from [admin_borrowings] for the
    administrator, through [get_user_borrowings] otherwise).  When that
    read is answered, the displayed list is the rows it returned, so each
    card draws its "Hidden" badge from its re-read row; when it is refused,
    the list, and with it every badge, stays as it was. *)
Theorem C7_toggle_reports_then_rereads (backend : Backend) (u : User)
    (borrowing : Borrowing) (s : BorrowingsPage.State) (w : World) (r : bool) :
  let toggle := rpc_toggle_borrowing_visibility (b_id borrowing) in
  let h := remote_calls (trace w) in
  error (backend h toggle) = None ->
  data (backend h toggle) = Some r ->
  let op := BorrowingCard.on_page backend (Some u) borrowing s in
  let shown := BorrowingsPage.borrowings (op w).1 in
  let all_rows := backend (h ++ [toggle]) from_admin_borrowings_select in
  let own_rows := backend (h ++ [toggle]) (rpc_get_user_borrowings (user_id u)) in
  head (raised op w) = Some (BorrowingCard.now_is (Some r))
  /\ (description (BorrowingCard.now_is (Some r)) = BorrowingCard.hidden_text
        <-> r = true)
  /\ (description (BorrowingCard.now_is (Some r)) = BorrowingCard.visible_text
        <-> r = false)
  /\ (if BorrowingsPage.isAdmin (Some u)
      then remote_calls (issued op w) = [toggle; from_admin_borrowings_select]
           /\ shown = match error all_rows with
                      | Some _ => BorrowingsPage.borrowings s
                      | None => default [] (data all_rows)
                      end
      else remote_calls (issued op w)
             = [toggle; rpc_get_user_borrowings (user_id u)]
           /\ shown = match error own_rows with
                      | Some _ => BorrowingsPage.borrowings s
                      | None => default [] (data own_rows)
                      end).
Proof.
  intros toggle h Herr Hdata. cbv zeta.
  destruct (now_is_hidden_iff r) as [Hh Hv].
  split; [|split; [exact Hh|split; [exact Hv|]]].
  - unfold BorrowingCard.on_page, BorrowingCard.toggleVisibility,
      BorrowingsPage.fetchBorrowings, BorrowingsPage.settle.
    run. fold h toggle. rewrite Herr.
    change (data (backend h toggle)) with (data (backend h toggle) : option bool).
    rewrite Hdata.
    destruct (BorrowingsPage.isAdmin (Some u)); run;
      match goal with |- context [error ?a] => destruct (error a) end;
      run; read_trace; reflexivity.
  - unfold BorrowingCard.on_page, BorrowingCard.toggleVisibility,
      BorrowingsPage.fetchBorrowings, BorrowingsPage.settle.
    run. fold h toggle. rewrite Herr.
    destruct (BorrowingsPage.isAdmin (Some u)); run;
      rewrite !remote_calls_snoc; fold h;
      match goal with |- context [error ?a] => destruct (error a) end;
      run; read_trace; split; reflexivity.
Qed.

Lemma C7_toggle_reports_then_rereads_witness :
  let op := BorrowingCard.on_page Sample.toggled (Some Sample.member)
              Sample.loan Sample.showing_loan in
  head (raised op fresh) = Some (BorrowingCard.now_is (Some true))
  /\ (description (BorrowingCard.now_is (Some true)) = BorrowingCard.hidden_text
        <-> true = true)
  /\ (description (BorrowingCard.now_is (Some true)) = BorrowingCard.visible_text
        <-> true = false)
  /\ (remote_calls (issued op fresh)
        = [ rpc_toggle_borrowing_visibility "claim-12";
            rpc_get_user_borrowings "u-mina" ]
      /\ BorrowingsPage.borrowings (op fresh).1 = [Sample.loan_hidden]).
Proof.
  exact (C7_toggle_reports_then_rereads Sample.toggled Sample.member
           Sample.loan Sample.showing_loan fresh true eq_refl eq_refl).
Defined.

(** [C7], as stated, fails: the toggle completes and returns [true], the
    banner announces "hidden", but the list cannot be read again, and the
    card still shows the borrowing without its "Hidden" badge. *)
Lemma C7_counterexample :
  let answer := Sample.toggled_then_offline []
                  (rpc_toggle_borrowing_visibility "claim-12") in
  let op := BorrowingCard.on_page Sample.toggled_then_offline
              (Some Sample.member) Sample.loan Sample.showing_loan in
  error answer = None
  /\ data answer = Some true
  /\ description <$> head (raised op fresh) = Some BorrowingCard.hidden_text
  /\ BorrowingsPage.borrowings (op fresh).1 = [Sample.loan]
  /\ BorrowingCard.shows_hidden_badge Sample.loan = false.
Proof. repeat split; vm_compute; reflexivity. Qed.

(** ** Realtime notifications *)

(** [C8] For every [INSERT] delivered on the notifications channel, the
    delivered row is put in front of the list being displayed, the unread
    count grows by one when the row is unread (and is unchanged otherwise),
    the loading flag is untouched, a "New Notification" banner is raised,
    and the callback sends no request and reads no storage: the list is not
    fetched again. *)
Theorem C8_insert_updates_list_in_place (payload_new : Notification)
    (s : NotificationsCenter.State) (w : World) :
  let op := NotificationsCenter.on_insert payload_new s in
  NotificationsCenter.notifications (op w).1
    = payload_new :: NotificationsCenter.notifications s
  /\ NotificationsCenter.unreadCount (op w).1
     = (NotificationsCenter.unreadCount s
        + (if is_read payload_new then 0 else 1))%nat
  /\ NotificationsCenter.loading (op w).1 = NotificationsCenter.loading s
  /\ issued op w = []
  /\ raised op w = [NotificationsCenter.new_notification payload_new].
Proof.
  cbv zeta. unfold NotificationsCenter.on_insert. run.
  rewrite !drop_all. cbn [fst NotificationsCenter.notifications
                          NotificationsCenter.loading].
  repeat split.
  - unfold NotificationsCenter.unreadCount.
    cbn [NotificationsCenter.notifications].
    rewrite filter_cons. destruct (is_read payload_new).
    + rewrite decide_False by done. lia.
    + rewrite decide_True by done. cbn [length]. lia.
  - apply drop_app_length.
Qed.

(** ** The administrator identity *)

Lemma or_else_truthy (x : option string) (d : string) :
  truthy_str x = true -> Some (or_else x d) = x.
Proof.
  destruct x as [s|]; cbn; [|done].
  case_bool_decide; [done|reflexivity].
Qed.

Lemma or_else_falsy (x : option string) (d : string) :
  truthy_str x = false -> or_else x d = d.
Proof.
  destruct x as [s|]; cbn; [|done].
  case_bool_decide; [reflexivity|done].
Qed.

(** [C9], as amended.  For a signed-in user and every environment: the
    leaderboard, the shop page, the announcements page, the
    club-information page and the admin settings page compare the user's
    email with [VITE_ADMIN_EMAIL]; the route guard and the user header do
    so when that variable holds a non-empty value and compare with the
    built-in address when it is unset or empty; the stand-alone admin panel
    compares with the built-in address whatever the environment holds. *)
Theorem C9_admin_identity_sources (env : AdminIdentity.Env) (u : User) :
  let by_environment := AdminIdentity.matches_environment env u in
  let by_built_in := strict_eq (email u) (Some AdminIdentity.BUILT_IN) in
  let configured := truthy_str (AdminIdentity.VITE_ADMIN_EMAIL env) in
  AdminIdentity.Leaderboard_isAdmin env (Some u) = by_environment
  /\ AdminIdentity.ShopPage_isAdmin env (Some u) = by_environment
  /\ AdminIdentity.AnnouncementsPage_isAdmin env (Some u) = by_environment
  /\ AdminIdentity.AnnouncementsConfigPage_isAdmin env u = by_environment
  /\ AdminIdentity.AdminConfigPage_isAdmin env u = by_environment
  /\ AdminIdentity.ProtectedRoute_isAdmin env (Some u)
     = (if configured then by_environment else by_built_in)
  /\ AdminIdentity.UserHeader_isAdmin env (Some u)
     = (if configured then by_environment else by_built_in)
  /\ AdminIdentity.AdminPanel_isAuthorizedAdmin env (Some u) = by_built_in.
Proof.
  cbv zeta. repeat split.
  - unfold AdminIdentity.ProtectedRoute_isAdmin,
      AdminIdentity.ProtectedRoute_ADMIN_EMAIL, AdminIdentity.matches_environment.
    cbn [opt_email].
    destruct (truthy_str (AdminIdentity.VITE_ADMIN_EMAIL env)) eqn:Hset.
    + by rewrite or_else_truthy.
    + by rewrite or_else_falsy.
  - unfold AdminIdentity.UserHeader_isAdmin, AdminIdentity.matches_environment.
    cbn [opt_email].
    destruct (truthy_str (AdminIdentity.VITE_ADMIN_EMAIL env)) eqn:Hset.
    + by rewrite or_else_truthy.
    + by rewrite or_else_falsy.
  - unfold AdminIdentity.AdminPanel_isAuthorizedAdmin, AdminPanel.on_user_change,
      AdminPanel.ADMIN_EMAIL, AdminIdentity.BUILT_IN.
    destruct (strict_eq (email u) _); reflexivity.
Qed.

(** [C9], as stated, fails: with the environment naming
    chair@avclub.example, that user is the administrator for the
    leaderboard but not for the stand-alone admin panel; and with the
    variable unset, the route guard still admits the built-in address. *)
Lemma C9_counterexample :
  let env := {| AdminIdentity.VITE_ADMIN_EMAIL := Some "chair@avclub.example";
                AdminIdentity.NEXT_PUBLIC_ADMIN_EMAIL := None |} in
  let unset := {| AdminIdentity.VITE_ADMIN_EMAIL := None;
                  AdminIdentity.NEXT_PUBLIC_ADMIN_EMAIL := None |} in
  let founder := {| user_id := "u-0";
                    email := Some "ademmsallem782@gmail.com" |} in
  AdminIdentity.matches_environment env Sample.chair = true
  /\ AdminIdentity.Leaderboard_isAdmin env (Some Sample.chair) = true
  /\ AdminIdentity.AdminPanel_isAuthorizedAdmin env (Some Sample.chair) = false
  /\ AdminIdentity.matches_environment unset founder = false
  /\ AdminIdentity.ProtectedRoute_isAdmin unset (Some founder) = true.
Proof. repeat split; vm_compute; reflexivity. Qed.

(** The checks that name the address literally ignore the environment:
    the borrowings page, user management and the setup components. *)
Lemma literal_checks_ignore_environment (env : AdminIdentity.Env) (u : User) :
  let by_built_in := strict_eq (email u) (Some AdminIdentity.BUILT_IN) in
  AdminIdentity.BorrowingsPage_isAdmin env (Some u) = by_built_in
  /\ AdminIdentity.UserManagement_isAdmin env (Some u) = by_built_in
  /\ AdminIdentity.Setup_isAdmin env (Some u) = by_built_in.
Proof. repeat split. Qed.

(** * Further properties of the code *)

(** ** The cache behind the storage functions *)

(** Whatever the backend answers, [saveEquipment] leaves the list it was
    given in the cache. *)
Lemma saveEquipment_caches (backend : Backend) (equipment : list Equipment)
    (w : World) :
  av_club_equipment (localStorage (Storage.saveEquipment backend equipment w).2)
  = Some (WellFormed (ArrayOf equipment)).
Proof.
  unfold Storage.saveEquipment, Storage.tryCreateEquipmentStatsTable. run.
  destruct (error _); destruct (Storage.idsToDelete _ _);
    destruct equipment; reflexivity.
Qed.

(** [X1] What [saveEquipment] and [saveAnnouncements] were given can be
    read back from the cache whatever the backend did with it: the
    synchronous [getEquipment] returns the saved list, and so do
    [getEquipmentAsync] and [getAnnouncements] when their remote read is
    refused afterwards. *)
Theorem X1_saved_lists_read_back (backend : Backend)
    (equipment : list Equipment) (announcements : list Announcement)
    (w : World) :
  let we := (Storage.saveEquipment backend equipment w).2 in
  let wa := (Storage.saveAnnouncements backend announcements w).2 in
  (Storage.getEquipment we).1 = equipment
  /\ (forall later : Backend,
        is_Some (error (later (remote_calls (trace we))
                          from_equipment_stats_select_all)) ->
        (Storage.getEquipmentAsync later we).1 = equipment)
  /\ (forall later : Backend,
        is_Some (error (later (remote_calls (trace wa))
                          from_announcements_select_all)) ->
        (Storage.getAnnouncements later wa).1
        = Storage.Resolved (ArrayOf announcements)).
Proof.
  intros we wa. repeat apply conj.
  - unfold Storage.getEquipment. run. subst we.
    rewrite saveEquipment_caches. reflexivity.
  - intros later [e He].
    destruct (getEquipmentAsync_read_failed later we e He) as [_ ->].
    subst we. rewrite saveEquipment_caches. reflexivity.
  - intros later [e He].
    destruct (getAnnouncements_read_failed later wa e He) as [_ ->].
    subst wa. rewrite saveAnnouncements_caches. reflexivity.
Qed.

(** [X2] The rows [getEquipmentAsync] receives from the backend are what
    the cache serves afterwards: a later [getEquipmentAsync] whose read is
    refused, and the synchronous [getEquipment], return exactly those rows. *)
Theorem X2_last_remote_equipment_served_offline (backend later : Backend)
    (w : World) (x : Equipment) (rows : list Equipment) :
  let r := backend (remote_calls (trace w)) from_equipment_stats_select_all in
  error r = None ->
  data r = Some (x :: rows) ->
  let w1 := (Storage.getEquipmentAsync backend w).2 in
  is_Some (error (later (remote_calls (trace w1))
                    from_equipment_stats_select_all)) ->
  (Storage.getEquipmentAsync later w1).1 = x :: rows
  /\ (Storage.getEquipment w1).1 = x :: rows.
Proof.
  intros r Herr Hdata w1 [e He].
  destruct (getEquipmentAsync_remote_rows backend w x rows Herr Hdata)
    as (_ & _ & Hcell).
  fold w1 in Hcell. split.
  - destruct (getEquipmentAsync_read_failed later w1 e He) as [_ ->].
    rewrite Hcell. reflexivity.
  - unfold Storage.getEquipment. run. rewrite Hcell. reflexivity.
Qed.

Lemma X2_last_remote_equipment_served_offline_witness :
  (Storage.getEquipmentAsync unreachable Sample.after_stocked_load).1
    = [Sample.tripod]
  /\ (Storage.getEquipment Sample.after_stocked_load).1 = [Sample.tripod].
Proof.
  apply (X2_last_remote_equipment_served_offline Sample.stocked unreachable
           fresh Sample.tripod []).
  - reflexivity.
  - reflexivity.
  - eexists. reflexivity.
Defined.

(** [X3] The two readers of the equipment cache agree on every content of
    the cell but one: on well-formed JSON that is not an array the
    synchronous [getEquipment] returns the empty list, while the fallback
    of [getEquipmentAsync] returns the six default rows.  Neither sends a
    request, and an absent, empty or unparseable cell gives the defaults. *)
Theorem X3_sync_and_async_cache_readers (later : Backend) (w : World)
    (e : PostgrestError) :
  error (later (remote_calls (trace w)) from_equipment_stats_select_all) = Some e ->
  let cell := av_club_equipment (localStorage w) in
  let sync := (Storage.getEquipment w).1 in
  let async := (Storage.getEquipmentAsync later w).1 in
  remote_calls (issued Storage.getEquipment w) = []
  /\ match cell with
     | Some (WellFormed (NotArray _)) =>
         sync = [] /\ async = Storage.DEFAULT_EQUIPMENT /\ length async = 6%nat
     | Some (WellFormed (ArrayOf parsed)) => sync = parsed /\ async = parsed
     | _ => sync = Storage.DEFAULT_EQUIPMENT /\ async = Storage.DEFAULT_EQUIPMENT
     end.
Proof.
  intros He cell sync async.
  destruct (getEquipmentAsync_read_failed later w e He) as [_ Hasync].
  subst async. rewrite Hasync. subst sync cell.
  unfold Storage.getEquipment. run. read_trace.
  split; [reflexivity|].
  destruct (av_club_equipment (localStorage w)) as [[| |[|parsed]]|];
    repeat split; reflexivity.
Qed.

Lemma X3_sync_and_async_cache_readers_witness :
  remote_calls (issued Storage.getEquipment Sample.cached) = []
  /\ (Storage.getEquipment Sample.cached).1 = [Sample.mixer]
  /\ (Storage.getEquipmentAsync unreachable Sample.cached).1 = [Sample.mixer].
Proof.
  apply (X3_sync_and_async_cache_readers unreachable Sample.cached
           {| message := "Failed to fetch" |}).
  reflexivity.
Defined.

(** ** What a save deletes *)

Lemma idsToDelete_spec (existingIds currentIds : list string) (i : string) :
  i ∈ Storage.idsToDelete existingIds currentIds
  <-> i ∈ existingIds /\ i ∉ currentIds.
Proof.
  unfold Storage.idsToDelete. rewrite list_elem_of_filter. tauto.
Qed.

(** [X4] The one removal [saveEquipment] may send names exactly the ids
    the backend reported that are absent from the list being saved: the
    request is never empty, never names a row of the list, and is sent
    before the upsert of that list. *)
Theorem X4_saveEquipment_deletes_only_stale_rows (backend : Backend)
    (equipment : list Equipment) (w : World) (ids : list string) :
  let sent := remote_calls (issued (Storage.saveEquipment backend equipment) w) in
  let existing := backend (remote_calls (trace w)) from_equipment_stats_select_id in
  from_equipment_stats_delete_in ids ∈ sent ->
  ids <> []
  /\ (forall i, i ∈ ids <-> i ∈ default [] (data existing)
                            /\ i ∉ (e_id <$> equipment))
  /\ (forall row, row ∈ equipment -> e_id row ∉ ids)
  /\ (equipment <> [] ->
      exists before,
        sent = before ++ [from_equipment_stats_delete_in ids;
                          from_equipment_stats_upsert equipment]).
Proof.
  intros sent existing Hin. subst sent.
  rewrite (issued_app _ _ _ (saveEquipment_trace backend equipment w)) in *.
  cbv zeta in *. fold existing in Hin |- *.
  set (stale := Storage.idsToDelete (default [] (data existing))
                  (e_id <$> equipment)) in *.
  assert (Hids : ids = stale /\ stale <> []).
  { destruct (error existing); destruct stale as [|i stale'] eqn:Hs;
      destruct equipment; cbn in Hin;
      repeat match goal with
             | H : _ ∈ _ :: _ |- _ => apply elem_of_cons in H as [H|H]
             | H : _ ∈ [] |- _ => inversion H
             | H : from_equipment_stats_delete_in _ = _ |- _ =>
                 inversion H; clear H
             end; subst; done. }
  destruct Hids as [-> Hne]. repeat apply conj.
  - exact Hne.
  - intros i. apply idsToDelete_spec.
  - intros row Hrow Hbad. apply idsToDelete_spec in Hbad as [_ Hbad].
    apply Hbad, list_elem_of_fmap. eauto.
  - intros Heq. destruct equipment as [|row l]; [done|].
    destruct stale as [|i stale'] eqn:Hs; [done|].
    destruct (error existing); cbn;
      first [ by eexists [_; _] | by eexists [_] ].
Qed.

Lemma X4_saveEquipment_deletes_only_stale_rows_witness :
  let sent := remote_calls
    (issued (Storage.saveEquipment Sample.holds_two [Sample.mixer]) fresh) in
  let existing := Sample.holds_two [] from_equipment_stats_select_id in
  ["e-1"] <> []
  /\ (forall i, i ∈ ["e-1"] <-> i ∈ default [] (data existing)
                                /\ i ∉ (e_id <$> [Sample.mixer]))
  /\ (forall row, row ∈ [Sample.mixer] -> e_id row ∉ ["e-1"])
  /\ ([Sample.mixer] <> [] ->
      exists before,
        sent = before ++ [from_equipment_stats_delete_in ["e-1"];
                          from_equipment_stats_upsert [Sample.mixer]]).
Proof.
  apply (X4_saveEquipment_deletes_only_stale_rows Sample.holds_two
           [Sample.mixer] fresh ["e-1"]).
  assert (Hsent :
    remote_calls (issued (Storage.saveEquipment Sample.holds_two [Sample.mixer]) fresh)
    = [ from_equipment_stats_select_id;
        from_equipment_stats_delete_in ["e-1"];
        from_equipment_stats_upsert [Sample.mixer] ])
    by (vm_compute; reflexivity).
  rewrite Hsent. apply list_elem_of_further, list_elem_of_here.
Defined.

(** ** Removing an announcement *)

Lemma saveAnnouncements_toasts (backend : Backend)
    (announcements : list Announcement) (w : World) :
  toasts (Storage.saveAnnouncements backend announcements w).2 = toasts w.
Proof.
  unfold Storage.saveAnnouncements. run.
  destruct (Storage.idsToDelete _ _); destruct announcements; run;
    try (match goal with |- context [error ?r] => destruct (error r) end);
    reflexivity.
Qed.

Lemma saveEquipment_toasts (backend : Backend) (equipment : list Equipment)
    (w : World) :
  toasts (Storage.saveEquipment backend equipment w).2 = toasts w.
Proof.
  unfold Storage.saveEquipment, Storage.tryCreateEquipmentStatsTable. run.
  destruct (error _); destruct (Storage.idsToDelete _ _);
    destruct equipment; reflexivity.
Qed.

(** [saveAnnouncements] rejects exactly when there is a list to upsert and
    the upsert is refused; what the id read and the removal answer plays
    no part. *)
Lemma saveAnnouncements_outcome (backend : Backend)
    (announcements : list Announcement) (w : World) :
  let existing := backend (remote_calls (trace w)) from_announcements_select_id in
  let stale := Storage.idsToDelete (default [] (data existing))
                 (a_id <$> announcements) in
  let history :=
    remote_calls (trace w) ++
    from_announcements_select_id
    :: match stale with
       | [] => []
       | _ :: _ => [from_announcements_delete_in stale]
       end in
  (Storage.saveAnnouncements backend announcements w).1 =
    match announcements with
    | [] => Storage.Resolved tt
    | _ :: _ =>
        match error (backend history (from_announcements_upsert announcements)) with
        | Some _ => Storage.Rejected
        | None => Storage.Resolved tt
        end
    end.
Proof.
  cbv zeta. unfold Storage.saveAnnouncements. run.
  rewrite (remote_calls_snoc_local (trace w) (SetItem key_announcements)) by done.
  destruct (Storage.idsToDelete _ _); destruct announcements; run;
    repeat (rewrite remote_calls_snoc
            || rewrite (remote_calls_snoc_local _ (SetItem key_announcements))
                 by done);
    repeat rewrite <- app_assoc; cbn [app];
    try (match goal with |- context [error ?r] => destruct (error r) end);
    reflexivity.
Qed.

Lemma getAnnouncements_toasts (backend : Backend) (w : World) :
  toasts (Storage.getAnnouncements backend w).2 = toasts w.
Proof.
  unfold Storage.getAnnouncements, Storage.announcements_fallback,
    Storage.saveAnnouncements_not_array. run.
  destruct (error _).
  - run. destruct (Storage.parse_announcements _); reflexivity.
  - destruct (data _) as [[|x rows]|]; run; try reflexivity;
      (destruct (Storage.parse_announcements _) as [[[]|[|y cached]]|] eqn:Hparse;
       run; rewrite ?Hparse; cbn [Storage.parse_announcements]; run;
       try reflexivity;
       match goal with
       | |- context [Storage.saveAnnouncements backend ?l ?w1] =>
           pose proof (saveAnnouncements_toasts backend l w1) as Hkeep;
           destruct (Storage.saveAnnouncements backend l w1) as [[[]|] w2]
       end; run; cbn [snd toasts] in Hkeep;
       repeat match goal with
              | |- context [match Storage.parse_announcements ?c with
                            | _ => _ end] =>
                  destruct (Storage.parse_announcements c)
              end;
       exact Hkeep).
Qed.

(** [X5] Removing an announcement takes it off the displayed list at once
    and saves the remaining list.  When the save is accepted, which is
    always the case when nothing remains, the "Announcement Removed" banner
    is raised.  When the save is rejected, the failure banner is raised and
    the list is read again: the removal is undone on screen only if that
    remote read succeeds with rows, which then replace the list; if the
    read is refused or empty, the cache written by the save is served and
    the announcement stays removed on screen.  The saving flag is always
    cleared. *)
Theorem X5_removeAnnouncement_revert (backend : Backend) (id : string)
    (rows : list Announcement) (saving : bool) (w : World) :
  let updated := filter (fun a => a_id a ≠ id) rows in
  let op := AnnouncementsConfigPage.removeAnnouncement backend id
              {| AnnouncementsConfigPage.announcements := ArrayOf rows;
                 AnnouncementsConfigPage.isSaving := saving |} in
  let saved := Storage.saveAnnouncements backend updated w in
  let reread := backend (remote_calls (trace saved.2)) from_announcements_select_all in
  AnnouncementsConfigPage.isSaving (op w).1 = false
  /\ (updated = [] -> saved.1 = Storage.Resolved tt)
  /\ match saved.1 with
     | Storage.Resolved _ =>
         raised op w = [AnnouncementsConfigPage.notice_removed]
         /\ AnnouncementsConfigPage.announcements (op w).1 = ArrayOf updated
     | Storage.Rejected =>
         raised op w = [AnnouncementsConfigPage.remove_failed]
         /\ AnnouncementsConfigPage.announcements (op w).1
            = match error reread, data reread with
              | None, Some (x :: l) => ArrayOf (x :: l)
              | _, _ => ArrayOf updated
              end
     end.
Proof.
  intros updated op saved reread.
  pose proof (saveAnnouncements_toasts backend updated w) as Htoasts.
  pose proof (saveAnnouncements_caches backend updated w) as Hcache.
  pose proof (saveAnnouncements_outcome backend updated w) as Hout.
  cbv zeta in Hout. fold saved in Htoasts, Hcache, Hout.
  assert (Hempty : updated = [] -> saved.1 = Storage.Resolved tt).
  { intros Hnil. rewrite Hout, Hnil. reflexivity. }
  subst op. unfold AnnouncementsConfigPage.removeAnnouncement,
    AnnouncementsConfigPage.reload.
  cbn [AnnouncementsConfigPage.announcements AnnouncementsConfigPage.isSaving].
  fold updated. run. fold saved.
  destruct saved as [[[]|] w1] eqn:Hsaved; cbn [fst snd] in *.
  - run. rewrite Htoasts, drop_app_length. repeat split; try exact Hempty.
  - set (w1' := {| trace := trace w1;
                   toasts := toasts w1 ++ [AnnouncementsConfigPage.remove_failed];
                   localStorage := localStorage w1 |}).
    pose proof (getAnnouncements_toasts backend w1') as Hkeep.
    assert (Hres : (Storage.getAnnouncements backend w1').1
                   = Storage.Resolved
                       match error reread, data reread with
                       | None, Some (x :: l) => ArrayOf (x :: l)
                       | _, _ => ArrayOf updated
                       end).
    { destruct (error reread) as [e|] eqn:Herr.
      - destruct (getAnnouncements_read_failed backend w1' e Herr) as [_ ->].
        cbn [w1' localStorage]. rewrite Hcache. reflexivity.
      - change (data reread) with (data reread : option (list Announcement)).
        destruct (data reread : option (list Announcement)) as [[|x l]|] eqn:Hdata.
        + destruct updated as [|y ys] eqn:Hupd; [by specialize (Hempty eq_refl)|].
          apply (getAnnouncements_no_rows backend w1' (y :: ys) Herr);
            [by right|]. cbn [w1' localStorage]. rewrite Hcache. reflexivity.
        + apply (getAnnouncements_remote_rows backend w1' x l Herr Hdata).
        + destruct updated as [|y ys] eqn:Hupd; [by specialize (Hempty eq_refl)|].
          apply (getAnnouncements_no_rows backend w1' (y :: ys) Herr);
            [by left|]. cbn [w1' localStorage]. rewrite Hcache. reflexivity. }
    fold w1'.
    destruct (Storage.getAnnouncements backend w1') as [res w2].
    cbn [fst snd] in Hres, Hkeep. subst res. run.
    rewrite Hkeep. cbn [w1' toasts]. rewrite Htoasts, drop_app_length.
    repeat split; try exact Hempty.
Qed.

(** Without a connection, removing one of two announcements fails but the
    announcement is gone from the screen; removing the only announcement
    is reported as done. *)
Example removeAnnouncement_offline :
  let op := AnnouncementsConfigPage.removeAnnouncement unreachable "a-7"
              Sample.two_notices in
  let last := AnnouncementsConfigPage.removeAnnouncement unreachable "a-7"
                Sample.one_notice in
  raised op fresh = [AnnouncementsConfigPage.remove_failed]
  /\ AnnouncementsConfigPage.announcements (op fresh).1
     = ArrayOf [Sample.workshop]
  /\ raised last fresh = [AnnouncementsConfigPage.notice_removed]
  /\ AnnouncementsConfigPage.announcements (last fresh).1 = ArrayOf [].
Proof. repeat split; vm_compute; reflexivity. Qed.

(** ** Editing the equipment list *)

(** [X6] Edits of the equipment list on the configuration page are
    applied on screen and in the cache and announced as done whatever the
    backend answers: [removeEquipment] shows and caches the list without
    the row and raises "Equipment Removed"; [addEquipment], for a named row
    with a positive count, shows and caches the list with the new row
    appended, clears the form and raises "Equipment Added".  No failure
    banner is ever raised. *)
Theorem X6_equipment_edits_reported_done (backend : Backend) (now id : string)
    (s : AnnouncementsConfigPage.State) (w : World) :
  let removal := AnnouncementsConfigPage.removeEquipment backend id s in
  let kept := filter (fun e => e_id e ≠ id) (AnnouncementsConfigPage.equipment s) in
  let addition := AnnouncementsConfigPage.addEquipment backend now s in
  let form := AnnouncementsConfigPage.newEquipment s in
  let extended := AnnouncementsConfigPage.equipment s
                  ++ [AnnouncementsConfigPage.new_row now form] in
  (AnnouncementsConfigPage.equipment (removal w).1 = kept
   /\ AnnouncementsConfigPage.newEquipment (removal w).1 = form
   /\ raised removal w = [AnnouncementsConfigPage.removed]
   /\ av_club_equipment (localStorage (removal w).2)
      = Some (WellFormed (ArrayOf kept)))
  /\ (AnnouncementsConfigPage.ne_name form <> "" ->
      0 < AnnouncementsConfigPage.ne_count form ->
      AnnouncementsConfigPage.equipment (addition w).1 = extended
      /\ AnnouncementsConfigPage.newEquipment (addition w).1
         = AnnouncementsConfigPage.blank
      /\ raised addition w = [AnnouncementsConfigPage.added]
      /\ av_club_equipment (localStorage (addition w).2)
         = Some (WellFormed (ArrayOf extended))).
Proof.
  cbv zeta. split.
  - unfold AnnouncementsConfigPage.removeEquipment. run.
    set (kept := filter _ _).
    pose proof (saveEquipment_toasts backend kept w) as Htoasts.
    pose proof (saveEquipment_caches backend kept w) as Hcache.
    destruct (Storage.saveEquipment backend kept w) as [[] w1].
    cbn [fst snd toasts localStorage] in *.
    rewrite Htoasts, drop_app_length.
    repeat split. exact Hcache.
  - intros Hname Hcount. unfold AnnouncementsConfigPage.addEquipment.
    rewrite bool_decide_eq_false_2 by exact Hname.
    rewrite bool_decide_eq_false_2 by lia. cbn [orb]. run.
    set (extended := AnnouncementsConfigPage.equipment s ++ _).
    pose proof (saveEquipment_toasts backend extended w) as Htoasts.
    pose proof (saveEquipment_caches backend extended w) as Hcache.
    destruct (Storage.saveEquipment backend extended w) as [[] w1].
    cbn [fst snd toasts localStorage] in *.
    rewrite Htoasts, drop_app_length.
    repeat split. exact Hcache.
Qed.

Example equipment_edits_offline :
  let removal := AnnouncementsConfigPage.removeEquipment unreachable "e-4"
                   Sample.two_rows_form in
  let addition := AnnouncementsConfigPage.addEquipment unreachable
                    "1700000000000" Sample.two_rows_form in
  AnnouncementsConfigPage.equipment (removal fresh).1 = [Sample.tripod]
  /\ raised removal fresh = [AnnouncementsConfigPage.removed]
  /\ e_id <$> AnnouncementsConfigPage.equipment (addition fresh).1
     = ["e-4"; "e-9"; "1700000000000"]
  /\ raised addition fresh = [AnnouncementsConfigPage.added].
Proof. repeat split; vm_compute; reflexivity. Qed.

(** ** Marking notifications as read *)

Lemma mark_each_run (backend : Backend) (unreadIds : list string) (w : World) :
  NotificationsCenter.mark_each backend unreadIds w
  = (tt, {| trace := trace w ++ (Remote ∘ rpc_mark_notification_read <$> unreadIds);
            toasts := toasts w; localStorage := localStorage w |}).
Proof.
  revert w. induction unreadIds as [|id rest IH]; intros w.
  - cbn. rewrite app_nil_r. by destruct w.
  - cbn [NotificationsCenter.mark_each]. run. rewrite IH. cbn [trace toasts localStorage].
    rewrite <- app_assoc. reflexivity.
Qed.

Lemma mark_read_all_read (l : list Notification) :
  filter (fun n => is_read n = false) (NotificationsCenter.mark_read <$> l) = [].
Proof.
  induction l as [|n l IH]; [done|].
  rewrite fmap_cons, filter_cons. cbn [NotificationsCenter.mark_read is_read].
  rewrite decide_False by done. exact IH.
Qed.

Lemma mark_read_when_read (l : list Notification) :
  filter (fun n => is_read n = false) l = [] ->
  NotificationsCenter.mark_read <$> l = l.
Proof.
  induction l as [|n l IH]; [done|].
  rewrite filter_cons. case_decide as Hn; [done|].
  intros Hl. rewrite fmap_cons, (IH Hl). f_equal.
  destruct n as [i m t r]. cbn in Hn. destruct r; [reflexivity|done].
Qed.

(** [X7] "Mark all as read", for a signed-in user, sends one
    [mark_notification_read] call for each unread notification, in the
    order they are displayed, and nothing else.  The answers are not
    looked at: afterwards every displayed notification is shown as read and
    the unread count is 0, whatever the backend answered.  The success
    banner is raised exactly when there was something unread. *)
Theorem X7_mark_all_as_read (backend : Backend) (u : User)
    (s : NotificationsCenter.State) (w : World) :
  let unread := filter (fun n => is_read n = false)
                  (NotificationsCenter.notifications s) in
  let op := NotificationsCenter.handleMarkAllAsRead backend (Some u) s in
  issued op w = (Remote ∘ rpc_mark_notification_read ∘ n_id <$> unread)
  /\ NotificationsCenter.notifications (op w).1
     = NotificationsCenter.mark_read <$> NotificationsCenter.notifications s
  /\ NotificationsCenter.unreadCount (op w).1 = 0%nat
  /\ raised op w = match unread with
                   | [] => []
                   | _ :: _ => [NotificationsCenter.all_marked]
                   end.
Proof.
  intros unread op. subst op.
  unfold NotificationsCenter.handleMarkAllAsRead. fold unread.
  assert (Hunread : filter (fun n => is_read n = false)
                      (NotificationsCenter.notifications s) = unread)
    by reflexivity.
  clearbody unread. destruct unread as [|n rest].
  - cbn [fmap list_fmap]. run. rewrite !drop_all.
    rewrite (mark_read_when_read _ Hunread).
    repeat split. unfold NotificationsCenter.unreadCount.
    by rewrite Hunread.
  - cbn [fmap list_fmap]. run.
    rewrite (mark_each_run backend (n_id n :: (n_id <$> rest)) w).
    cbn [trace toasts fst snd]. rewrite !drop_app_length.
    repeat split.
    + cbn. f_equal. by rewrite <- list_fmap_compose.
    + unfold NotificationsCenter.unreadCount.
      cbn [NotificationsCenter.notifications].
      by rewrite mark_read_all_read.
Qed.

(** Offline, both unread notifications of the sample inbox are reported
    to the backend and shown as read. *)
Example mark_all_offline :
  let op := NotificationsCenter.handleMarkAllAsRead unreachable
              (Some Sample.member) Sample.inbox in
  remote_calls (issued op fresh)
    = [rpc_mark_notification_read "n-1"; rpc_mark_notification_read "n-3"]
  /\ NotificationsCenter.unreadCount Sample.inbox = 2%nat
  /\ NotificationsCenter.unreadCount (op fresh).1 = 0%nat
  /\ raised op fresh = [NotificationsCenter.all_marked].
Proof. repeat split; vm_compute; reflexivity. Qed.

Lemma handleMarkAsRead_unread (id : string) (s : NotificationsCenter.State) :
  NotificationsCenter.unreadCount (NotificationsCenter.handleMarkAsRead id s)
  = length (filter (fun n => is_read n = false /\ n_id n <> id)
                   (NotificationsCenter.notifications s)).
Proof.
  unfold NotificationsCenter.unreadCount, NotificationsCenter.handleMarkAsRead.
  cbn [NotificationsCenter.notifications].
  induction (NotificationsCenter.notifications s) as [|n l IH]; [done|].
  rewrite fmap_cons, !filter_cons.
  case_bool_decide as Hid.
  - cbn [NotificationsCenter.mark_read is_read].
    rewrite decide_False by done. rewrite decide_False by tauto. exact IH.
  - destruct (decide (is_read n = false)) as [Hn|Hn].
    + rewrite decide_True by tauto. cbn [length]. by rewrite IH.
    + rewrite decide_False by tauto. exact IH.
Qed.

Lemma handleMarkAsRead_ids (id : string) (s : NotificationsCenter.State) :
  n_id <$> NotificationsCenter.notifications
             (NotificationsCenter.handleMarkAsRead id s)
  = n_id <$> NotificationsCenter.notifications s.
Proof.
  unfold NotificationsCenter.handleMarkAsRead.
  cbn [NotificationsCenter.notifications].
  rewrite <- list_fmap_compose. apply list_fmap_ext. intros i n _. cbn.
  by case_bool_decide.
Qed.

Lemma unread_others_le (id : string) (l : list Notification) :
  (length (filter (fun n => is_read n = false /\ n_id n <> id) l)
   <= length (filter (fun n => is_read n = false) l))%nat.
Proof.
  induction l as [|n l IH]; [done|]. rewrite !filter_cons.
  destruct (decide (is_read n = false)) as [Hn|Hn].
  - case_decide; cbn [length]; lia.
  - rewrite decide_False by tauto. exact IH.
Qed.

Lemma unread_others_lt (notification : Notification) (l : list Notification) :
  is_read notification = false -> notification ∈ l ->
  (length (filter (fun n => is_read n = false /\ n_id n <> n_id notification) l)
   < length (filter (fun n => is_read n = false) l))%nat.
Proof.
  intros Hunread Hin. induction l as [|n l IH]; [inversion Hin|].
  rewrite !filter_cons. apply elem_of_cons in Hin as [<-|Hin].
  - rewrite decide_False by tauto. rewrite decide_True by done.
    cbn [length]. pose proof (unread_others_le (n_id notification) l). lia.
  - specialize (IH Hin). destruct (decide (is_read n = false)) as [Hn|Hn].
    + case_decide; cbn [length]; lia.
    + rewrite decide_False by tauto. exact IH.
Qed.

(** [X8] The tick of a notification item.  For a notification already
    read nothing happens at all.  For an unread one a single call is made:
    if it is refused the list is left as it was and a banner carries the
    backend's message (or "Failed to mark notification as read" when the
    message is empty); if it is accepted, every listed notification with
    that id is shown as read, ids and order are kept, the unread count
    becomes the number of unread notifications with another id, and it
    drops strictly when the ticked notification is on the list. *)
Theorem X8_mark_one_as_read (backend : Backend) (notification : Notification)
    (s : NotificationsCenter.State) (w : World) :
  let op := NotificationsCenter.item_handleMarkAsRead backend notification s in
  let answer := backend (remote_calls (trace w))
                  (rpc_mark_notification_read (n_id notification)) in
  let others := filter (fun n => is_read n = false /\ n_id n <> n_id notification)
                  (NotificationsCenter.notifications s) in
  if is_read notification then op w = (s, w)
  else match error answer with
       | Some e =>
           (op w).1 = s
           /\ raised op w
              = [ {| title := "Error";
                     description :=
                       if bool_decide (message e = "")
                       then "Failed to mark notification as read"
                       else message e;
                     destructive := true |} ]
       | None =>
           raised op w = []
           /\ n_id <$> NotificationsCenter.notifications (op w).1
              = n_id <$> NotificationsCenter.notifications s
           /\ NotificationsCenter.unreadCount (op w).1 = length others
           /\ (NotificationsCenter.unreadCount (op w).1
               <= NotificationsCenter.unreadCount s)%nat
           /\ (notification ∈ NotificationsCenter.notifications s ->
               (NotificationsCenter.unreadCount (op w).1
                < NotificationsCenter.unreadCount s)%nat)
       end.
Proof.
  cbv zeta. unfold NotificationsCenter.item_handleMarkAsRead.
  destruct (is_read notification) eqn:Hread; [reflexivity|].
  run. destruct (error _) as [e|].
  - run. rewrite drop_app_length. split; reflexivity.
  - run. rewrite drop_all. repeat apply conj.
    + reflexivity.
    + apply handleMarkAsRead_ids.
    + apply handleMarkAsRead_unread.
    + rewrite handleMarkAsRead_unread. apply unread_others_le.
    + intros Hin. rewrite handleMarkAsRead_unread.
      by apply unread_others_lt.
Qed.

(** ** Medals on the leaderboard *)

Lemma getMedalIcon_beyond_third (z : Z) :
  4 <= z -> Leaderboard.getMedalIcon (Some z) = Some Leaderboard.Bird.
Proof.
  intros Hz. destruct z as [|p|p]; try lia.
  destruct p as [[p|p|]|[p|p|]|]; try lia; reflexivity.
Qed.

Lemma birds_from (start : Z) (n : nat) :
  4 <= start ->
  Leaderboard.getMedalIcon ∘ Some <$> seqZ start (Z.of_nat n)
  = replicate n (Some Leaderboard.Bird).
Proof.
  revert start. induction n as [|n IH]; intros start Hstart; [done|].
  rewrite Nat2Z.inj_succ, seqZ_cons by lia.
  replace (Z.pred (Z.succ (Z.of_nat n))) with (Z.of_nat n) by lia.
  cbn [fmap list_fmap replicate]. f_equal.
  - cbn. by apply getMedalIcon_beyond_third.
  - apply IH. lia.
Qed.

(** [X9] On the board [fetchUsers] builds from any rows, every row gets
    an icon: the first three rows get the gold, silver and bronze medals in
    that order and every further row gets the bird; no row is left without
    an icon. *)
Theorem X9_medals_follow_position (rows : list LeaderboardUser) :
  let shown := Leaderboard.rankedUsers rows in
  Leaderboard.getMedalIcon ∘ rank <$> shown
  = take (length shown)
      [ Some Leaderboard.GoldMedal; Some Leaderboard.SilverMedal;
        Some Leaderboard.BronzeMedal ]
    ++ replicate (length shown - 3) (Some Leaderboard.Bird).
Proof.
  intros shown.
  assert (Hranks : rank <$> shown = Some <$> seqZ 1 (Z.of_nat (length shown))).
  { subst shown. unfold Leaderboard.rankedUsers. rewrite length_imap.
    apply (with_rank_ranks 0). }
  rewrite list_fmap_compose, Hranks, <- list_fmap_compose.
  destruct (length shown) as [|[|[|n]]]; try reflexivity.
  replace (Z.of_nat (S (S (S n)))) with (3 + Z.of_nat n) by lia.
  rewrite (seqZ_app 1 3 (Z.of_nat n)) by lia. rewrite fmap_app.
  replace (S (S (S n)) - 3)%nat with n by lia.
  rewrite take_ge by (cbn [length]; lia).
  rewrite birds_from by lia. reflexivity.
Qed.

(** ** Who may adjust points, and what an adjustment leaves behind *)

(** [X10] [addPoints] acts only for a signed-in user whose email is
    strictly equal to [ADMIN_EMAIL]: for anyone else, and without a
    signed-in user, it sends nothing, raises nothing and leaves the board
    untouched; otherwise its first request is the adjustment.  Strict
    equality makes an account without an email pass when the variable is
    unset. *)
Theorem X10_addPoints_only_for_the_administrator (backend : Backend)
    (env : option string) (user : option User) (userId : string) (v : Z)
    (s : Leaderboard.State) (w : World) :
  let op := Leaderboard.addPoints backend env user userId v s in
  let allowed := match user with
                 | Some u => bool_decide (email u = env)
                 | None => false
                 end in
  if allowed
  then exists rest,
         remote_calls (issued op w) = rpc_add_points_to_user userId v :: rest
  else op w = (s, w).
Proof.
  cbv zeta. destruct user as [u|]; [|reflexivity].
  case_bool_decide as Hemail.
  - assert (Hadmin : strict_eq (email u) env = true)
      by (by apply bool_decide_eq_true).
    rewrite (addPoints_calls backend env u userId v s w Hadmin).
    destruct (error _); eexists; reflexivity.
  - unfold Leaderboard.addPoints, Leaderboard.ADMIN_EMAIL, strict_eq.
    rewrite bool_decide_eq_false_2 by exact Hemail. reflexivity.
Qed.

Example addPoints_nameless_account :
  remote_calls
    (issued (Leaderboard.addPoints quiet None (Some Sample.nameless)
               "u-omar" 10 Sample.empty_board) fresh)
  = [ rpc_add_points_to_user "u-omar" 10;
      rpc_create_notification "u-omar" "You've earned 10 points!" "success";
      from_profiles_with_points_select ]
  /\ Leaderboard.addPoints quiet (Some "chair@avclub.example")
       (Some Sample.member) "u-omar" 10 Sample.empty_board fresh
     = (Sample.empty_board, fresh).
Proof. split; vm_compute; reflexivity. Qed.

(** [X11] What an administrator's adjustment leaves on the page.  A
    refused adjustment raises the failure banner and leaves the board as it
    was.  An accepted one always raises the success banner, whatever the
    notification call answered; the board then shows the ranking of the
    rows read back, or, when that read fails, the old rows together with
    the "Failed to load leaderboard" banner.  The per-user spinner is
    cleared in every case. *)
Theorem X11_addPoints_outcome (backend : Backend) (env : option string)
    (admin : User) (userId : string) (v : Z) (s : Leaderboard.State)
    (w : World) :
  strict_eq (email admin) env = true ->
  let op := Leaderboard.addPoints backend env (Some admin) userId v s in
  let h := remote_calls (trace w) in
  let adjust := rpc_add_points_to_user userId v in
  let notify := rpc_create_notification userId
                  (Leaderboard.notification_for v).1
                  (Leaderboard.notification_for v).2 in
  let refreshed := backend (h ++ [adjust; notify]) from_profiles_with_points_select in
  Leaderboard.loadingPointChange (op w).1 = None
  /\ match error (backend h adjust) with
     | Some _ =>
         raised op w = [Leaderboard.update_failed]
         /\ Leaderboard.users (op w).1 = Leaderboard.users s
     | None =>
         Leaderboard.loading (op w).1 = false
         /\ match error refreshed, data refreshed with
            | None, Some rows =>
                raised op w = [Leaderboard.update_done v]
                /\ Leaderboard.users (op w).1 = Leaderboard.rankedUsers rows
            | _, _ =>
                raised op w = [Leaderboard.update_done v; Leaderboard.load_failed]
                /\ Leaderboard.users (op w).1 = Leaderboard.users s
            end
     end.
Proof.
  intros Hadmin. cbv zeta.
  unfold Leaderboard.addPoints, Leaderboard.ADMIN_EMAIL. rewrite Hadmin. cbn [negb].
  unfold Leaderboard.fetchUsers_resume.
  run.
  destruct (error (backend (remote_calls (trace w)) (rpc_add_points_to_user userId v))).
  - run. read_trace. repeat split.
  - destruct (Leaderboard.notification_for v) as [msg ty]. run.
    rewrite !remote_calls_snoc, <- app_assoc. cbn [app fst snd].
    match goal with
    | |- context [error ?r] => destruct (error r); [|destruct (data r)]
    end; run; repeat rewrite <- app_assoc; rewrite ?drop_app_length;
      repeat split.
Qed.

Lemma X11_addPoints_outcome_witness :
  let op := Leaderboard.addPoints Sample.only_adjusts
              (Some "chair@avclub.example") (Some Sample.chair) "u-mina" 5
              Sample.board_of_one in
  Leaderboard.loadingPointChange (op fresh).1 = None
  /\ (Leaderboard.loading (op fresh).1 = false
      /\ (raised op fresh
          = [Leaderboard.update_done 5; Leaderboard.load_failed]
          /\ Leaderboard.users (op fresh).1
             = Leaderboard.users Sample.board_of_one)).
Proof.
  apply (X11_addPoints_outcome Sample.only_adjusts
           (Some "chair@avclub.example") Sample.chair "u-mina" 5
           Sample.board_of_one fresh).
  reflexivity.
Defined.

(** ** Admin mode of the stand-alone panel *)

(** A click with admin mode on, for the authorized administrator: the
    adjustment is sent; a refusal raises the failure banner; an acceptance
    raises the "Points updated" banner and hands over to the callback, and
    the failure banner follows if the callback throws.  The flag of the row
    ends up cleared. *)
Lemma handlePointChange_run (backend : Backend)
    (onPointsUpdated : M AdminPanel.Completion) (userId : string)
    (pointChange : Z) (s : AdminPanel.State) (w : World) :
  AdminPanel.isAdmin s = true ->
  AdminPanel.isAuthorizedAdmin s = true ->
  let click := AdminPanel.handlePointChange backend onPointsUpdated
                 userId pointChange s in
  let adjust := rpc_add_points_to_user userId pointChange in
  let announced :=
    {| trace := trace w ++ [Remote adjust];
       toasts := toasts w ++ [AdminPanel.points_updated pointChange];
       localStorage := localStorage w |} in
  AdminPanel.loading (click w).1 = <[ userId := false ]> (AdminPanel.loading s)
  /\ match error (backend (remote_calls (trace w)) adjust) with
     | Some _ =>
         issued click w = [Remote adjust]
         /\ raised click w = [AdminPanel.update_failed]
     | None =>
         (click w).2
         = match (onPointsUpdated announced).1 with
           | AdminPanel.Returns => (onPointsUpdated announced).2
           | AdminPanel.Throws =>
               (toast AdminPanel.update_failed (onPointsUpdated announced).2).2
           end
     end.
Proof.
  intros Hmode Hauth. cbv zeta. unfold AdminPanel.handlePointChange.
  rewrite Hmode, Hauth. cbn [negb orb]. run.
  destruct (error _).
  - run. read_trace. unfold AdminPanel.setLoading. cbn [AdminPanel.loading].
    rewrite insert_insert_eq. repeat split.
  - run.
    match goal with
    | |- context [onPointsUpdated ?w1] => destruct (onPointsUpdated w1) as [[] w2]
    end; run; unfold AdminPanel.setLoading; cbn [AdminPanel.loading];
      rewrite insert_insert_eq; split; reflexivity.
Qed.

(** [X12] When the signed-in user changes, the panel authorizes exactly
    the account whose email is the built-in administrator address and
    never switches admin mode on by itself: admin mode survives only if it
    was on and the new user is authorized.  Unless both hold, a click on a
    point button does nothing at all: no request, no banner, no call of
    the refresh callback, whatever that callback is.  When both hold, the
    click sends [add_points_to_user] with the id and the amount it was
    given; a refusal raises the failure banner and nothing else happens; an
    acceptance raises the "Points updated" banner and then runs the
    callback, and the failure banner follows if the callback throws. *)
Theorem X12_admin_mode_after_user_change (backend : Backend)
    (onPointsUpdated : M AdminPanel.Completion) (user : option User)
    (userId : string) (pointChange : Z) (s : AdminPanel.State) (w : World) :
  let s' := AdminPanel.on_user_change user s in
  let authorized := bool_decide (opt_email user = AdminPanel.ADMIN_EMAIL) in
  let click := AdminPanel.handlePointChange backend onPointsUpdated
                 userId pointChange s' in
  let adjust := rpc_add_points_to_user userId pointChange in
  let announced :=
    {| trace := trace w ++ [Remote adjust];
       toasts := toasts w ++ [AdminPanel.points_updated pointChange];
       localStorage := localStorage w |} in
  AdminPanel.isAuthorizedAdmin s' = authorized
  /\ AdminPanel.isAdmin s' = AdminPanel.isAdmin s && authorized
  /\ AdminPanel.loading s' = AdminPanel.loading s
  /\ if AdminPanel.isAdmin s && authorized
     then match error (backend (remote_calls (trace w)) adjust) with
          | Some _ =>
              issued click w = [Remote adjust]
              /\ raised click w = [AdminPanel.update_failed]
          | None =>
              (click w).2
              = match (onPointsUpdated announced).1 with
                | AdminPanel.Returns => (onPointsUpdated announced).2
                | AdminPanel.Throws =>
                    (toast AdminPanel.update_failed
                       (onPointsUpdated announced).2).2
                end
          end
     else click w = (s', w).
Proof.
  cbv zeta. unfold AdminPanel.on_user_change, AdminPanel.ADMIN_EMAIL.
  destruct user as [u|]; cbn [opt_email].
  - unfold strict_eq.
    destruct (bool_decide (email u = Some "ademmsallem782@gmail.com")) eqn:Hauth;
      cbn [AdminPanel.isAuthorizedAdmin AdminPanel.isAdmin AdminPanel.loading].
    + rewrite andb_true_r. repeat apply conj; try reflexivity.
      destruct (AdminPanel.isAdmin s) eqn:Hmode.
      * match goal with
        | |- context [AdminPanel.handlePointChange _ _ _ _ ?st] =>
            destruct (handlePointChange_run backend onPointsUpdated userId
                        pointChange st w) as [_ Hrun];
              [reflexivity|reflexivity|exact Hrun]
        end.
      * reflexivity.
    + rewrite andb_false_r. repeat split.
  - cbn [AdminPanel.isAuthorizedAdmin AdminPanel.isAdmin AdminPanel.loading].
    rewrite andb_false_r. repeat split.
Qed.

(** ** The displayed balance *)

(** [X13] The shop page never works out a balance itself.  After a
    purchase attempt the displayed balance is what it was, unless the
    purchase was accepted and the balance could be read back, in which case
    it is the value the backend returned (0 for [null]); the item's cost is
    never subtracted locally.  A refused purchase shows the backend's
    message, or "Failed to purchase item" when it is empty. *)
Theorem X13_balance_only_from_backend (backend : Backend) (u : User)
    (item : ShopItemType) (s : ShopPage.State) (w : World) :
  let op := ShopPage.handlePurchase backend (Some u) item s in
  let h := remote_calls (trace w) in
  let purchase := rpc_purchase_shop_item (item_id item) (user_id u) 1 in
  let balance := backend (h ++ [purchase]) (rpc_fetch_user_points (Some (user_id u))) in
  if bool_decide (ShopPage.userPoints s < points_cost item)
  then (op w).1 = s
  else match error (backend h purchase) with
       | Some e =>
           (op w).1 = s
           /\ raised op w
              = [ {| title := "Error";
                     description := if bool_decide (message e = "")
                                    then "Failed to purchase item"
                                    else message e;
                     destructive := true |} ]
       | None =>
           match error balance with
           | Some _ =>
               (op w).1 = s
               /\ raised op w = [ShopPage.purchased; ShopPage.points_failed]
           | None =>
               ShopPage.userPoints (op w).1 = default 0 (data balance)
               /\ raised op w = [ShopPage.purchased]
           end
       end.
Proof.
  cbv zeta. unfold ShopPage.handlePurchase, ShopPage.fetchUserPoints.
  cbn [fmap option_fmap option_map].
  destruct (bool_decide (ShopPage.userPoints s < points_cost item)).
  - reflexivity.
  - run. destruct (error (backend (remote_calls (trace w)) _)) as [e|].
    + run. rewrite drop_app_length. split; reflexivity.
    + run. rewrite remote_calls_snoc.
      match goal with |- context [error ?r] => destruct (error r) end;
        run; repeat rewrite <- app_assoc; rewrite drop_app_length;
        split; reflexivity.
Qed.

(** ** Loading equipment when the direct read is answered *)

(** [X14] When the direct read of [equipment_stats] is answered,
    [fetchEquipment] never raises a banner.  Rows that came back are shown
    with that single request.  If none came back, the repair procedure is
    called and, only if it is accepted, the read is tried once more; the
    list on screen changes only when that retry brings rows, so an empty
    relation leaves the previous list on screen without any message.  The
    loading flag always ends up cleared. *)
Theorem X14_fetchEquipment_when_read_is_answered (backend : Backend)
    (s : EquipmentPage.State) (w : World) :
  let primary := from_equipment_stats_select_all in
  let h := remote_calls (trace w) in
  error (backend h primary) = None ->
  let fix_ := backend (h ++ [primary]) rpc_fix_equipment_loading in
  let retry := backend (h ++ [primary; rpc_fix_equipment_loading]) primary in
  let op := EquipmentPage.fetchEquipment backend s in
  let sent := remote_calls (issued op w) in
  let shown := EquipmentPage.equipment (op w).1 in
  raised op w = []
  /\ EquipmentPage.loading (op w).1 = false
  /\ match data (backend h primary) with
     | Some (x :: rows) => sent = [primary] /\ shown = x :: rows
     | _ =>
         match error fix_ with
         | Some _ =>
             sent = [primary; rpc_fix_equipment_loading]
             /\ shown = EquipmentPage.equipment s
         | None =>
             sent = [primary; rpc_fix_equipment_loading; primary]
             /\ shown = match error retry, data retry with
                        | None, Some (x :: rows) => x :: rows
                        | _, _ => EquipmentPage.equipment s
                        end
         end
     end.
Proof.
  intros primary h Hprimary. cbv zeta.
  unfold EquipmentPage.fetchEquipment, EquipmentPage.failed, EquipmentPage.finished.
  run. fold h. fold primary. rewrite Hprimary.
  change (data (backend h primary))
    with (data (backend h primary) : option (list Equipment)).
  destruct (data (backend h primary) : option (list Equipment)) as [[|x rows]|].
  all: cbn beta iota; cbn [trace toasts fst snd];
    rewrite ?remote_calls_snoc; fold h.
  2: { read_trace. repeat split. }
  all: destruct (error (backend (h ++ [primary]) rpc_fix_equipment_loading)).
  all: cbn beta iota; cbn [trace toasts fst snd];
    rewrite ?remote_calls_snoc; fold h;
    repeat rewrite <- (app_assoc h); cbn [app].
  all: try (destruct (error (backend (h ++ [primary; rpc_fix_equipment_loading])
                               primary));
            [|destruct (data (backend (h ++ [primary; rpc_fix_equipment_loading])
                                primary)) as [[|y more]|]]).
  all: cbn beta iota; cbn [trace toasts fst snd]; read_trace; repeat split.
Qed.

Lemma X14_fetchEquipment_when_read_is_answered_witness :
  let op := EquipmentPage.fetchEquipment Sample.empty_and_unrepairable
              Sample.showing_mixer in
  raised op fresh = []
  /\ EquipmentPage.loading (op fresh).1 = false
  /\ (remote_calls (issued op fresh)
        = [from_equipment_stats_select_all; rpc_fix_equipment_loading]
      /\ EquipmentPage.equipment (op fresh).1 = [Sample.mixer]).
Proof.
  apply (X14_fetchEquipment_when_read_is_answered
           Sample.empty_and_unrepairable Sample.showing_mixer fresh).
  reflexivity.
Defined.

(** ** The password strength meter *)

Lemma has_eight_in_a_row_length (s : JsString) :
  has_eight_in_a_row s = true -> (8 <= length s)%nat.
Proof.
  unfold has_eight_in_a_row. intros (i & _ & Hi)%existsb_exists.
  unfold matches_dots_at in Hi. apply andb_true_iff in Hi as [Hlen _].
  apply Nat.eqb_eq in Hlen. rewrite length_take, length_drop in Hlen. lia.
Qed.

Lemma has_eight_in_a_row_clean (s : JsString) :
  forallb (fun c => negb (line_terminator c)) s = true ->
  (8 <= length s)%nat ->
  has_eight_in_a_row s = true.
Proof.
  intros Hclean Hlen. unfold has_eight_in_a_row. apply existsb_exists.
  exists 0%nat. split; [apply in_seq; lia|].
  unfold matches_dots_at. rewrite drop_0. apply andb_true_iff. split.
  - apply Nat.eqb_eq. rewrite length_take. lia.
  - apply forallb_forall. intros c Hc.
    apply (proj1 (forallb_forall _ _) Hclean).
    apply list_elem_of_In. apply list_elem_of_In in Hc.
    by apply (subseteq_take 8 s).
Qed.

(** "Strong" is shown exactly when all five requirements are met. *)
Lemma strong_label_iff (password : JsString) :
  PasswordStrength.strengthLabel password = "Strong"
  <-> has_eight_in_a_row password = true
      /\ has_uppercase password = true
      /\ has_lowercase password = true
      /\ has_digit password = true
      /\ has_special password = true.
Proof.
  unfold PasswordStrength.strengthLabel,
    PasswordStrength.strengthPercentage, PasswordStrength.getStrengthPercentage,
    PasswordStrength.metRequirements, PasswordStrength.requirements,
    PasswordStrength.meetsRequirement.
  destruct password as [|c p].
  - split; [intros H; inversion H|]. intros [H _]. inversion H.
  - cbn [PasswordStrength.regex].
    rewrite !filter_cons, filter_nil. cbn [PasswordStrength.regex].
    destruct (has_eight_in_a_row (c :: p));
      destruct (has_uppercase (c :: p));
      destruct (has_lowercase (c :: p));
      destruct (has_digit (c :: p));
      destruct (has_special (c :: p));
      (split; [intros H; vm_compute in H; try discriminate H; by repeat split
              |intros (?&?&?&?&?); try discriminate; vm_compute; reflexivity]).
Qed.

(** [X15] The strength meter depends only on how many of its five
    requirements the password meets.  None met (in particular the empty
    password): grey bar, no word.  One: red, "Weak".  Two: red, "Fair".
    Three: yellow, "Fair".  Four: yellow, "Good".  Five: green, "Strong".
    So "Strong" is shown exactly when the password has eight characters in
    a row without a line break, an uppercase letter, a lowercase letter, a
    digit and one of the special characters. *)
Theorem X15_strength_meter_bands (password : JsString) :
  let met := PasswordStrength.metRequirements password in
  (PasswordStrength.getStrengthColor password,
   PasswordStrength.strengthLabel password)
  = match met with
    | 0%nat => ("bg-gray-200", "")
    | 1%nat => ("bg-red-500", "Weak")
    | 2%nat => ("bg-red-500", "Fair")
    | 3%nat => ("bg-yellow-500", "Fair")
    | 4%nat => ("bg-yellow-500", "Good")
    | _ => ("bg-green-500", "Strong")
    end
  /\ (PasswordStrength.strengthLabel password = "Strong"
      <-> has_eight_in_a_row password = true
          /\ has_uppercase password = true
          /\ has_lowercase password = true
          /\ has_digit password = true
          /\ has_special password = true).
Proof.
  cbv zeta. split; [|apply strong_label_iff].
  unfold PasswordStrength.getStrengthColor, PasswordStrength.strengthLabel,
    PasswordStrength.strengthPercentage, PasswordStrength.getStrengthPercentage,
    PasswordStrength.metRequirements, PasswordStrength.requirements,
    PasswordStrength.meetsRequirement.
  destruct password as [|c p]; [reflexivity|].
  cbn [PasswordStrength.regex].
  rewrite !filter_cons, filter_nil. cbn [PasswordStrength.regex].
  destruct (has_eight_in_a_row (c :: p));
    destruct (has_uppercase (c :: p));
    destruct (has_lowercase (c :: p));
    destruct (has_digit (c :: p));
    destruct (has_special (c :: p));
    vm_compute; reflexivity.
Qed.

(** [X16] The meter and the sign-up rules for the password agree except
    on two points.  Every password the meter calls "Strong" passes the
    sign-up rules provided it has at most 50 characters, and every password
    that passes the sign-up rules and contains no line break is called
    "Strong".  The rules count all characters for the minimum of 8, while
    the meter wants eight in a row without a line break; and only the rules
    have a maximum. *)
Theorem X16_meter_and_signup_rules (password : JsString) :
  (PasswordStrength.strengthLabel password = "Strong" ->
   (length password <= 50)%nat ->
   SignUpForm.password_accepted password = true)
  /\ (SignUpForm.password_accepted password = true ->
      forallb (fun c => negb (line_terminator c)) password = true ->
      PasswordStrength.strengthLabel password = "Strong")
  /\ (SignUpForm.password_accepted password = true ->
      PasswordStrength.strengthLabel password = "Strong"
      \/ PasswordStrength.strengthLabel password = "Good").
Proof.
  unfold SignUpForm.password_accepted. repeat apply conj.
  - intros (Hrun & -> & -> & -> & ->)%strong_label_iff Hmax.
    apply has_eight_in_a_row_length in Hrun.
    rewrite (proj2 (Nat.leb_le _ _) Hrun), (proj2 (Nat.leb_le _ _) Hmax).
    reflexivity.
  - intros Hok Hclean. repeat (apply andb_true_iff in Hok as [Hok ?]).
    apply Nat.leb_le in Hok.
    apply strong_label_iff. repeat split; try assumption.
    by apply has_eight_in_a_row_clean.
  - intros Hok. repeat (apply andb_true_iff in Hok as [Hok ?]).
    destruct (has_eight_in_a_row password) eqn:Hrun.
    + left. apply strong_label_iff. by repeat split.
    + right.
      unfold PasswordStrength.strengthLabel,
        PasswordStrength.strengthPercentage,
        PasswordStrength.getStrengthPercentage,
        PasswordStrength.metRequirements, PasswordStrength.requirements,
        PasswordStrength.meetsRequirement.
      destruct password as [|c p]; [discriminate|].
      cbn [PasswordStrength.regex].
      rewrite !filter_cons, filter_nil. cbn [PasswordStrength.regex].
      repeat match goal with H : _ = true |- _ => rewrite H; clear H end.
      rewrite Hrun. vm_compute. reflexivity.
Qed.

(** A password of nine characters with a line break in the middle passes
    the sign-up rules but is only "Good" for the meter; one of 51
    characters is "Strong" for the meter but refused by the rules. *)
Example meter_and_rules_differ :
  let broken := [65; 97; 49; 33; 10; 65; 97; 49; 33]%N in
  let long := ([65; 97; 49; 33] ++ replicate 47 97)%N in
  SignUpForm.password_accepted broken = true
  /\ PasswordStrength.strengthLabel broken = "Good"
  /\ PasswordStrength.strengthLabel long = "Strong"
  /\ SignUpForm.password_accepted long = false.
Proof. repeat split; vm_compute; reflexivity. Qed.

(** ** When the readers come back empty-handed *)

(** [X17] [getAnnouncements] rejects in one situation only: the backend
    did not deliver rows (the read was refused or empty) and the cached
    text cannot be parsed.  [getEquipmentAsync] never rejects, and it
    returns an empty list in one situation only: the backend did not
    deliver rows and the cache holds an empty array.  In particular, with
    an absent cache both fall back to their built-in defaults. *)
Theorem X17_readers_fail_only_on_a_bad_cache (backend : Backend) (w : World) :
  let ra := backend (remote_calls (trace w)) from_announcements_select_all in
  let re := backend (remote_calls (trace w)) from_equipment_stats_select_all in
  let delivered {A} (e : option PostgrestError) (d : option (list A)) :=
    match e, d with
    | None, Some (_ :: _) => true
    | _, _ => false
    end in
  ((Storage.getAnnouncements backend w).1 = Storage.Rejected
   <-> delivered (error ra) (data ra) = false
       /\ av_club_announcements (localStorage w) = Some Malformed)
  /\ ((Storage.getEquipmentAsync backend w).1 = []
      <-> delivered (error re) (data re) = false
          /\ av_club_equipment (localStorage w) = Some (WellFormed (ArrayOf []))).
Proof.
  cbv zeta. split.
  - destruct (error (backend (remote_calls (trace w)) from_announcements_select_all))
      as [e|] eqn:Herr.
    + destruct (getAnnouncements_read_failed backend w e Herr) as [_ ->].
      destruct (av_club_announcements (localStorage w)) as [[| |v]|]; cbn;
        split; try done; try (by intros [_ ?]).
    + change (data (backend (remote_calls (trace w)) from_announcements_select_all))
        with (data (backend (remote_calls (trace w)) from_announcements_select_all)
              : option (list Announcement)).
      destruct (data (backend (remote_calls (trace w)) from_announcements_select_all)
                : option (list Announcement)) as [[|x rows]|] eqn:Hdata.
      2: { destruct (getAnnouncements_remote_rows backend w x rows Herr Hdata)
             as [-> _]. split; [done|]. by intros [? _]. }
      all: assert (Hno : data (backend (remote_calls (trace w))
                                 from_announcements_select_all) = None
                         \/ data (backend (remote_calls (trace w))
                                    from_announcements_select_all) = Some [])
             by (change (data (backend (remote_calls (trace w))
                                 from_announcements_select_all))
                   with (data (backend (remote_calls (trace w))
                                 from_announcements_select_all)
                         : option (list Announcement));
                 rewrite Hdata; tauto).
      all: pose proof (getAnnouncements_no_rows_no_list backend w Herr Hno) as Hother.
      all: cbv zeta in Hother.
      all: destruct (Storage.parse_announcements
                       (av_club_announcements (localStorage w)))
             as [[v|cache]|] eqn:Hparse.
      all: try (assert (Hres : (Storage.getAnnouncements backend w).1
                               = Storage.Resolved (ArrayOf cache))
                  by (apply (getAnnouncements_no_rows backend w cache Herr Hno);
                      exact Hparse);
                rewrite Hres).
      all: try destruct v.
      all: match type of Hother with
           | _ /\ _ => destruct Hother as [-> _]
           | _ => idtac
           end.
      all: destruct (av_club_announcements (localStorage w)) as [[| |v']|];
        cbn in Hparse; try discriminate Hparse;
        split; try done; try (by intros [_ ?]).
  - destruct (error (backend (remote_calls (trace w)) from_equipment_stats_select_all))
      as [e|] eqn:Herr.
    + destruct (getEquipmentAsync_read_failed backend w e Herr) as [_ ->].
      destruct (av_club_equipment (localStorage w)) as [[| |[|[|y l]]]|]; cbn;
        split; try done; try (by intros [_ ?]).
    + change (data (backend (remote_calls (trace w)) from_equipment_stats_select_all))
        with (data (backend (remote_calls (trace w)) from_equipment_stats_select_all)
              : option (list Equipment)).
      destruct (data (backend (remote_calls (trace w)) from_equipment_stats_select_all)
                : option (list Equipment)) as [[|x rows]|] eqn:Hdata.
      2: { destruct (getEquipmentAsync_remote_rows backend w x rows Herr Hdata)
             as [-> _]. split; [done|]. by intros [? _]. }
      all: assert (Hno : data (backend (remote_calls (trace w))
                                 from_equipment_stats_select_all) = None
                         \/ data (backend (remote_calls (trace w))
                                    from_equipment_stats_select_all) = Some [])
             by (change (data (backend (remote_calls (trace w))
                                 from_equipment_stats_select_all))
                   with (data (backend (remote_calls (trace w))
                                 from_equipment_stats_select_all)
                         : option (list Equipment));
                 rewrite Hdata; tauto).
      all: destruct (getEquipmentAsync_no_rows backend w Herr Hno) as [-> _].
      all: destruct (av_club_equipment (localStorage w)) as [[| |[v|[|z l]]]|];
        cbn; split; try done; try (by intros [_ ?]).
Qed.

Example readers_on_a_damaged_cache :
  (Storage.getAnnouncements unreachable Sample.damaged).1 = Storage.Rejected
  /\ (Storage.getEquipmentAsync unreachable Sample.damaged).1 = []
  /\ (Storage.getAnnouncements unreachable fresh).1
     = Storage.Resolved (ArrayOf Storage.DEFAULT_ANNOUNCEMENTS)
  /\ (Storage.getEquipmentAsync unreachable fresh).1 = Storage.DEFAULT_EQUIPMENT.
Proof. repeat split; vm_compute; reflexivity. Qed.

(** ** Loading the borrowings list and deciding on claims *)

(** [X18] [fetchBorrowings] does nothing at all without a signed-in user:
    it sends no request and does not even clear the loading flag, so a page
    opened in that state keeps its spinner.  For a signed-in user it sends
    exactly one request, the read of [admin_borrowings] when the user's
    email is the built-in administrator address and otherwise
    [get_user_borrowings] for the user's own id, and clears the loading
    flag.  An answered read replaces the list by its rows (by the empty
    list for [null]); a refused one keeps the list and raises a banner with
    the backend's message, or "Failed to load borrowings" when it is
    empty. *)
Theorem X18_fetchBorrowings_outcome (backend : Backend) (user : option User)
    (s : BorrowingsPage.State) (w : World) :
  let op := BorrowingsPage.fetchBorrowings backend user s in
  let h := remote_calls (trace w) in
  let outcome (e : option PostgrestError) (d : option (list Borrowing)) :=
    BorrowingsPage.loading (op w).1 = false
    /\ match e with
       | Some e =>
           BorrowingsPage.borrowings (op w).1 = BorrowingsPage.borrowings s
           /\ raised op w
              = [ {| title := "Error";
                     description := if bool_decide (message e = "")
                                    then "Failed to load borrowings"
                                    else message e;
                     destructive := true |} ]
       | None =>
           BorrowingsPage.borrowings (op w).1 = default [] d
           /\ raised op w = []
       end in
  match user with
  | None => op w = (s, w)
  | Some u =>
      if bool_decide (email u = Some "ademmsallem782@gmail.com")
      then remote_calls (issued op w) = [from_admin_borrowings_select]
           /\ outcome (error (backend h from_admin_borrowings_select))
                      (data (backend h from_admin_borrowings_select))
      else remote_calls (issued op w) = [rpc_get_user_borrowings (user_id u)]
           /\ outcome (error (backend h (rpc_get_user_borrowings (user_id u))))
                      (data (backend h (rpc_get_user_borrowings (user_id u))))
  end.
Proof.
  cbv zeta. destruct user as [u|]; [|reflexivity].
  unfold BorrowingsPage.fetchBorrowings, BorrowingsPage.isAdmin,
    BorrowingsPage.ADMIN_EMAIL, BorrowingsPage.settle, strict_eq.
  cbn [opt_email].
  destruct (bool_decide (email u = Some "ademmsallem782@gmail.com")); run;
    destruct (error _); run; read_trace; repeat split.
Qed.

(** Building the list of claims succeeds exactly when every row carries
    an array of items and every item carries its shop item; the claims then
    keep the ids, states and addresses of the rows, in order. *)
Lemma transformedData_complete (rows : list ClaimRow) :
  is_Some (AdminClaimsPanel.transformedData rows)
  <-> Forall (fun claim =>
                exists items,
                  cr_items claim = Some items
                  /\ Forall (fun item => exists i shop_item,
                                item = Some i /\ ri_item i = Some shop_item)
                       items) rows.
Proof.
  unfold AdminClaimsPanel.transformedData. rewrite mapM_is_Some.
  apply Forall_proper; [|reflexivity]. intros claim.
  unfold compose, AdminClaimsPanel.transform_claim.
  destruct (cr_items claim) as [items|].
  - destruct (mapM AdminClaimsPanel.transform_item items) as [claim_items|] eqn:Hitems.
    + split; [|by eauto]. intros _. exists items. split; [reflexivity|].
      assert (His : is_Some (mapM AdminClaimsPanel.transform_item items)) by eauto.
      rewrite mapM_is_Some in His.
      eapply Forall_impl; [exact His|]. intros [i|] [ci Hci]; cbn in Hci.
      * destruct (ri_item i) eqn:Hshop; [eauto|discriminate].
      * discriminate.
    + split; [by intros []|]. intros (items' & [= <-] & Hall).
      assert (His : is_Some (mapM AdminClaimsPanel.transform_item items)).
      { rewrite mapM_is_Some. eapply Forall_impl; [exact Hall|].
        intros item (i & shop_item & -> & Hshop). cbn. rewrite Hshop. eauto. }
      rewrite Hitems in His. by destruct His.
  - split; [by intros []|]. by intros (items & [=] & _).
Qed.

Lemma transformedData_keeps (rows : list ClaimRow) (transformed : list Claim) :
  AdminClaimsPanel.transformedData rows = Some transformed ->
  c_id <$> transformed = cr_id <$> rows
  /\ c_status <$> transformed = cr_status <$> rows
  /\ c_user_email <$> transformed = cr_user_email <$> rows.
Proof.
  unfold AdminClaimsPanel.transformedData. rewrite mapM_Some.
  induction 1 as [|row claim rows transformed Hrow _ IH]; [done|].
  unfold AdminClaimsPanel.transform_claim in Hrow.
  destruct (cr_items row); [|discriminate].
  destruct (mapM _ _); [|discriminate].
  injection Hrow as <-. destruct IH as (Hid & Hstatus & Hemail).
  cbn. rewrite Hid, Hstatus, Hemail. done.
Qed.

(** [X19] A decision on a claim is sent as the word "approved" or
    "rejected" and nothing else.  When the backend refuses it, no second
    request is made, the list of claims stays as it was and the banner
    carries the backend's message (or "Failed to update claim status").
    When it is accepted, the success banner names the decision and the
    claims are read again.  If that read is refused, the list stays as it
    was and a second banner is raised.  If it is answered, the rows
    (none for [null]) are turned into claims: when every row carries an
    array of items and every item its shop item, the list becomes these
    claims, which keep the ids, states and addresses of the rows in order;
    otherwise the list stays as it was and a second banner carries the
    message of the [TypeError].  The per-claim spinner is cleared in every
    case. *)
Theorem X19_claim_decision_outcome (backend : Backend)
    (type_error_message : list ClaimRow -> string) (claimId : string)
    (newStatus : AdminClaimsPanel.Decision) (s : AdminClaimsPanel.State)
    (w : World) :
  let op := AdminClaimsPanel.handleUpdateStatus backend type_error_message
              claimId newStatus s in
  let h := remote_calls (trace w) in
  let word := match newStatus with
              | AdminClaimsPanel.approved => "approved"
              | AdminClaimsPanel.rejected => "rejected"
              end in
  let update := rpc_update_claim_status_with_notification claimId word in
  let reread := backend (h ++ [update]) from_claims_with_user_select in
  let rows := default [] (data reread) in
  let complete (claim : ClaimRow) :=
    exists items,
      cr_items claim = Some items
      /\ Forall (fun item => exists i shop_item,
                    item = Some i /\ ri_item i = Some shop_item) items in
  let complaint (msg : string) (fallback : string) :=
    {| title := "Error";
       description := if bool_decide (msg = "") then fallback else msg;
       destructive := true |} in
  AdminClaimsPanel.updating (op w).1 = None
  /\ (is_Some (AdminClaimsPanel.transformedData rows) <-> Forall complete rows)
  /\ match error (backend h update) with
     | Some e =>
         remote_calls (issued op w) = [update]
         /\ (op w).1 = {| AdminClaimsPanel.claims := AdminClaimsPanel.claims s;
                          AdminClaimsPanel.loading := AdminClaimsPanel.loading s;
                          AdminClaimsPanel.updating := None |}
         /\ raised op w
            = [complaint (message e) "Failed to update claim status"]
     | None =>
         remote_calls (issued op w) = [update; from_claims_with_user_select]
         /\ AdminClaimsPanel.loading (op w).1 = false
         /\ match error reread with
            | Some e =>
                AdminClaimsPanel.claims (op w).1 = AdminClaimsPanel.claims s
                /\ raised op w
                   = [ AdminClaimsPanel.status_updated newStatus;
                       complaint (message e) "Failed to load claims" ]
            | None =>
                match AdminClaimsPanel.transformedData rows with
                | Some transformed =>
                    AdminClaimsPanel.claims (op w).1 = transformed
                    /\ c_id <$> transformed = cr_id <$> rows
                    /\ c_status <$> transformed = cr_status <$> rows
                    /\ c_user_email <$> transformed = cr_user_email <$> rows
                    /\ raised op w = [AdminClaimsPanel.status_updated newStatus]
                | None =>
                    AdminClaimsPanel.claims (op w).1 = AdminClaimsPanel.claims s
                    /\ raised op w
                       = [ AdminClaimsPanel.status_updated newStatus;
                           complaint (type_error_message rows)
                             "Failed to load claims" ]
                end
            end
     end.
Proof.
  cbv zeta. split; [|split; [apply transformedData_complete|]].
  all: unfold AdminClaimsPanel.handleUpdateStatus, AdminClaimsPanel.fetchClaims_resume.
  all: replace (AdminClaimsPanel.decision_text newStatus)
         with (match newStatus with
               | AdminClaimsPanel.approved => "approved"
               | AdminClaimsPanel.rejected => "rejected"
               end) by (by destruct newStatus).
  all: run; destruct (error (backend (remote_calls (trace w)) _)) as [e|].
  all: run; rewrite ?remote_calls_snoc.
  all: try (match goal with
            | |- context [error ?r] => destruct (error r)
            end; run).
  all: try (match goal with
            | |- context [AdminClaimsPanel.transformedData ?l] =>
                pose proof (transformedData_keeps l) as Hkeeps;
                destruct (AdminClaimsPanel.transformedData l)
            end; run).
  all: repeat rewrite <- app_assoc; rewrite ?drop_app_length.
  all: repeat split; try (by apply Hkeeps).
Qed.

(** One row without its items is enough for the whole list to be dropped:
    the approval is reported as done, the list stays empty and the engine's
    message is shown. *)
Example approval_with_a_row_without_items :
  let op := AdminClaimsPanel.handleUpdateStatus Sample.claims_store
              Sample.engine_wording "claim-12" AdminClaimsPanel.approved
              Sample.no_claims in
  AdminClaimsPanel.claims (op fresh).1 = []
  /\ raised op fresh
     = [ {| title := "Success"; description := "Claim approved successfully!";
            destructive := false |};
         {| title := "Error";
            description := "Cannot read properties of null (reading 'map')";
            destructive := true |} ].
Proof. split; vm_compute; reflexivity. Qed.

(** ** Do the admin checks agree? *)

(** [X20] The components do not all decide "administrator" from the same
    source, so they can disagree about one account.  The leaderboard (which
    reads the environment) and the borrowings page (which names the address
    literally) agree on every signed-in account exactly when
    [VITE_ADMIN_EMAIL] is set to the built-in address; and when it is, all
    the checks driven by that variable or by the literal address give the
    same answer for every account. *)
Theorem X20_admin_checks_agree_iff_default_address (env : AdminIdentity.Env) :
  let configured_default :=
    AdminIdentity.VITE_ADMIN_EMAIL env = Some AdminIdentity.BUILT_IN in
  ((forall u, AdminIdentity.Leaderboard_isAdmin env (Some u)
              = AdminIdentity.BorrowingsPage_isAdmin env (Some u))
   <-> configured_default)
  /\ (configured_default ->
      forall u,
        let answer := AdminIdentity.Leaderboard_isAdmin env (Some u) in
        AdminIdentity.ShopPage_isAdmin env (Some u) = answer
        /\ AdminIdentity.AnnouncementsPage_isAdmin env (Some u) = answer
        /\ AdminIdentity.AnnouncementsConfigPage_isAdmin env u = answer
        /\ AdminIdentity.AdminConfigPage_isAdmin env u = answer
        /\ AdminIdentity.ProtectedRoute_isAdmin env (Some u) = answer
        /\ AdminIdentity.UserHeader_isAdmin env (Some u) = answer
        /\ AdminIdentity.AdminPanel_isAuthorizedAdmin env (Some u) = answer
        /\ AdminIdentity.Setup_isAdmin env (Some u) = answer
        /\ AdminIdentity.UserManagement_isAdmin env (Some u) = answer
        /\ AdminIdentity.BorrowingsPage_isAdmin env (Some u) = answer).
Proof.
  cbv zeta. split; [split|].
  - intros Hagree.
    specialize (Hagree {| user_id := "probe";
                          email := AdminIdentity.VITE_ADMIN_EMAIL env |}).
    unfold AdminIdentity.Leaderboard_isAdmin, AdminIdentity.BorrowingsPage_isAdmin,
      BorrowingsPage.isAdmin, BorrowingsPage.ADMIN_EMAIL, strict_eq in Hagree.
    cbn [opt_email email] in Hagree.
    rewrite bool_decide_eq_true_2 in Hagree by reflexivity.
    symmetry in Hagree. by apply bool_decide_eq_true in Hagree.
  - intros Hdefault u.
    unfold AdminIdentity.Leaderboard_isAdmin, AdminIdentity.BorrowingsPage_isAdmin,
      BorrowingsPage.isAdmin, BorrowingsPage.ADMIN_EMAIL.
    rewrite Hdefault. reflexivity.
  - intros Hdefault u.
    unfold AdminIdentity.Leaderboard_isAdmin, AdminIdentity.ShopPage_isAdmin,
      AdminIdentity.AnnouncementsPage_isAdmin,
      AdminIdentity.AnnouncementsConfigPage_isAdmin,
      AdminIdentity.AdminConfigPage_isAdmin,
      AdminIdentity.ProtectedRoute_isAdmin,
      AdminIdentity.ProtectedRoute_ADMIN_EMAIL,
      AdminIdentity.UserHeader_isAdmin,
      AdminIdentity.AdminPanel_isAuthorizedAdmin, AdminPanel.on_user_change,
      AdminPanel.ADMIN_EMAIL,
      AdminIdentity.Setup_isAdmin, AdminIdentity.UserManagement_isAdmin,
      AdminIdentity.BorrowingsPage_isAdmin, BorrowingsPage.isAdmin,
      BorrowingsPage.ADMIN_EMAIL.
    rewrite Hdefault. cbn [opt_email].
    repeat split.
    destruct (strict_eq (email u) _); reflexivity.
Qed.

(** ** Bounds on every load of the equipment page *)

(** [X21] Whatever the backend answers, one run of [fetchEquipment] sends
    at most five requests, raises at most one banner, ends with the loading
    flag cleared, and never shows the failure banner together with a
    changed list: when the list on screen changes, no banner is raised. *)
Theorem X21_fetchEquipment_bounds (backend : Backend)
    (s : EquipmentPage.State) (w : World) :
  let op := EquipmentPage.fetchEquipment backend s in
  (length (remote_calls (issued op w)) <= 5)%nat
  /\ (raised op w = [] \/ raised op w = [EquipmentPage.load_failed])
  /\ EquipmentPage.loading (op w).1 = false
  /\ (EquipmentPage.equipment (op w).1 <> EquipmentPage.equipment s ->
      raised op w = []).
Proof.
  cbv zeta.
  unfold EquipmentPage.fetchEquipment, EquipmentPage.failed, EquipmentPage.finished.
  run.
  repeat
    (cbn beta iota; cbn [trace toasts fst snd];
     match goal with
     | |- context [match error ?r with _ => _ end] => destruct (error r)
     | |- context [match data ?r with _ => _ end] => destruct (data r)
     | |- context [match ?d with EmptyText => _ | _ => _ end] => destruct d
     | |- context [match ?d with NotArray _ => _ | _ => _ end] => destruct d
     | |- context [match ?d with [] => _ | _ => _ end] => destruct d
     end).
  all: cbn beta iota; cbn [trace toasts fst snd]; read_trace.
  all: repeat split; try lia; try (by left); try (by right); try done.
Qed.
